(** * SITE-EMAR 2026 conference front end: paper and registration workflow

    A shallow embedding of the workflow functions of the browser code
    (paper submission, admin review, role resolution, registration form)
    together with a model of the hosted backend they talk to, and the
    properties of the workflow contract proved over it.

    Conventions.
    - JavaScript strings are Rocq [string]s, one character per code unit,
      so they hold the code units below 256; [toLowerCase]/[toUpperCase]
      act on the ASCII letters, and a statement that depends on them says
      [ascii_only]. [Wide] has the file-type check on all code units.
    - Numbers that the code only compares or copies (file sizes, the
      millisecond clock) are [Z].
    - An [async] function is a state transformer over [World], the state of
      the hosted backend as the browser sees it; a [throw] is an outcome of
      its own, and [try ... catch] is [try_catch].
    - The client SDK never throws: every request resolves to
      [{ data, error }], which is [Resp]. *)

From Stdlib Require Import ZArith String Ascii List Lia Bool Sorted.
From stdpp Require Import base option list gmap strings pretty.

(* ================================================================== *)
(** ** JavaScript values and string built-ins *)
(* ================================================================== *)

Module Js.

(** [!!s] for a string: only the empty string is falsy. *)
Definition truthy (s : string) : bool := negb (String.eqb s "").

(** [v || d] where [v] is a string or [undefined]/[null]. *)
Definition or_else (v : option string) (d : string) : string :=
  match v with
  | Some s => if truthy s then s else d
  | None => d
  end.

(** [v] in a boolean position, where [v] is a string or [null]. *)
Definition truthy_opt (v : option string) : bool :=
  match v with
  | Some s => truthy s
  | None => false
  end.

Definition is_upper (c : ascii) : bool :=
  let n := N_of_ascii c in (65 <=? n)%N && (n <=? 90)%N.

Definition is_lower (c : ascii) : bool :=
  let n := N_of_ascii c in (97 <=? n)%N && (n <=? 122)%N.

Definition lower_char (c : ascii) : ascii :=
  if is_upper c then ascii_of_N (N_of_ascii c + 32) else c.

Definition upper_char (c : ascii) : ascii :=
  if is_lower c then ascii_of_N (N_of_ascii c - 32) else c.

Fixpoint map_chars (f : ascii -> ascii) (s : string) : string :=
  match s with
  | EmptyString => EmptyString
  | String c s' => String (f c) (map_chars f s')
  end.

Definition toLowerCase (s : string) : string := map_chars lower_char s.
Definition toUpperCase (s : string) : string := map_chars upper_char s.

(** [s.lastIndexOf(c)], scanning from index [i] with [acc] the last
    index seen so far; [-1] when the character does not occur. *)
Fixpoint lastIndexOf_from (c : ascii) (s : string) (i acc : Z) : Z :=
  match s with
  | EmptyString => acc
  | String a s' =>
      lastIndexOf_from c s' (i + 1) (if Ascii.eqb a c then i else acc)
  end.

Definition lastIndexOf (c : ascii) (s : string) : Z :=
  lastIndexOf_from c s 0 (-1).

Fixpoint drop_chars (n : nat) (s : string) : string :=
  match n, s with
  | O, _ => s
  | S n', String _ s' => drop_chars n' s'
  | S _, EmptyString => EmptyString
  end.

(** [s.substring(i)]: a negative start counts as 0, a start past the end
    gives the empty string. *)
Definition substring (s : string) (i : Z) : string :=
  drop_chars (Z.to_nat (Z.max 0 i)) s.

(** [s.slice(1)] and [s.charAt(0)]. *)
Definition slice1 (s : string) : string := drop_chars 1 s.

Definition charAt0 (s : string) : string :=
  match s with
  | EmptyString => EmptyString
  | String c _ => String c EmptyString
  end.

(** [s.startsWith(p)]. *)
Definition startsWith (s p : string) : bool := String.prefix p s.

(** [s.replace(/_/g, ' ')]. *)
Definition replace_underscores (s : string) : string :=
  map_chars (fun c => if Ascii.eqb c "_" then " "%char else c) s.

(** [arr.includes(x)] on an array of strings. *)
Definition includes (arr : list string) (x : string) : bool :=
  existsb (String.eqb x) arr.

(** The line break of a template literal. *)
Definition nl : string := String "010" EmptyString.

(** A plain object with string and number properties, as the audit
    payloads are. *)
Inductive Val := Str (s : string) | Num (n : Z).

Definition Obj := list (string * Val).

Fixpoint get (o : Obj) (k : string) : option Val :=
  match o with
  | [] => None
  | (k', v) :: o' => if String.eqb k' k then Some v else get o' k
  end.

(** [o[k] || null] where the property, if present, is a string. *)
Definition get_string_or_null (o : Obj) (k : string) : option string :=
  match get o k with
  | Some (Str s) => if truthy s then Some s else None
  | _ => None
  end.

(** [s.length] *)
Definition length (s : string) : Z := Z.of_nat (String.length s).

Fixpoint take_chars (n : nat) (s : string) : string :=
  match n, s with
  | O, _ => EmptyString
  | S n', String c s' => String c (take_chars n' s')
  | S _, EmptyString => EmptyString
  end.

(** [s.substring(start, end)]: both ends are clamped to [0, s.length] and
    swapped when [start > end]. *)
Definition substring_range (s : string) (start end_ : Z) : string :=
  let clamp := fun i => Z.to_nat (Z.min (Z.max 0 i) (length s)) in
  let a := clamp start in
  let b := clamp end_ in
  take_chars (Nat.max a b - Nat.min a b) (drop_chars (Nat.min a b) s).

End Js.

(** The uniform result object [{ success, data | error }] every workflow
    operation returns. *)
Inductive Result (A : Type) : Type :=
| Success (data : A)
| Failure (error : string).
Arguments Success {A} data.
Arguments Failure {A} error.

Definition succeeded {A} (r : Result A) : bool :=
  match r with Success _ => true | Failure _ => false end.

(* ================================================================== *)
(** ** Record store tables (the columns the workflow reads or writes) *)
(* ================================================================== *)

Module Users.
Record row := {
  id : string;
  auth_id : string;
  title : string;
  full_name : string;
  email : string
}.
End Users.

Module Admins.
Record row := {
  id : string;
  auth_id : string;
  full_name : string;
  email : string;
  role : string;
  is_active : bool
}.
End Admins.

Module Papers.
Record row := {
  id : string;
  user_id : string;
  user_name : string;
  user_email : string;
  paper_title : string;
  abstract : string;
  keywords : list string;
  file_name : string;
  file_url : option string;
  file_size_bytes : Z;
  status : string;
  reviewed_by : option string;
  reviewer_name : option string;
  review_date : option string;
  review_comments : option string;
  created_at : string
}.

(** The object handed to [insert]: the record store fills in [id],
    [created_at] and leaves the review columns null. *)
Record draft := {
  d_user_id : string;
  d_user_name : string;
  d_user_email : string;
  d_paper_title : string;
  d_abstract : string;
  d_keywords : list string;
  d_file_name : string;
  d_file_url : string;
  d_file_size_bytes : Z;
  d_status : string
}.

Definition of_draft (new_id now : string) (d : draft) : row :=
  {| id := new_id;
     user_id := d_user_id d;
     user_name := d_user_name d;
     user_email := d_user_email d;
     paper_title := d_paper_title d;
     abstract := d_abstract d;
     keywords := d_keywords d;
     file_name := d_file_name d;
     file_url := Some (d_file_url d);
     file_size_bytes := d_file_size_bytes d;
     status := d_status d;
     reviewed_by := None;
     reviewer_name := None;
     review_date := None;
     review_comments := None;
     created_at := now |}.

(** The object handed to [update] by the review path. *)
Record review := {
  r_status : string;
  r_reviewed_by : string;
  r_reviewer_name : string;
  r_review_date : string;
  r_review_comments : string
}.

Definition with_review (r : review) (p : row) : row :=
  {| id := id p;
     user_id := user_id p;
     user_name := user_name p;
     user_email := user_email p;
     paper_title := paper_title p;
     abstract := abstract p;
     keywords := keywords p;
     file_name := file_name p;
     file_url := file_url p;
     file_size_bytes := file_size_bytes p;
     status := r_status r;
     reviewed_by := Some (r_reviewed_by r);
     reviewer_name := Some (r_reviewer_name r);
     review_date := Some (r_review_date r);
     review_comments := Some (r_review_comments r);
     created_at := created_at p |}.

(** The embedded resource [users:user_id (title, full_name, email)]. *)
Record owner := {
  o_title : string;
  o_full_name : string;
  o_email : string
}.

(** A paper row selected together with its owner. *)
Record joined := {
  paper : row;
  users : option owner
}.
End Papers.

Module ActivityLogs.
Record row := {
  admin_id : string;
  actor_email : string;
  actor_role : string;
  action_type : string;
  action_description : string;
  target_table : string;
  target_id : option string;
  new_data : Js.Obj
}.
End ActivityLogs.

Module EmailNotifications.
Record row := {
  recipient_email : string;
  recipient_name : string;
  subject : string;
  body : string;
  type : string;
  status : string;
  sent_at : string
}.
End EmailNotifications.

(** The browser's [File]: the code reads its name and its size. *)
Record File := {
  name : string;
  size : Z
}.

(** The identity [auth.getUser()] resolves to. *)
Record AuthUser := {
  uid : string;
  auth_email : string
}.

(* ================================================================== *)
(** ** The hosted backend, as the browser sees it *)
(* ================================================================== *)

Module Backend.

(** One request to the backend; the trace of a run is what a network
    monitor would show. *)
Inductive Call :=
| AuthGetUser
| DbSelect (table : string)
| DbInsert (table : string)
| DbUpdate (table : string)
| DbDelete (table : string)
| StorageUpload (bucket key : string)
| StorageRemove (bucket : string) (keys : list (option string)).

Definition is_read (c : Call) : bool :=
  match c with
  | AuthGetUser | DbSelect _ => true
  | _ => false
  end.

(** The state of the service: the signed-in identity, the tables, the
    [papers] bucket, the clock, how many ids the record store has handed
    out, the mail composers the page has opened, the requests issued so
    far, and the failures the service will answer the coming requests
    with ([None]: the request is served). *)
Record World := {
  session_user : option AuthUser;
  users : list Users.row;
  admins : list Admins.row;
  papers : list Papers.row;
  activity_logs : list ActivityLogs.row;
  email_notifications : list EmailNotifications.row;
  bucket : gmap string File;
  clock : Z;
  issued_ids : nat;
  opened_windows : list string;
  trace : list Call;
  faults : list (option string)
}.

Definition set_papers (v : list Papers.row) (w : World) : World :=
  {| session_user := session_user w; users := users w; admins := admins w;
     papers := v; activity_logs := activity_logs w;
     email_notifications := email_notifications w; bucket := bucket w;
     clock := clock w; issued_ids := issued_ids w;
     opened_windows := opened_windows w; trace := trace w;
     faults := faults w |}.

Definition set_activity_logs (v : list ActivityLogs.row) (w : World) : World :=
  {| session_user := session_user w; users := users w; admins := admins w;
     papers := papers w; activity_logs := v;
     email_notifications := email_notifications w; bucket := bucket w;
     clock := clock w; issued_ids := issued_ids w;
     opened_windows := opened_windows w; trace := trace w;
     faults := faults w |}.

Definition set_email_notifications (v : list EmailNotifications.row)
    (w : World) : World :=
  {| session_user := session_user w; users := users w; admins := admins w;
     papers := papers w; activity_logs := activity_logs w;
     email_notifications := v; bucket := bucket w;
     clock := clock w; issued_ids := issued_ids w;
     opened_windows := opened_windows w; trace := trace w;
     faults := faults w |}.

Definition set_bucket (v : gmap string File) (w : World) : World :=
  {| session_user := session_user w; users := users w; admins := admins w;
     papers := papers w; activity_logs := activity_logs w;
     email_notifications := email_notifications w; bucket := v;
     clock := clock w; issued_ids := issued_ids w;
     opened_windows := opened_windows w; trace := trace w;
     faults := faults w |}.

Definition set_issued_ids (v : nat) (w : World) : World :=
  {| session_user := session_user w; users := users w; admins := admins w;
     papers := papers w; activity_logs := activity_logs w;
     email_notifications := email_notifications w; bucket := bucket w;
     clock := clock w; issued_ids := v;
     opened_windows := opened_windows w; trace := trace w;
     faults := faults w |}.

Definition set_opened_windows (v : list string) (w : World) : World :=
  {| session_user := session_user w; users := users w; admins := admins w;
     papers := papers w; activity_logs := activity_logs w;
     email_notifications := email_notifications w; bucket := bucket w;
     clock := clock w; issued_ids := issued_ids w;
     opened_windows := v; trace := trace w;
     faults := faults w |}.

Definition set_trace (v : list Call) (w : World) : World :=
  {| session_user := session_user w; users := users w; admins := admins w;
     papers := papers w; activity_logs := activity_logs w;
     email_notifications := email_notifications w; bucket := bucket w;
     clock := clock w; issued_ids := issued_ids w;
     opened_windows := opened_windows w; trace := v;
     faults := faults w |}.

Definition set_faults (v : list (option string)) (w : World) : World :=
  {| session_user := session_user w; users := users w; admins := admins w;
     papers := papers w; activity_logs := activity_logs w;
     email_notifications := email_notifications w; bucket := bucket w;
     clock := clock w; issued_ids := issued_ids w;
     opened_windows := opened_windows w; trace := trace w;
     faults := v |}.

(** *** Async functions: state, and exceptions *)

Inductive Outcome (A : Type) : Type :=
| Returned (a : A)
| Thrown (message : string).
Arguments Returned {A} a.
Arguments Thrown {A} message.

Definition Async (A : Type) : Type := World -> Outcome A * World.

Definition ret {A} (a : A) : Async A := fun w => (Returned a, w).

Definition throw {A} (message : string) : Async A :=
  fun w => (Thrown message, w).

(** A built-in that returns or throws, called from an [async] function. *)
Definition call {A} (o : Outcome A) : Async A := fun w => (o, w).

Definition bind {A B} (m : Async A) (k : A -> Async B) : Async B :=
  fun w =>
    match m w with
    | (Returned a, w') => k a w'
    | (Thrown e, w') => (Thrown e, w')
    end.

(** [try { body } catch (error) { handler(error.message) }]. *)
Definition try_catch {A} (body : Async A) (handler : string -> Async A)
    : Async A :=
  fun w =>
    match body w with
    | (Returned a, w') => (Returned a, w')
    | (Thrown e, w') => handler e w'
    end.

(** Reading and changing the page's own state. *)
Definition gets {A} (f : World -> A) : Async A := fun w => (Returned (f w), w).

Definition modify (f : World -> World) : Async unit :=
  fun w => (Returned tt, f w).

(** *** Responses *)

(** [{ data, error }]: exactly one of the two is set. *)
Inductive Resp (A : Type) : Type :=
| Data (data : A)
| Error (message : string).
Arguments Data {A} data.
Arguments Error {A} message.

Definition data_of {A} (r : Resp A) : option A :=
  match r with Data a => Some a | Error _ => None end.

Definition error_of {A} (r : Resp A) : option string :=
  match r with Data _ => None | Error e => Some e end.

(** [.single()]: the result must be exactly one row. *)
Definition single {A} (rows : list A) : Resp A :=
  match rows with
  | [r] => Data r
  | _ => Error "JSON object requested, multiple (or no) rows returned"
  end.

(** The failure the next request is answered with, if any. *)
Definition next_fault (w : World) : option string :=
  match faults w with
  | f :: _ => f
  | [] => None
  end.

(** Issuing a request records it and uses up the service's next
    decision. *)
Definition issue (c : Call) (w : World) : World :=
  set_faults (tail (faults w)) (set_trace (trace w ++ [c]) w).

(** One request: it is issued, the service decides whether it fails, and
    if not it is served. *)
Definition request {A} (c : Call) (serve : World -> Resp A * World)
    : Async (Resp A) :=
  fun w =>
    match next_fault w with
    | Some e => (Returned (Error e), issue c w)
    | None => let (r, w2) := serve (issue c w) in (Returned r, w2)
    end.

(** The failure the [k]-th coming request is answered with, if any. *)
Definition fault_at (k : nat) (w : World) : option string :=
  nth k (faults w) None.

(** The service answers every coming request. *)
Definition healthy (w : World) : Prop := forall k, fault_at k w = None.

End Backend.

Import Backend.

Declare Scope async_scope.
Delimit Scope async_scope with async.
Notation "'let!' x ':=' m 'in' k" := (bind m (fun x => k))
  (at level 10, x name, m at level 100, k at level 200) : async_scope.
Notation "'run!' m 'in' k" := (bind m (fun _ => k))
  (at level 10, m at level 100, k at level 200) : async_scope.
Open Scope async_scope.

(** Built-ins of the browser and of the record store whose output the
    workflow only copies into rows and messages: they are parameters of the
    development. *)
Record Runtime := {
  (** [new Date(ms).toISOString()] *)
  toISOString : Z -> string;
  (** [new Date(s).toLocaleString('en-IN', ...)] *)
  toLocaleString_en_IN : string -> string;
  (** [JSON.stringify] on a plain object *)
  JSON_stringify : Js.Obj -> string;
  (** [encodeURIComponent(s)]: the encoded text, or the [URIError] it throws
      (on a lone surrogate) with the engine's message *)
  encodeURIComponent : string -> Outcome string;
  (** what a template literal prints for [({})[key]], when an object literal
      inherits a truthy member under [key] ([constructor], [toString],
      [__proto__], ...); [None] for a key it inherits nothing truthy under *)
  inherited_member : string -> option string;
  (** [window.location.origin] *)
  location_origin : string;
  (** the [n]-th id the record store hands out *)
  gen_random_uuid : nat -> string;
  (** the record store's [now()] as it prints it *)
  db_now : Z -> string
}.

(* ================================================================== *)
(** ** The client SDK calls the workflow makes *)
(* ================================================================== *)

Module Supabase.
Section Sdk.
Variable rt : Runtime.

(** [supabaseClient.auth.getUser()] *)
Definition auth_getUser : Async (Resp AuthUser) :=
  request AuthGetUser
    (fun w =>
       (match session_user w with
        | Some u => Data u
        | None => Error "Auth session missing!"
        end, w)).

(** [.from(table).select('*') <filters> .single()] *)
Definition select_single {A} (table : string) (rows : World -> list A)
    (cond : A -> bool) : Async (Resp A) :=
  request (DbSelect table)
    (fun w => (single (List.filter cond (rows w)), w)).

(** [.from('papers').select('file_url')]: one object per row, holding
    that column only. *)
Definition papers_select_file_url : Async (Resp (list (option string))) :=
  request (DbSelect "papers")
    (fun w => (Data (List.map Papers.file_url (papers w)), w)).

(** [.from('papers').delete().eq('id', paperId)] *)
Definition papers_delete_eq_id (paperId : string) : Async (Resp unit) :=
  request (DbDelete "papers")
    (fun w =>
       (Data tt,
        set_papers
          (List.filter (fun p => negb (String.eqb (Papers.id p) paperId))
             (papers w)) w)).

(** [.from('papers').delete().neq('id', v)] *)
Definition papers_delete_neq_id (v : string) : Async (Resp unit) :=
  request (DbDelete "papers")
    (fun w =>
       (Data tt,
        set_papers
          (List.filter (fun p => String.eqb (Papers.id p) v) (papers w)) w)).

(** [.from('papers').insert([d]).select().single()] *)
Definition papers_insert_single (d : Papers.draft) : Async (Resp Papers.row) :=
  request (DbInsert "papers")
    (fun w =>
       let p := Papers.of_draft (gen_random_uuid rt (issued_ids w))
                  (db_now rt (clock w)) d in
       (Data p,
        set_issued_ids (S (issued_ids w)) (set_papers (papers w ++ [p]) w))).

(** The owner embedded by [users:user_id (title, full_name, email)]. *)
Definition owner_of (us : list Users.row) (p : Papers.row)
    : option Papers.owner :=
  match List.find (fun u => String.eqb (Users.id u) (Papers.user_id p)) us with
  | Some u =>
      Some {| Papers.o_title := Users.title u;
              Papers.o_full_name := Users.full_name u;
              Papers.o_email := Users.email u |}
  | None => None
  end.

(** [.from('papers').update(r).eq('id', paperId)
      .select('*, users:user_id (...)').single()]:
    a request for a single object that does not match exactly one row is
    answered with an error and changes nothing. *)
Definition papers_update_eq_id_single (r : Papers.review) (paperId : string)
    : Async (Resp Papers.joined) :=
  request (DbUpdate "papers")
    (fun w =>
       let hit := fun p => String.eqb (Papers.id p) paperId in
       match single (List.filter hit (papers w)) with
       | Data p =>
           let p' := Papers.with_review r p in
           (Data {| Papers.paper := p'; Papers.users := owner_of (users w) p' |},
            set_papers
              (List.map (fun q => if hit q then Papers.with_review r q else q)
                 (papers w)) w)
       | Error e => (Error e, w)
       end).

(** [.storage.from(b).upload(key, file, { upsert: false })] *)
Definition storage_upload (b key : string) (file : File)
    : Async (Resp string) :=
  request (StorageUpload b key)
    (fun w =>
       match bucket w !! key with
       | Some _ => (Error "The resource already exists", w)
       | None => (Data key, set_bucket (<[key := file]> (bucket w)) w)
       end).

Definition remove_key (k : option string) (b : gmap string File)
    : gmap string File :=
  match k with
  | Some key => delete key b
  | None => b
  end.

(** [.storage.from(b).remove(keys)] *)
Definition storage_remove (b : string) (keys : list (option string))
    : Async (Resp unit) :=
  request (StorageRemove b keys)
    (fun w => (Data tt, set_bucket (foldr remove_key (bucket w) keys) w)).

(** [.from('activity_logs').insert([row])] *)
Definition activity_logs_insert (row : ActivityLogs.row) : Async (Resp unit) :=
  request (DbInsert "activity_logs")
    (fun w => (Data tt, set_activity_logs (activity_logs w ++ [row]) w)).

(** [.from('email_notifications').insert([row])] *)
Definition email_notifications_insert (row : EmailNotifications.row)
    : Async (Resp unit) :=
  request (DbInsert "email_notifications")
    (fun w =>
       (Data tt, set_email_notifications (email_notifications w ++ [row]) w)).

(** The instant a timestamp of the record store denotes; [order] sorts by
    it. *)
Variable instant_of : string -> Z.

(** Rows by [created_at], newest first; rows of the same instant come in
    the order the table has them. *)
Fixpoint insert_newest_first (p : Papers.row) (l : list Papers.row)
    : list Papers.row :=
  match l with
  | [] => [p]
  | q :: l' =>
      if (instant_of (Papers.created_at q) <=? instant_of (Papers.created_at p))%Z
      then p :: q :: l'
      else q :: insert_newest_first p l'
  end.

Definition newest_first (l : list Papers.row) : list Papers.row :=
  fold_right insert_newest_first [] l.

(** [.from('papers').select('*').eq('user_id', userId)
      .order('created_at', { ascending: false })] *)
Definition papers_select_eq_user_id (userId : string)
    : Async (Resp (list Papers.row)) :=
  request (DbSelect "papers")
    (fun w =>
       (Data (newest_first
                (List.filter (fun p => String.eqb (Papers.user_id p) userId)
                   (papers w))), w)).

(** The [users] object embedded by [users:user_id (...)] in a listing: of
    the columns it asks for ([full_name], [email], [phone], [affiliation],
    [designation], [category]) those the tables here carry. *)
Record listed := {
  l_full_name : string;
  l_email : string
}.

Definition listed_owner (us : list Users.row) (p : Papers.row)
    : option listed :=
  match List.find (fun u => String.eqb (Users.id u) (Papers.user_id p)) us with
  | Some u =>
      Some {| l_full_name := Users.full_name u; l_email := Users.email u |}
  | None => None
  end.

(** [.from('papers').select('*, users:user_id (...)')
      .order('created_at', { ascending: false })], with
    [.eq('status', status)] when a status is given. *)
Definition papers_select_listing (status : option string)
    : Async (Resp (list (Papers.row * option listed))) :=
  request (DbSelect "papers")
    (fun w =>
       let rows :=
         match status with
         | Some st => List.filter (fun p => String.eqb (Papers.status p) st) (papers w)
         | None => papers w
         end in
       (Data (List.map (fun p => (p, listed_owner (users w) p))
                (newest_first rows)), w)).

End Sdk.
End Supabase.

(* ================================================================== *)
(** ** supabaseClient.js: identity helpers *)
(* ================================================================== *)

Module SupabaseClient.

Definition getCurrentUser : Async (option AuthUser) :=
  let! r := Supabase.auth_getUser in
  ret (data_of r).

Definition active_admin_of (authId : string) (a : Admins.row) : bool :=
  String.eqb (Admins.auth_id a) authId && Bool.eqb (Admins.is_active a) true.

Definition isAdmin : Async (option Admins.row) :=
  let! user := getCurrentUser in
  match user with
  | None => ret None
  | Some u =>
      let! r := Supabase.select_single "admins" admins (active_admin_of (uid u)) in
      match r with
      | Error _ => ret None
      | Data data => ret (Some data)
      end
  end.

End SupabaseClient.

(* ================================================================== *)
(** ** Regular expressions, as the validators use them *)
(* ================================================================== *)

Module Regex.

(** The regular expressions of the source are built from character
    classes, sequence, optional parts and bounded or unbounded repetition;
    [test] is the whole-string match of [/^r$/.test(s)]. *)
Inductive re :=
| Void
| Eps
| Cls (p : ascii -> bool)
| Cat (r1 r2 : re)
| Alt (r1 r2 : re)
| Star (r : re).

(** [r+], [r?], [r{n}], [r{0,n}], [r{lo,hi}] *)
Definition Plus (r : re) : re := Cat r (Star r).
Definition Opt (r : re) : re := Alt r Eps.

Fixpoint Rep (n : nat) (r : re) : re :=
  match n with
  | O => Eps
  | S n' => Cat r (Rep n' r)
  end.

Fixpoint RepUpTo (n : nat) (r : re) : re :=
  match n with
  | O => Eps
  | S n' => Opt (Cat r (RepUpTo n' r))
  end.

Definition Range (lo hi : nat) (r : re) : re :=
  Cat (Rep lo r) (RepUpTo (hi - lo) r).

Fixpoint nullable (r : re) : bool :=
  match r with
  | Void => false
  | Eps => true
  | Cls _ => false
  | Cat r1 r2 => nullable r1 && nullable r2
  | Alt r1 r2 => nullable r1 || nullable r2
  | Star _ => true
  end.

(** What is left of [r] to match once the character [c] has been read. *)
Fixpoint deriv (c : ascii) (r : re) : re :=
  match r with
  | Void => Void
  | Eps => Void
  | Cls p => if p c then Eps else Void
  | Cat r1 r2 =>
      if nullable r1 then Alt (Cat (deriv c r1) r2) (deriv c r2)
      else Cat (deriv c r1) r2
  | Alt r1 r2 => Alt (deriv c r1) (deriv c r2)
  | Star r' => Cat (deriv c r') (Star r')
  end.

Fixpoint matches (r : re) (l : list ascii) : bool :=
  match l with
  | [] => nullable r
  | c :: l' => matches (deriv c r) l'
  end.

Definition test (r : re) (s : string) : bool :=
  matches r (String.list_ascii_of_string s).

(** The strings a regular expression denotes. *)
Inductive lang : re -> list ascii -> Prop :=
| lang_eps : lang Eps []
| lang_cls p c : p c = true -> lang (Cls p) [c]
| lang_cat r1 r2 l1 l2 : lang r1 l1 -> lang r2 l2 -> lang (Cat r1 r2) (l1 ++ l2)
| lang_alt_l r1 r2 l : lang r1 l -> lang (Alt r1 r2) l
| lang_alt_r r1 r2 l : lang r2 l -> lang (Alt r1 r2) l
| lang_star_nil r : lang (Star r) []
| lang_star_cons r l1 l2 :
    lang r l1 -> lang (Star r) l2 -> lang (Star r) (l1 ++ l2).

(** [\s] on code units below 256: tab, line feed, vertical tab, form
    feed, carriage return, space, no-break space. *)
Definition is_space (c : ascii) : bool :=
  let n := N_of_ascii c in
  ((9 <=? n)%N && (n <=? 13)%N) || (n =? 32)%N || (n =? 160)%N.

(** [\d] *)
Definition is_digit (c : ascii) : bool :=
  let n := N_of_ascii c in (48 <=? n)%N && (n <=? 57)%N.

End Regex.

(* ================================================================== *)
(** ** utils.js: validation, string helpers, notifications *)
(* ================================================================== *)

Module Utils.

Definition ADMIN_EMAIL : string := "convener.siteemar2026@sasi.ac.in".

Definition isValidFileType (fileName : string) (allowedTypes : list string)
    : bool :=
  let extension :=
    Js.substring (Js.toLowerCase fileName) (Js.lastIndexOf "." fileName) in
  Js.includes allowedTypes extension.

Definition isValidFileSize (fileSize maxSizeMB : Z) : bool :=
  let maxBytes := (maxSizeMB * 1024 * 1024)%Z in
  (fileSize <=? maxBytes)%Z.

Definition capitalize (str : string) : string :=
  if negb (Js.truthy str) then ""
  else Js.toUpperCase (Js.charAt0 str) +:+ Js.slice1 str.

(** [[^\s@]] *)
Definition email_char (c : ascii) : bool :=
  negb (Regex.is_space c || Ascii.eqb c "@").

(** [/^[^\s@]+@[^\s@]+\.[^\s@]+$/] *)
Definition email_regex : Regex.re :=
  Regex.Cat (Regex.Plus (Regex.Cls email_char))
    (Regex.Cat (Regex.Cls (Ascii.eqb "@"))
       (Regex.Cat (Regex.Plus (Regex.Cls email_char))
          (Regex.Cat (Regex.Cls (Ascii.eqb "."))
             (Regex.Plus (Regex.Cls email_char))))).

Definition isValidEmail (email : string) : bool :=
  Regex.test email_regex email.

(** [[\d\s-()]]: a digit, white space, a hyphen or a parenthesis. *)
Definition phone_char (c : ascii) : bool :=
  Regex.is_digit c || Regex.is_space c
  || Ascii.eqb c "-" || Ascii.eqb c "(" || Ascii.eqb c ")".

(** [/^[+]?[\d\s-()]{10,15}$/] *)
Definition phone_regex : Regex.re :=
  Regex.Cat (Regex.Opt (Regex.Cls (Ascii.eqb "+")))
    (Regex.Range 10 15 (Regex.Cls phone_char)).

Definition isValidPhone (phone : string) : bool :=
  Regex.test phone_regex phone.

Definition truncateText (text : string) (maxLength : Z) : string :=
  if negb (Js.truthy text) then ""
  else if (Js.length text <=? maxLength)%Z then text
  else Js.substring_range text 0 maxLength +:+ "...".

(** The [options] object of a notification. *)
Record options := {
  recipientName : option string;
  type : option string;
  subject : string;
  body : string
}.

Section WithRuntime.
Variable rt : Runtime.

Definition formatDateTime (datetime : option string) : string :=
  match datetime with
  | Some d => if Js.truthy d then toLocaleString_en_IN rt d else "N/A"
  | None => "N/A"
  end.

Definition sendUserNotification (email : string) (o : options) : Async bool :=
  try_catch
    (let! now := gets clock in
     run! Supabase.email_notifications_insert
            {| EmailNotifications.recipient_email := email;
               EmailNotifications.recipient_name := Js.or_else (recipientName o) "";
               EmailNotifications.subject := subject o;
               EmailNotifications.body := body o;
               EmailNotifications.type := Js.or_else (type o) "general";
               EmailNotifications.status := "opened_client";
               EmailNotifications.sent_at := toISOString rt now |} in
     let! subject := call (encodeURIComponent rt (subject o)) in
     let! body := call (encodeURIComponent rt (body o)) in
     let mailtoLink :=
       "mailto:" +:+ email +:+ "?subject=" +:+ subject +:+ "&body=" +:+ body in
     run! modify (fun w => set_opened_windows (opened_windows w ++ [mailtoLink]) w) in
     ret true)
    (fun _ => ret false).

Definition sendAdminNotification (o : options) : Async bool :=
  try_catch
    (let! now := gets clock in
     run! Supabase.email_notifications_insert
            {| EmailNotifications.recipient_email := ADMIN_EMAIL;
               EmailNotifications.recipient_name := "Admin";
               EmailNotifications.subject := subject o;
               EmailNotifications.body := body o;
               EmailNotifications.type := "admin_" +:+ Js.or_else (type o) "alert";
               EmailNotifications.status := "opened_client";
               EmailNotifications.sent_at := toISOString rt now |} in
     let! subject := call (encodeURIComponent rt (subject o)) in
     let! body := call (encodeURIComponent rt (body o)) in
     let mailtoLink :=
       "mailto:" +:+ ADMIN_EMAIL +:+ "?subject=" +:+ subject +:+ "&body=" +:+ body in
     run! modify (fun w => set_opened_windows (opened_windows w ++ [mailtoLink]) w) in
     ret true)
    (fun _ => ret false).

End WithRuntime.
End Utils.

(* ================================================================== *)
(** ** auth.js: role resolution *)
(* ================================================================== *)

Module Auth.

(** What [getCurrentUserRecord] hands back: a row of [users], or failing
    that a row of [admins]; callers read [id], [full_name] and [email]
    off either. *)
Inductive Profile :=
| UserProfile (u : Users.row)
| AdminProfile (a : Admins.row).

Definition id (p : Profile) : string :=
  match p with
  | UserProfile u => Users.id u
  | AdminProfile a => Admins.id a
  end.

Definition full_name (p : Profile) : string :=
  match p with
  | UserProfile u => Users.full_name u
  | AdminProfile a => Admins.full_name a
  end.

Definition email (p : Profile) : string :=
  match p with
  | UserProfile u => Users.email u
  | AdminProfile a => Admins.email a
  end.

Definition isAdmin : Async (option Admins.row) :=
  try_catch
    (let! user := SupabaseClient.getCurrentUser in
     match user with
     | None => ret None
     | Some u =>
         let! r := Supabase.select_single "admins" admins
                     (SupabaseClient.active_admin_of (uid u)) in
         match r with
         | Error _ => ret None
         | Data data => ret (Some data)
         end
     end)
    (fun _ => ret None).

Definition getCurrentUserRecord : Async (option Profile) :=
  try_catch
    (let! user := SupabaseClient.getCurrentUser in
     match user with
     | None => ret None
     | Some u =>
         let! r := Supabase.select_single "users" users
                     (fun x => String.eqb (Users.auth_id x) (uid u)) in
         match data_of r with
         | Some userData => ret (Some (UserProfile userData))
         | None =>
             let! r' := Supabase.select_single "admins" admins
                          (fun x => String.eqb (Admins.auth_id x) (uid u)) in
             match data_of r' with
             | Some adminData => ret (Some (AdminProfile adminData))
             | None => ret None
             end
         end
     end)
    (fun _ => ret None).

(** [window.auth.isAdmin] after auth.js has rebuilt [window.auth]: the
    export list takes [isAdmin] from supabaseClient.js. *)
Definition window_auth_isAdmin : Async (option Admins.row) :=
  SupabaseClient.isAdmin.

End Auth.

(* ================================================================== *)
(** ** paper-submission.js *)
(* ================================================================== *)

Module PaperSubmission.

Record Metadata := {
  title : option string;
  abstract : option string;
  keywords : option (list string)
}.

Definition allowedTypes : list string := [".pdf"; ".doc"; ".docx"].

Section WithRuntime.
Variable rt : Runtime.

Definition uploadPaper (file : File) (metadata : Metadata)
    : Async (Result Papers.row) :=
  try_catch
    (let! user := SupabaseClient.getCurrentUser in
     match user with
     | None => throw "Please log in to submit a paper"
     | Some _ =>
     let! userRecord := Auth.getCurrentUserRecord in
     match userRecord with
     | None =>
         throw "User record not found. Please complete registration first."
     | Some userRecord =>
     if negb (Utils.isValidFileType (name file) allowedTypes) then
       throw "Invalid file type. Please upload PDF, DOC, or DOCX files only."
     else if negb (Utils.isValidFileSize (size file) 10) then
       throw "File size exceeds 10 MB limit"
     else
     let! now := gets clock in
     let fileName :=
       Auth.id userRecord +:+ "/" +:+ pretty now +:+ "_" +:+ name file in
     let! up := Supabase.storage_upload "papers" fileName file in
     match up with
     | Error uploadError => throw uploadError
     | Data _ =>
     (* step 5, [getPublicUrl(fileName)], builds a string on the client and
        its result is not used: the row stores the path *)
     let! ins :=
       Supabase.papers_insert_single rt
         {| Papers.d_user_id := Auth.id userRecord;
            Papers.d_user_name := Auth.full_name userRecord;
            Papers.d_user_email := Auth.email userRecord;
            Papers.d_paper_title := Js.or_else (title metadata) "";
            Papers.d_abstract := Js.or_else (abstract metadata) "";
            Papers.d_keywords := default [] (keywords metadata);
            Papers.d_file_name := name file;
            Papers.d_file_url := fileName;
            Papers.d_file_size_bytes := size file;
            Papers.d_status := "pending" |} in
     match ins with
     | Error paperError => throw paperError
     | Data paperData => ret (Success paperData)
     end end end end)
    (fun message => ret (Failure message)).

End WithRuntime.

Definition deletePaper (paperId : string) : Async (Result unit) :=
  try_catch
    (let! fetched :=
       Supabase.select_single "papers" papers
         (fun p => String.eqb (Papers.id p) paperId) in
     match fetched with
     | Error fetchError => throw fetchError
     | Data paper =>
     if negb (String.eqb (Papers.status paper) "pending") then
       throw "Cannot delete paper that is under review or has been reviewed"
     else
     (* a storage error is only warned about *)
     run! Supabase.storage_remove "papers" [Papers.file_url paper] in
     let! deleted := Supabase.papers_delete_eq_id paperId in
     match deleted with
     | Error deleteError => throw deleteError
     | Data _ => ret (Success tt)
     end end)
    (fun message => ret (Failure message)).

Section Listing.
Variable instant_of : string -> Z.

Definition getUserPapers : Async (list Papers.row) :=
  try_catch
    (let! user := SupabaseClient.getCurrentUser in
     match user with
     | None => ret []
     | Some _ =>
     let! userRecord := Auth.getCurrentUserRecord in
     match userRecord with
     | None => ret []
     | Some userRecord =>
     let! r := Supabase.papers_select_eq_user_id instant_of (Auth.id userRecord) in
     match r with
     | Error error => throw error
     | Data data => ret data
     end end end)
    (fun _ => ret []).

End Listing.

End PaperSubmission.

(* ================================================================== *)
(** ** admin.js: review path *)
(* ================================================================== *)

Module Admin.
Section WithRuntime.
Variable rt : Runtime.

(** [statusMessages[status] || '...'] as the mail body prints it: the four
    own properties of the object literal, then what the literal inherits
    under that key, then the default. *)
Definition statusMessage (status : string) : string :=
  if String.eqb status "accepted" then
    "Congratulations! Your paper has been ACCEPTED for presentation at SITE-EMAR 2026."
  else if String.eqb status "rejected" then
    "We regret to inform you that your paper has been rejected."
  else if String.eqb status "under_review" then
    "Your paper is currently under review."
  else if String.eqb status "revision_required" then
    "Your paper requires revisions. Please review the comments and resubmit."
  else
    match inherited_member rt status with
    | Some text => text
    | None => "Your paper status has been updated."
    end.

Definition emailBody (paperData : Papers.row) (user : Papers.owner) : string :=
  String.concat Js.nl
    [ "Dear " +:+ Papers.o_title user +:+ " " +:+ Papers.o_full_name user +:+ ",";
      "";
      statusMessage (Papers.status paperData);
      "";
      "Paper Details:";
      "- Title: " +:+ Papers.paper_title paperData;
      "- Submission ID: " +:+ Papers.id paperData;
      "- New Status: " +:+
        Utils.capitalize (Js.replace_underscores (Papers.status paperData));
      "- Review Date: " +:+ Utils.formatDateTime rt (Papers.review_date paperData);
      "";
      (if Js.truthy_opt (Papers.review_comments paperData) then
         Js.nl +:+ "Reviewer Comments:" +:+ Js.nl +:+
         default "" (Papers.review_comments paperData) +:+ Js.nl
       else "");
      "";
      "You can view your submission details by logging into your account at:";
      location_origin rt +:+ "/papersubmission.html";
      "";
      "For any queries, please contact us at: " +:+ Utils.ADMIN_EMAIL;
      "";
      "Best regards,";
      "SITE-EMAR 2026 Organizing Committee" ].

Definition sendStatusUpdateEmail (paperData : Papers.joined) : Async unit :=
  try_catch
    (match Papers.users paperData with
     | None => ret tt
     | Some user =>
         if negb (Js.truthy (Papers.o_email user)) then ret tt
         else
           run! Utils.sendUserNotification rt (Papers.o_email user)
                  {| Utils.recipientName := Some (Papers.o_full_name user);
                     Utils.type := Some "paper_status_update";
                     Utils.subject := "Paper Status Update - SITE-EMAR 2026";
                     Utils.body := emailBody (Papers.paper paperData) user |} in
           ret tt
     end)
    (fun _ => ret tt).

Definition logAdminActivity (actionType : string) (actionData : Js.Obj)
    : Async unit :=
  try_catch
    (let! admin := Auth.window_auth_isAdmin in
     match admin with
     | None => ret tt
     | Some admin =>
         run! Supabase.activity_logs_insert
                {| ActivityLogs.admin_id := Admins.id admin;
                   ActivityLogs.actor_email := Admins.email admin;
                   ActivityLogs.actor_role := Admins.role admin;
                   ActivityLogs.action_type := actionType;
                   ActivityLogs.action_description := JSON_stringify rt actionData;
                   ActivityLogs.target_table := "papers";
                   ActivityLogs.target_id :=
                     Js.get_string_or_null actionData "paper_id";
                   ActivityLogs.new_data := actionData |} in
         ret tt
     end)
    (fun _ => ret tt).

Definition updatePaperStatus (paperId newStatus comments : string)
    : Async (Result Papers.joined) :=
  try_catch
    (let! admin := Auth.window_auth_isAdmin in
     match admin with
     | None => throw "Unauthorized: Admin access required"
     | Some admin =>
     let! now := gets clock in
     let! updated :=
       Supabase.papers_update_eq_id_single
         {| Papers.r_status := newStatus;
            Papers.r_reviewed_by := Admins.id admin;
            Papers.r_reviewer_name := Admins.full_name admin;
            Papers.r_review_date := toISOString rt now;
            Papers.r_review_comments := comments |} paperId in
     match updated with
     | Error error => throw error
     | Data data =>
     run! sendStatusUpdateEmail data in
     run! logAdminActivity "paper_status_update"
            [ ("paper_id", Js.Str paperId);
              ("new_status", Js.Str newStatus);
              ("comments", Js.Str comments) ] in
     ret (Success data)
     end end)
    (fun message => ret (Failure message)).

Definition adminDeletePaper (paperId : string) : Async (Result unit) :=
  try_catch
    (let! admin := Auth.window_auth_isAdmin in
     match admin with
     | None => throw "Unauthorized: Admin access required"
     | Some _ =>
     let! fetched :=
       Supabase.select_single "papers" papers
         (fun p => String.eqb (Papers.id p) paperId) in
     match fetched with
     | Error fetchError => throw fetchError
     | Data paper =>
     (* the response of the removal is dropped *)
     run! Supabase.storage_remove "papers" [Papers.file_url paper] in
     let! deleted := Supabase.papers_delete_eq_id paperId in
     match deleted with
     | Error deleteError => throw deleteError
     | Data _ => ret (Success tt)
     end end end)
    (fun message => ret (Failure message)).

Definition nil_uuid : string := "00000000-0000-0000-0000-000000000000".

Definition deleteAllPapers : Async (Result nat) :=
  try_catch
    (let! admin := Auth.window_auth_isAdmin in
     match admin with
     | None => throw "Unauthorized: Admin access required"
     | Some _ =>
     let! fetched := Supabase.papers_select_file_url in
     match fetched with
     | Error fetchError => throw fetchError
     | Data papers =>
     run! (if (0 <? length papers)%nat then
             let fileUrls := List.filter Js.truthy_opt papers in
             if (0 <? length fileUrls)%nat then
               run! Supabase.storage_remove "papers" fileUrls in ret tt
             else ret tt
           else ret tt) in
     let! deleted := Supabase.papers_delete_neq_id nil_uuid in
     match deleted with
     | Error deleteError => throw deleteError
     | Data _ =>
     run! logAdminActivity "delete_all_papers"
            [ ("count", Js.Num (Z.of_nat (length papers))) ] in
     ret (Success (length papers))
     end end end)
    (fun message => ret (Failure message)).

(** [getAllPapers(status = null)]: a status that is null or empty does not
    filter. *)
Definition getAllPapers (instant_of : string -> Z) (status : option string)
    : Async (list (Papers.row * option Supabase.listed)) :=
  try_catch
    (let! r :=
       Supabase.papers_select_listing instant_of
         (if Js.truthy_opt status then status else None) in
     match r with
     | Error error => throw error
     | Data data => ret data
     end)
    (fun _ => ret []).

End WithRuntime.
End Admin.

(* ================================================================== *)
(** ** registration.js: the category sent to the record store *)
(* ================================================================== *)

Module Registration.

(** The normalization block of the submit handler of
    [initRegistrationForm]; [rawCategory] is [undefined] when no radio
    button is checked. *)
Definition normalizedCategory (rawCategory : option string) : option string :=
  match rawCategory with
  | None => None
  | Some raw =>
      if Js.startsWith raw "listener_" then Some "listener"
      else if String.eqb raw "scholar" then Some "student"
      else if String.eqb raw "expert" then Some "scientist"
      else Some raw
  end.

(** Where the submit handler sends the browser four seconds after a
    successful registration: listeners stay on the success dialog, authors
    go to the submission page. [category] is the checked radio value. *)
Definition redirect_after_success (category : option string) : option string :=
  match category with
  | Some c =>
      if Js.truthy c && Js.startsWith c "listener" then None
      else Some "papersubmission.html"
  | None => Some "papersubmission.html"
  end.

(** The fields of [formData] that [validateRegistrationForm] reads. *)
Record FormData := {
  fullName : option string;
  email : option string;
  phone : option string;
  category : option string;
  createAccount : bool;
  password : option string
}.

(** [None]: the form is valid ([true] is returned); [Some m]: the error
    [m] is shown and [false] is returned. *)
Definition validateRegistrationForm (formData : FormData) : option string :=
  if negb (Js.truthy_opt (fullName formData))
     || negb (Js.truthy_opt (email formData))
     || negb (Js.truthy_opt (phone formData)) then
    Some "Please fill in all required fields"
  else if negb (Utils.isValidEmail (default "" (email formData))) then
    Some "Please enter a valid email address"
  else if negb (Utils.isValidPhone (default "" (phone formData))) then
    Some "Please enter a valid phone number"
  else if negb (Js.truthy_opt (category formData)) then
    Some "Please select a registration category"
  else if createAccount formData && negb (Js.truthy_opt (password formData)) then
    Some "Please enter a password to create an account"
  else if createAccount formData
          && (Js.length (default "" (password formData)) <? 6)%Z then
    Some "Password must be at least 6 characters long"
  else None.

End Registration.

(* ================================================================== *)
(** ** The words of the workflow contract *)
(* ================================================================== *)

Module Spec.

(** The text after the last dot of a file name; a name without a dot has
    no extension. *)
Fixpoint after_last_dot (s : string) : option string :=
  match s with
  | EmptyString => None
  | String a s' =>
      match after_last_dot s' with
      | Some e => Some e
      | None => if Ascii.eqb a "." then Some s' else None
      end
  end.

(** The extension of a file name, letter case put aside. *)
Definition extension (fileName : string) : option string :=
  option_map Js.toLowerCase (after_last_dot fileName).

(** The allow-list: pdf, doc, docx. *)
Definition allowed_extensions : list string := ["pdf"; "doc"; "docx"].

Definition MiB : Z := 1048576.

(** Which profile an identity resolves to, read off the tables: the one
    [users] row of that auth id, else the one [admins] row of it. *)
Definition resolved_profile (us : list Users.row) (ads : list Admins.row)
    (authId : string) : option Auth.Profile :=
  match List.filter (fun x => String.eqb (Users.auth_id x) authId) us with
  | [u] => Some (Auth.UserProfile u)
  | _ =>
      match List.filter (fun x => String.eqb (Admins.auth_id x) authId) ads with
      | [a] => Some (Auth.AdminProfile a)
      | _ => None
      end
  end.

(** The stored, non-empty file paths of a set of paper records. *)
Definition stored_paths (ps : list Papers.row) : list (option string) :=
  List.filter Js.truthy_opt (List.map Papers.file_url ps).

End Spec.

(* ================================================================== *)
(** ** The identity helpers in closed form *)
(* ================================================================== *)

(** What [isAdmin] answers, read off the world. *)
Definition admin_answer (w : World) : option Admins.row :=
  match fault_at 0 w, session_user w with
  | None, Some u =>
      match fault_at 1 w with
      | Some _ => None
      | None =>
          data_of (single (List.filter (SupabaseClient.active_admin_of (uid u))
                             (admins w)))
      end
  | _, _ => None
  end.

(** The world [isAdmin] leaves: the identity lookup, and the [admins]
    query when an identity came back. *)
Definition after_isAdmin (w : World) : World :=
  match fault_at 0 w, session_user w with
  | None, Some _ => issue (DbSelect "admins") (issue AuthGetUser w)
  | _, _ => issue AuthGetUser w
  end.

(** What [getCurrentUserRecord] answers, read off the world: the [users]
    row of the caller, else the [admins] row. *)
Definition user_row_answer (w : World) (u : AuthUser) : option Users.row :=
  match fault_at 1 w with
  | Some _ => None
  | None =>
      data_of (single (List.filter
                         (fun x => String.eqb (Users.auth_id x) (uid u))
                         (users w)))
  end.

Definition admin_row_answer (w : World) (u : AuthUser) : option Admins.row :=
  match fault_at 2 w with
  | Some _ => None
  | None =>
      data_of (single (List.filter
                         (fun x => String.eqb (Admins.auth_id x) (uid u))
                         (admins w)))
  end.

Definition record_answer (w : World) : option Auth.Profile :=
  match fault_at 0 w, session_user w with
  | None, Some u =>
      match user_row_answer w u with
      | Some userData => Some (Auth.UserProfile userData)
      | None =>
          match admin_row_answer w u with
          | Some adminData => Some (Auth.AdminProfile adminData)
          | None => None
          end
      end
  | _, _ => None
  end.

Definition after_getCurrentUserRecord (w : World) : World :=
  match fault_at 0 w, session_user w with
  | None, Some u =>
      match user_row_answer w u with
      | Some _ => issue (DbSelect "users") (issue AuthGetUser w)
      | None =>
          issue (DbSelect "admins")
            (issue (DbSelect "users") (issue AuthGetUser w))
      end
  | _, _ => issue AuthGetUser w
  end.

(** The storage path [uploadPaper] builds:
    [{userId}/{timestamp}_{originalFileName}]. *)
Definition storage_path (userId : string) (timestamp : Z) (fileName : string)
    : string :=
  userId +:+ "/" +:+ pretty timestamp +:+ "_" +:+ fileName.

(** The row [sendUserNotification] logs and the composer link it opens. *)
Definition notification_row (rt : Runtime) (email : string) (o : Utils.options)
    (now : Z) : EmailNotifications.row :=
  {| EmailNotifications.recipient_email := email;
     EmailNotifications.recipient_name := Js.or_else (Utils.recipientName o) "";
     EmailNotifications.subject := Utils.subject o;
     EmailNotifications.body := Utils.body o;
     EmailNotifications.type := Js.or_else (Utils.type o) "general";
     EmailNotifications.status := "opened_client";
     EmailNotifications.sent_at := toISOString rt now |}.

Definition mailto_link (rt : Runtime) (email : string) (o : Utils.options)
    : Outcome string :=
  match encodeURIComponent rt (Utils.subject o) with
  | Thrown e => Thrown e
  | Returned subject =>
      match encodeURIComponent rt (Utils.body o) with
      | Thrown e => Thrown e
      | Returned body =>
          Returned ("mailto:" +:+ email +:+ "?subject=" +:+ subject
                    +:+ "&body=" +:+ body)
      end
  end.

(** What the notification helpers answer: [true] when the composer link
    could be built, [false] from their [catch]. *)
Definition composer_opened (link : Outcome string) : bool :=
  match link with
  | Returned _ => true
  | Thrown _ => false
  end.

(** The world [sendUserNotification] leaves. *)
Definition after_sendUserNotification (rt : Runtime) (email : string)
    (o : Utils.options) (w : World) : World :=
  let w1 := issue (DbInsert "email_notifications") w in
  let w2 :=
    match fault_at 0 w with
    | Some _ => w1
    | None =>
        set_email_notifications
          (email_notifications w ++ [notification_row rt email o (clock w)]) w1
    end in
  match mailto_link rt email o with
  | Returned link => set_opened_windows (opened_windows w ++ [link]) w2
  | Thrown _ => w2
  end.

(** The options [sendStatusUpdateEmail] passes on. *)
Definition status_update_options (rt : Runtime) (p : Papers.row)
    (user : Papers.owner) : Utils.options :=
  {| Utils.recipientName := Some (Papers.o_full_name user);
     Utils.type := Some "paper_status_update";
     Utils.subject := "Paper Status Update - SITE-EMAR 2026";
     Utils.body := Admin.emailBody rt p user |}.

(** The world [sendStatusUpdateEmail] leaves. *)
Definition after_sendStatusUpdateEmail (rt : Runtime) (paperData : Papers.joined)
    (w : World) : World :=
  match Papers.users paperData with
  | None => w
  | Some user =>
      if negb (Js.truthy (Papers.o_email user)) then w
      else
        after_sendUserNotification rt (Papers.o_email user)
          (status_update_options rt (Papers.paper paperData) user) w
  end.

(** The row [logAdminActivity] appends. *)
Definition activity_row (rt : Runtime) (admin : Admins.row)
    (actionType : string) (actionData : Js.Obj) : ActivityLogs.row :=
  {| ActivityLogs.admin_id := Admins.id admin;
     ActivityLogs.actor_email := Admins.email admin;
     ActivityLogs.actor_role := Admins.role admin;
     ActivityLogs.action_type := actionType;
     ActivityLogs.action_description := JSON_stringify rt actionData;
     ActivityLogs.target_table := "papers";
     ActivityLogs.target_id := Js.get_string_or_null actionData "paper_id";
     ActivityLogs.new_data := actionData |}.

(** The world [logAdminActivity] leaves. *)
Definition after_logAdminActivity (rt : Runtime) (actionType : string)
    (actionData : Js.Obj) (w : World) : World :=
  match admin_answer w with
  | None => after_isAdmin w
  | Some admin =>
      let w1 := issue (DbInsert "activity_logs") (after_isAdmin w) in
      match fault_at 2 w with
      | Some _ => w1
      | None =>
          set_activity_logs
            (activity_logs w ++ [activity_row rt admin actionType actionData]) w1
      end
  end.

(** The object [updatePaperStatus] hands to [update]. *)
Definition review_of (rt : Runtime) (admin : Admins.row)
    (newStatus comments : string) (now : Z) : Papers.review :=
  {| Papers.r_status := newStatus;
     Papers.r_reviewed_by := Admins.id admin;
     Papers.r_reviewer_name := Admins.full_name admin;
     Papers.r_review_date := toISOString rt now;
     Papers.r_review_comments := comments |}.

(** Whether the owner joined to a paper carries an email. *)
Definition has_email (o : option Papers.owner) : bool :=
  match o with
  | Some user => Js.truthy (Papers.o_email user)
  | None => false
  end.

(** The rows [sendStatusUpdateEmail] adds to the notification log. *)
Definition status_notifications (rt : Runtime) (paperData : Papers.joined)
    (now : Z) : list EmailNotifications.row :=
  match Papers.users paperData with
  | Some user =>
      if Js.truthy (Papers.o_email user) then
        [notification_row rt (Papers.o_email user)
           (status_update_options rt (Papers.paper paperData) user) now]
      else []
  | None => []
  end.

(** The row [uploadPaper] asks the record store to insert. *)
Definition upload_draft (userRecord : Auth.Profile) (file : File)
    (metadata : PaperSubmission.Metadata) (fileName : string) : Papers.draft :=
  {| Papers.d_user_id := Auth.id userRecord;
     Papers.d_user_name := Auth.full_name userRecord;
     Papers.d_user_email := Auth.email userRecord;
     Papers.d_paper_title := Js.or_else (PaperSubmission.title metadata) "";
     Papers.d_abstract := Js.or_else (PaperSubmission.abstract metadata) "";
     Papers.d_keywords := default [] (PaperSubmission.keywords metadata);
     Papers.d_file_name := name file;
     Papers.d_file_url := fileName;
     Papers.d_file_size_bytes := size file;
     Papers.d_status := "pending" |}.

(** [a] was created no earlier than [b]. *)
Definition not_older (instant_of : string -> Z) (a b : Papers.row) : Prop :=
  (instant_of (Papers.created_at b) <= instant_of (Papers.created_at a))%Z.

(** The characters of [s] are in the ASCII range, where the case mappings
    above are those of JavaScript. *)
Definition ascii_only (s : string) : bool :=
  forallb (fun c => (N_of_ascii c <? 128)%N) (String.list_ascii_of_string s).

(** The row [sendAdminNotification] logs. *)
Definition admin_notification_row (rt : Runtime) (o : Utils.options) (now : Z)
    : EmailNotifications.row :=
  {| EmailNotifications.recipient_email := Utils.ADMIN_EMAIL;
     EmailNotifications.recipient_name := "Admin";
     EmailNotifications.subject := Utils.subject o;
     EmailNotifications.body := Utils.body o;
     EmailNotifications.type := "admin_" +:+ Js.or_else (Utils.type o) "alert";
     EmailNotifications.status := "opened_client";
     EmailNotifications.sent_at := toISOString rt now |}.

(* ================================================================== *)
(** ** File names as UTF-16 code units *)
(* ================================================================== *)

Module Wide.

(** A JavaScript string as the list of its UTF-16 code units, for file
    names the browser can hand over that a Rocq [string] does not hold.
    [toLowerCase] is the built-in itself, a parameter; the rest is the one
    line of [isValidFileType] again, on code units. *)
Definition of_string (s : string) : list N :=
  List.map N_of_ascii (String.list_ascii_of_string s).

Fixpoint eqb (a b : list N) : bool :=
  match a, b with
  | [], [] => true
  | x :: a', y :: b' => (x =? y)%N && eqb a' b'
  | _, _ => false
  end.

Fixpoint lastIndexOf_from (c : N) (s : list N) (i acc : Z) : Z :=
  match s with
  | [] => acc
  | a :: s' => lastIndexOf_from c s' (i + 1) (if (a =? c)%N then i else acc)
  end.

Definition lastIndexOf (c : N) (s : list N) : Z := lastIndexOf_from c s 0 (-1).

Definition substring (s : list N) (i : Z) : list N :=
  skipn (Z.to_nat (Z.max 0 i)) s.

Definition includes (arr : list (list N)) (x : list N) : bool :=
  existsb (eqb x) arr.

(** The code unit of the full stop. *)
Definition dot : N := 46.

Section Builtin.
Variable toLowerCase : list N -> list N.

Definition isValidFileType (fileName : list N) (allowedTypes : list (list N))
    : bool :=
  let extension := substring (toLowerCase fileName) (lastIndexOf dot fileName) in
  includes allowedTypes extension.

End Builtin.

(** The file name made of U+0130 (capital I with a dot above) and [.pdf]. *)
Definition capital_I_dot_pdf : list N := 304%N :: of_string ".pdf".

End Wide.

(* ================================================================== *)
(** ** A small deployment, for running the workflow *)
(* ================================================================== *)

Module Demo.

Definition runtime : Runtime :=
  {| toISOString := fun ms => "T" +:+ pretty ms;
     toLocaleString_en_IN := fun s => s;
     JSON_stringify := fun o => "{" +:+ pretty (length o) +:+ "}";
     encodeURIComponent := fun s => Returned s;
     inherited_member :=
       fun key =>
         if String.eqb key "__proto__" then Some "[object Object]"
         else if Js.includes
                   ["constructor"; "toString"; "toLocaleString"; "valueOf";
                    "hasOwnProperty"; "isPrototypeOf"; "propertyIsEnumerable"]
                   key
         then Some ("function " +:+ key +:+ "() { [native code] }")
         else None;
     location_origin := "https://site-emar.example";
     gen_random_uuid := fun n => "paper-" +:+ pretty n;
     db_now := fun ms => "T" +:+ pretty ms |}.

Definition alice : Users.row :=
  {| Users.id := "u-1"; Users.auth_id := "a-1"; Users.title := "Dr.";
     Users.full_name := "Alice"; Users.email := "alice@example.org" |}.

Definition root : Admins.row :=
  {| Admins.id := "adm-1"; Admins.auth_id := "a-9";
     Admins.full_name := "Root"; Admins.email := "root@example.org";
     Admins.role := "super_admin"; Admins.is_active := true |}.

Definition retired : Admins.row :=
  {| Admins.id := "adm-2"; Admins.auth_id := "a-8";
     Admins.full_name := "Retired"; Admins.email := "old@example.org";
     Admins.role := "admin"; Admins.is_active := false |}.

Definition paper (pid st : string) (url : string) : Papers.row :=
  {| Papers.id := pid; Papers.user_id := "u-1"; Papers.user_name := "Alice";
     Papers.user_email := "alice@example.org"; Papers.paper_title := "X";
     Papers.abstract := ""; Papers.keywords := [];
     Papers.file_name := "paper.pdf"; Papers.file_url := Some url;
     Papers.file_size_bytes := 2097152; Papers.status := st;
     Papers.reviewed_by := None; Papers.reviewer_name := None;
     Papers.review_date := None; Papers.review_comments := None;
     Papers.created_at := "T0" |}.

Definition pdf : File := {| name := "paper.pdf"; size := 2097152 |}.

Definition p1 : Papers.row := paper "p-1" "pending" "u-1/1_paper.pdf".
Definition p2 : Papers.row := paper "p-2" "accepted" "u-1/2_paper.pdf".

Definition as_user (who : option AuthUser) (fs : list (option string)) : World :=
  {| session_user := who;
     users := [alice];
     admins := [root; retired];
     papers := [p1; p2];
     activity_logs := [];
     email_notifications := [];
     bucket := <["u-1/1_paper.pdf" := pdf]> (<["u-1/2_paper.pdf" := pdf]> ∅);
     clock := 1767225600000;
     issued_ids := 2;
     opened_windows := [];
     trace := [];
     faults := fs |}.

Definition alice_login : AuthUser :=
  {| uid := "a-1"; auth_email := "alice@example.org" |}.
Definition root_login : AuthUser :=
  {| uid := "a-9"; auth_email := "root@example.org" |}.
Definition retired_login : AuthUser :=
  {| uid := "a-8"; auth_email := "old@example.org" |}.

Definition alice_owner : Papers.owner :=
  {| Papers.o_title := "Dr."; Papers.o_full_name := "Alice";
     Papers.o_email := "alice@example.org" |}.

Definition big_pdf : File := {| name := "big.pdf"; size := 11 * 1048576 |}.
Definition exe : File := {| name := "setup.exe"; size := 4096 |}.

Definition titled_X : PaperSubmission.Metadata :=
  {| PaperSubmission.title := Some "X";
     PaperSubmission.abstract := None;
     PaperSubmission.keywords := None |}.

(** The paper the admin gets by uploading [paper.pdf] themselves, and the
    deployment once it is stored. *)
Definition root_paper : Papers.row :=
  {| Papers.id := "paper-2"; Papers.user_id := "adm-1";
     Papers.user_name := "Root"; Papers.user_email := "root@example.org";
     Papers.paper_title := "X"; Papers.abstract := ""; Papers.keywords := [];
     Papers.file_name := "paper.pdf";
     Papers.file_url := Some "adm-1/1767225600000_paper.pdf";
     Papers.file_size_bytes := 2097152; Papers.status := "pending";
     Papers.reviewed_by := None; Papers.reviewer_name := None;
     Papers.review_date := None; Papers.review_comments := None;
     Papers.created_at := "T1767225600000" |}.

Definition after_root_upload (fs : list (option string)) : World :=
  {| session_user := Some root_login;
     users := [alice];
     admins := [root; retired];
     papers := [p1; p2; root_paper];
     activity_logs := [];
     email_notifications := [];
     bucket := <["adm-1/1767225600000_paper.pdf" := pdf]>
                 (<["u-1/1_paper.pdf" := pdf]> (<["u-1/2_paper.pdf" := pdf]> ∅));
     clock := 1767225600000;
     issued_ids := 3;
     opened_windows := [];
     trace := [];
     faults := fs |}.

(** Five papers and their five stored files, with the admin signed in. *)
Definition five_papers : list Papers.row :=
  [ paper "q-1" "pending" "u-1/11_a.pdf";
    paper "q-2" "under_review" "u-1/12_b.pdf";
    paper "q-3" "accepted" "u-1/13_c.pdf";
    paper "q-4" "rejected" "u-1/14_d.pdf";
    paper "q-5" "revision_required" "u-1/15_e.pdf" ].

Definition five (fs : list (option string)) : World :=
  {| session_user := Some root_login;
     users := [alice];
     admins := [root; retired];
     papers := five_papers;
     activity_logs := [];
     email_notifications := [];
     bucket := list_to_map
                 (List.map (fun k => (k, pdf))
                    ["u-1/11_a.pdf"; "u-1/12_b.pdf"; "u-1/13_c.pdf";
                     "u-1/14_d.pdf"; "u-1/15_e.pdf"]);
     clock := 1767225600000;
     issued_ids := 5;
     opened_windows := [];
     trace := [];
     faults := fs |}.

(** The lower-case mapping on the code units of Basic Latin and on U+0130,
    whose lower-case form is [i] followed by U+0307; other code units are
    left as they are. *)
Definition lower_unit (c : N) : list N :=
  if ((65 <=? c) && (c <=? 90))%N then [(c + 32)%N]
  else if (c =? 304)%N then [105%N; 775%N]
  else [c].

Definition toLowerCase (s : list N) : list N := flat_map lower_unit s.

End Demo.

(* ================================================================== *)
(** ** String built-ins *)
(* ================================================================== *)

Lemma lower_char_dot (c : ascii) :
  Ascii.eqb (Js.lower_char c) "." = Ascii.eqb c ".".
Proof.
  destruct c as [[] [] [] [] [] [] [] []]; reflexivity.
Qed.

Lemma after_last_dot_toLowerCase (s : string) :
  Spec.after_last_dot (Js.toLowerCase s)
  = option_map Js.toLowerCase (Spec.after_last_dot s).
Proof.
  induction s as [|a s IH]; [reflexivity|].
  cbn [Js.toLowerCase Js.map_chars Spec.after_last_dot].
  fold (Js.toLowerCase s). rewrite IH, lower_char_dot.
  destruct (Spec.after_last_dot s); [reflexivity|].
  destruct (Ascii.eqb a "."); reflexivity.
Qed.

Lemma drop_chars_toLowerCase (k : nat) (s : string) :
  Js.drop_chars k (Js.toLowerCase s) = Js.toLowerCase (Js.drop_chars k s).
Proof.
  revert s. induction k as [|k IH]; intros s; [reflexivity|].
  destruct s as [|a s]; [reflexivity|]. cbn. apply IH.
Qed.

(** Where [lastIndexOf] lands: on the dot that starts the extension, or on
    the value it was started with when there is no dot. *)
Lemma lastIndexOf_from_dot (s : string) :
  forall i acc : Z,
    match Spec.after_last_dot s with
    | Some e =>
        exists k : nat,
          Js.lastIndexOf_from "." s i acc = (i + Z.of_nat k)%Z
          /\ Js.drop_chars k s = String "." e
    | None => Js.lastIndexOf_from "." s i acc = acc
    end.
Proof.
  induction s as [|a s IH]; intros i acc; [reflexivity|].
  cbn [Js.lastIndexOf_from Spec.after_last_dot].
  specialize (IH (i + 1)%Z (if Ascii.eqb a "." then i else acc)).
  destruct (Spec.after_last_dot s) as [e|].
  - destruct IH as (k & Hk & Hd). exists (S k). split; [lia | exact Hd].
  - destruct (Ascii.eqb a ".") eqn:Ha.
    + apply Ascii.eqb_eq in Ha. subst a.
      exists 0%nat. split; [lia | reflexivity].
    + exact IH.
Qed.

Lemma includes_dotted (e : string) :
  Js.includes PaperSubmission.allowedTypes (String "." e)
  = Js.includes Spec.allowed_extensions e.
Proof. reflexivity. Qed.

Lemma includes_In (arr : list string) (x : string) :
  Js.includes arr x = true <-> In x arr.
Proof.
  unfold Js.includes. rewrite existsb_exists. split.
  - intros (y & Hy & Heq). apply String.eqb_eq in Heq. now subst.
  - intros H. exists x. split; [exact H | apply String.eqb_refl].
Qed.

(** The file-type check of the code accepts exactly the names whose
    extension is on the allow-list. *)
Lemma isValidFileType_extension (fileName : string) :
  Utils.isValidFileType fileName PaperSubmission.allowedTypes = true
  <-> exists e, Spec.extension fileName = Some e
                /\ In e Spec.allowed_extensions.
Proof.
  unfold Utils.isValidFileType, Js.lastIndexOf, Js.substring, Spec.extension.
  pose proof (lastIndexOf_from_dot fileName 0 (-1)) as H.
  destruct (Spec.after_last_dot fileName) as [e|] eqn:He.
  - destruct H as (k & Hk & Hd). rewrite Hk.
    replace (Z.to_nat (Z.max 0 (0 + Z.of_nat k))) with k by lia.
    rewrite drop_chars_toLowerCase, Hd.
    change (Js.toLowerCase (String "." e)) with (String "." (Js.toLowerCase e)).
    rewrite includes_dotted, includes_In. cbn [option_map]. split.
    + intros Hin. eauto.
    + intros (e' & [= <-] & Hin). exact Hin.
  - rewrite H. cbn [option_map]. split; [|intros (e' & [=] & _)].
    change (Z.to_nat (Z.max 0 (-1))) with 0%nat. cbn [Js.drop_chars].
    rewrite includes_In. intros Hin.
    pose proof (after_last_dot_toLowerCase fileName) as Hl.
    rewrite He in Hl. cbn in Hl.
    destruct Hin as [E|[E|[E|[]]]]; rewrite <- E in Hl; discriminate.
Qed.

(* ================================================================== *)
(** ** Tables: selecting by a key *)
(* ================================================================== *)

Section Keys.
Context {A : Type} (key : A -> string).

Lemma filter_key_absent (l : list A) (k : string) (g : A -> bool) :
  ~ In k (List.map key l) ->
  List.filter (fun y => String.eqb (key y) k && g y) l = [].
Proof.
  induction l as [|a l IH]; intros Hk; [reflexivity|].
  cbn in *. destruct (String.eqb_spec (key a) k) as [E|E].
  - exfalso. apply Hk. now left.
  - cbn. apply IH. intros H. apply Hk. now right.
Qed.

(** A row found under a key that identifies rows is the only row the
    selection returns, whatever further condition it satisfies. *)
Lemma filter_key_unique_and (l : list A) (x : A) (g : A -> bool) :
  NoDup (List.map key l) -> In x l -> g x = true ->
  List.filter (fun y => String.eqb (key y) (key x) && g y) l = [x].
Proof.
  induction l as [|a l IH]; intros Hnd Hin Hg; [destruct Hin|].
  cbn in Hnd. apply NoDup_cons in Hnd as [Ha Hnd].
  assert (Ha' : ~ In (key a) (List.map key l)).
  { intros H. apply Ha. now apply list_elem_of_In. }
  cbn. destruct Hin as [<-|Hin].
  - rewrite String.eqb_refl, Hg. cbn. f_equal.
    now apply filter_key_absent.
  - destruct (String.eqb_spec (key a) (key x)) as [E|E].
    + exfalso. apply Ha'. rewrite E. now apply in_map.
    + cbn. now apply IH.
Qed.

Lemma filter_key_unique (l : list A) (x : A) :
  NoDup (List.map key l) -> In x l ->
  List.filter (fun y => String.eqb (key y) (key x)) l = [x].
Proof.
  intros Hnd Hin.
  rewrite <- (filter_key_unique_and l x (fun _ => true) Hnd Hin eq_refl).
  apply List.filter_ext. intros a. now rewrite andb_true_r.
Qed.

Lemma filter_singleton_In (f : A -> bool) (l : list A) (x : A) :
  List.filter f l = [x] -> In x l /\ f x = true.
Proof.
  intros H. apply filter_In. rewrite H. now left.
Qed.

End Keys.

(* ================================================================== *)
(** ** The backend: requests and failures *)
(* ================================================================== *)

Lemma next_fault_fault_at (w : World) : next_fault w = fault_at 0 w.
Proof. unfold next_fault, fault_at. now destruct (faults w). Qed.

Lemma fault_at_issue (k : nat) (c : Call) (w : World) :
  fault_at k (issue c w) = fault_at (S k) w.
Proof.
  unfold fault_at, issue. cbn. destruct (faults w) as [|f fs]; [|reflexivity].
  now destruct k.
Qed.

Lemma healthy_issue (c : Call) (w : World) : healthy w -> healthy (issue c w).
Proof. intros H k. rewrite fault_at_issue. apply H. Qed.

Lemma healthy_next (w : World) : healthy w -> next_fault w = None.
Proof. intros H. rewrite next_fault_fault_at. apply H. Qed.

(** A request that is answered is served on the world in which it has
    been issued; one that is not changes nothing else. *)
Lemma request_served {A} (c : Call) (serve : World -> Resp A * World) (w : World) :
  next_fault w = None ->
  request c serve w
  = (Returned (fst (serve (issue c w))), snd (serve (issue c w))).
Proof.
  intros H. unfold request. rewrite H. now destruct (serve (issue c w)).
Qed.

Lemma request_failed {A} (c : Call) (serve : World -> Resp A * World) (w : World)
    (e : string) :
  next_fault w = Some e ->
  request c serve w = (Returned (Error e), issue c w).
Proof. intros H. unfold request. now rewrite H. Qed.

(** *** The identity helpers issue reads only *)

Lemma getCurrentUser_run (w : World) :
  SupabaseClient.getCurrentUser w
  = (Returned (match next_fault w with
               | Some _ => None
               | None => session_user w
               end), issue AuthGetUser w).
Proof.
  unfold SupabaseClient.getCurrentUser, Supabase.auth_getUser, bind, request, ret.
  destruct (next_fault w); [reflexivity|].
  cbn. now destruct (session_user w).
Qed.

Lemma select_single_run {A} (table : string) (rows : World -> list A)
    (cond : A -> bool) (w : World) :
  Supabase.select_single table rows cond w
  = (Returned (match next_fault w with
               | Some e => Error e
               | None => single (List.filter cond (rows (issue (DbSelect table) w)))
               end), issue (DbSelect table) w).
Proof.
  unfold Supabase.select_single, request. now destruct (next_fault w).
Qed.

Lemma isAdmin_run (w : World) :
  SupabaseClient.isAdmin w = (Returned (admin_answer w), after_isAdmin w).
Proof.
  unfold SupabaseClient.isAdmin, bind, admin_answer, after_isAdmin.
  rewrite getCurrentUser_run, <- next_fault_fault_at.
  destruct (next_fault w) as [e|]; [reflexivity|].
  destruct (session_user w) as [u|]; [|reflexivity].
  rewrite select_single_run, next_fault_fault_at, fault_at_issue.
  destruct (fault_at 1 w); [reflexivity|]. cbn [admins issue set_faults set_trace].
  now destruct (single _).
Qed.

Lemma auth_isAdmin_run (w : World) :
  Auth.isAdmin w = SupabaseClient.isAdmin w.
Proof.
  unfold Auth.isAdmin, try_catch. fold SupabaseClient.isAdmin.
  change (match SupabaseClient.isAdmin w with
          | (Returned a, w') => (Returned a, w')
          | (Thrown e, w') => ret None w'
          end = SupabaseClient.isAdmin w).
  now rewrite isAdmin_run.
Qed.

(* ================================================================== *)
(** ** Role resolution *)
(* ================================================================== *)

Lemma admin_answer_sound (w : World) (a : Admins.row) :
  admin_answer w = Some a ->
  exists u, session_user w = Some u /\ fault_at 0 w = None /\ fault_at 1 w = None
            /\ In a (admins w)
            /\ Admins.auth_id a = uid u /\ Admins.is_active a = true.
Proof.
  unfold admin_answer. destruct (fault_at 0 w); [discriminate|].
  destruct (session_user w) as [u|]; [|discriminate].
  destruct (fault_at 1 w); [discriminate|].
  destruct (List.filter _ _) as [|x [|y l]] eqn:Hf; try discriminate.
  cbn. intros [= ->]. apply filter_singleton_In in Hf as [Hin Hc].
  unfold SupabaseClient.active_admin_of in Hc.
  apply andb_true_iff in Hc as [H1 H2].
  apply String.eqb_eq in H1. apply Bool.eqb_prop in H2.
  exists u. repeat split; auto.
Qed.

Lemma filter_andb {A} (f g : A -> bool) (l : list A) :
  List.filter (fun x => f x && g x) l = List.filter f (List.filter g l).
Proof.
  induction l as [|a l IH]; [reflexivity|].
  cbn. destruct (g a); cbn.
  - rewrite andb_true_r. destruct (f a); now rewrite IH.
  - now rewrite andb_false_r.
Qed.

Lemma active_admin_rows (authId : string) (ads : list Admins.row) :
  List.filter (SupabaseClient.active_admin_of authId) ads
  = List.filter (fun x => String.eqb (Admins.auth_id x) authId)
      (List.filter Admins.is_active ads).
Proof.
  unfold SupabaseClient.active_admin_of.
  rewrite (filter_andb (fun x => String.eqb (Admins.auth_id x) authId)
             (fun x => Bool.eqb (Admins.is_active x) true)).
  f_equal. apply List.filter_ext. intros x. now destruct (Admins.is_active x).
Qed.

Lemma admin_answer_complete (w : World) (u : AuthUser) (a : Admins.row) :
  session_user w = Some u -> fault_at 0 w = None -> fault_at 1 w = None ->
  NoDup (List.map Admins.auth_id (List.filter Admins.is_active (admins w))) ->
  In a (admins w) -> Admins.auth_id a = uid u -> Admins.is_active a = true ->
  admin_answer w = Some a.
Proof.
  intros Hs H0 H1 Hnd Hin Hid Hact. unfold admin_answer.
  rewrite H0, Hs, H1, active_admin_rows, <- Hid.
  rewrite (filter_key_unique Admins.auth_id _ a Hnd); [reflexivity|].
  apply filter_In. now split.
Qed.

(** C8. [isAdmin] (the one of supabaseClient.js, which [window.auth]
    exports, and the one of auth.js, which answers the same) hands back an
    Admin record only if that record is a row of [admins] with the caller's
    auth id and [is_active = true]; it hands back null for an
    unauthenticated caller and for an identity all of whose Admin rows are
    deactivated; and for an identity whose two lookups are answered, in a
    table where no two active rows share an auth id, it hands back the
    Admin record exactly when an active matching row exists. *)
Theorem isAdmin_iff_active_admin_row (w : World) :
  fst (Auth.isAdmin w) = fst (SupabaseClient.isAdmin w)
  /\ (forall a, fst (SupabaseClient.isAdmin w) = Returned (Some a) ->
        exists u, session_user w = Some u /\ In a (admins w)
                  /\ Admins.auth_id a = uid u /\ Admins.is_active a = true)
  /\ (session_user w = None -> fst (SupabaseClient.isAdmin w) = Returned None)
  /\ (forall u, session_user w = Some u ->
        (forall a, In a (admins w) -> Admins.auth_id a = uid u ->
                   Admins.is_active a = false) ->
        fst (SupabaseClient.isAdmin w) = Returned None)
  /\ (forall u, session_user w = Some u ->
        fault_at 0 w = None -> fault_at 1 w = None ->
        NoDup (List.map Admins.auth_id
                 (List.filter Admins.is_active (admins w))) ->
        forall a,
          fst (SupabaseClient.isAdmin w) = Returned (Some a)
          <-> In a (admins w) /\ Admins.auth_id a = uid u
              /\ Admins.is_active a = true).
Proof.
  rewrite auth_isAdmin_run, isAdmin_run. cbn [fst].
  split; [reflexivity|]. split; [|split; [|split]].
  - intros a [= Ha]. apply admin_answer_sound in Ha as (u & Hs & _ & _ & H).
    exists u. now split.
  - intros Hs. unfold admin_answer. rewrite Hs.
    now destruct (fault_at 0 w).
  - intros u Hs Hall. destruct (admin_answer w) as [a|] eqn:Ha; [|reflexivity].
    apply admin_answer_sound in Ha as (u' & Hs' & _ & _ & Hin & Hid & Hact).
    rewrite Hs in Hs'. injection Hs' as <-.
    rewrite (Hall a Hin Hid) in Hact. discriminate.
  - intros u Hs H0 H1 Hnd a. split.
    + intros [= Ha]. apply admin_answer_sound in Ha
        as (u' & Hs' & _ & _ & Hin & Hid & Hact).
      rewrite Hs in Hs'. injection Hs' as <-. now repeat split.
    + intros (Hin & Hid & Hact). f_equal.
      now apply admin_answer_complete with (u := u).
Qed.

(* ================================================================== *)
(** ** Category normalization *)
(* ================================================================== *)

Lemma startsWith_append (s p : string) :
  Js.startsWith s p = true <-> exists rest, s = p +:+ rest.
Proof.
  unfold Js.startsWith. revert s.
  induction p as [|c p IH]; intros s.
  - split; [intros _; now exists s | now destruct s].
  - destruct s as [|d s]; cbn.
    + split; [discriminate | intros (rest & [=])].
    + destruct (ascii_dec c d) as [<-|Hne].
      * rewrite IH. split; intros (rest & Hr); exists rest;
          change (String c p +:+ rest) with (String c (p +:+ rest)) in *;
          congruence.
      * split; [discriminate | intros (rest & Hr)].
        change (String c p +:+ rest) with (String c (p +:+ rest)) in Hr.
        congruence.
Qed.

(** C9. The category sent to the record store: a value prefixed
    [listener_] becomes [listener], [scholar] becomes [student], [expert]
    becomes [scientist], and every other value goes through unchanged. *)
Theorem normalizedCategory_rule (rawCategory : string) :
  ((exists rest, rawCategory = "listener_" +:+ rest) ->
     Registration.normalizedCategory (Some rawCategory) = Some "listener")
  /\ (rawCategory = "scholar" ->
        Registration.normalizedCategory (Some rawCategory) = Some "student")
  /\ (rawCategory = "expert" ->
        Registration.normalizedCategory (Some rawCategory) = Some "scientist")
  /\ (~ (exists rest, rawCategory = "listener_" +:+ rest) ->
      rawCategory <> "scholar" -> rawCategory <> "expert" ->
        Registration.normalizedCategory (Some rawCategory) = Some rawCategory).
Proof.
  unfold Registration.normalizedCategory. repeat split.
  - intros H. apply startsWith_append in H. now rewrite H.
  - intros ->. reflexivity.
  - intros ->. reflexivity.
  - intros Hp Hs He.
    destruct (Js.startsWith rawCategory "listener_") eqn:E.
    + exfalso. apply Hp. now apply startsWith_append.
    + apply String.eqb_neq in Hs, He. now rewrite Hs, He.
Qed.

(* ================================================================== *)
(** ** Requests that write *)
(* ================================================================== *)

Lemma storage_remove_run (b : string) (keys : list (option string)) (w : World) :
  Supabase.storage_remove b keys w
  = match next_fault w with
    | Some e => (Returned (Error e), issue (StorageRemove b keys) w)
    | None =>
        (Returned (Data tt),
         set_bucket (foldr Supabase.remove_key (bucket w) keys)
           (issue (StorageRemove b keys) w))
    end.
Proof.
  unfold Supabase.storage_remove, request. now destruct (next_fault w).
Qed.

Lemma papers_delete_eq_id_run (paperId : string) (w : World) :
  Supabase.papers_delete_eq_id paperId w
  = match next_fault w with
    | Some e => (Returned (Error e), issue (DbDelete "papers") w)
    | None =>
        (Returned (Data tt),
         set_papers
           (List.filter (fun p => negb (String.eqb (Papers.id p) paperId))
              (papers w))
           (issue (DbDelete "papers") w))
    end.
Proof.
  unfold Supabase.papers_delete_eq_id, request. now destruct (next_fault w).
Qed.

Lemma papers_delete_neq_id_run (v : string) (w : World) :
  Supabase.papers_delete_neq_id v w
  = match next_fault w with
    | Some e => (Returned (Error e), issue (DbDelete "papers") w)
    | None =>
        (Returned (Data tt),
         set_papers (List.filter (fun p => String.eqb (Papers.id p) v) (papers w))
           (issue (DbDelete "papers") w))
    end.
Proof.
  unfold Supabase.papers_delete_neq_id, request. now destruct (next_fault w).
Qed.

(** Deleting by id in a table keyed by id removes that row and no other. *)
Lemma filter_other_ids (ps : list Papers.row) (p q : Papers.row) :
  NoDup (List.map Papers.id ps) -> In p ps ->
  In q (List.filter (fun x => negb (String.eqb (Papers.id x) (Papers.id p))) ps)
  <-> In q ps /\ q <> p.
Proof.
  intros Hnd Hp. rewrite filter_In, negb_true_iff, String.eqb_neq.
  split; intros [Hq Hne]; split; auto.
  - intros ->. now apply Hne.
  - intros Hid. apply Hne.
    pose proof (filter_key_unique Papers.id ps p Hnd Hp) as Hf.
    assert (Hin : In q (List.filter
                          (fun y => String.eqb (Papers.id y) (Papers.id p)) ps)).
    { apply filter_In. split; [exact Hq | now apply String.eqb_eq]. }
    rewrite Hf in Hin. destruct Hin as [<-|[]]. reflexivity.
Qed.

(** Changing a table or the bucket leaves the coming failures as they
    are. *)
Lemma fault_at_set_bucket (k : nat) (b : gmap string File) (w : World) :
  fault_at k (set_bucket b w) = fault_at k w.
Proof. reflexivity. Qed.

Lemma fault_at_set_papers (k : nat) (ps : list Papers.row) (w : World) :
  fault_at k (set_papers ps w) = fault_at k w.
Proof. reflexivity. Qed.

Lemma fault_at_set_issued_ids (k n : nat) (w : World) :
  fault_at k (set_issued_ids n w) = fault_at k w.
Proof. reflexivity. Qed.

Lemma fault_at_set_activity_logs (k : nat) (l : list ActivityLogs.row) (w : World) :
  fault_at k (set_activity_logs l w) = fault_at k w.
Proof. reflexivity. Qed.

Lemma fault_at_set_email_notifications (k : nat)
    (l : list EmailNotifications.row) (w : World) :
  fault_at k (set_email_notifications l w) = fault_at k w.
Proof. reflexivity. Qed.

Lemma fault_at_set_opened_windows (k : nat) (l : list string) (w : World) :
  fault_at k (set_opened_windows l w) = fault_at k w.
Proof. reflexivity. Qed.

Create Rewrite HintDb faults.
#[local] Hint Rewrite next_fault_fault_at fault_at_issue fault_at_set_bucket
  fault_at_set_papers fault_at_set_issued_ids fault_at_set_activity_logs
  fault_at_set_email_notifications fault_at_set_opened_windows : faults.

(* ================================================================== *)
(** ** Owner-initiated delete *)
(* ================================================================== *)

(** [deletePaper] in closed form: what it returns and the world it leaves,
    by which of its three requests are answered. *)
Lemma deletePaper_run (paperId : string) (w : World) :
  PaperSubmission.deletePaper paperId w
  = match fault_at 0 w with
    | Some e => (Returned (Failure e), issue (DbSelect "papers") w)
    | None =>
        let w1 := issue (DbSelect "papers") w in
        match single (List.filter (fun p => String.eqb (Papers.id p) paperId)
                        (papers w)) with
        | Error e => (Returned (Failure e), w1)
        | Data paper =>
            if negb (String.eqb (Papers.status paper) "pending") then
              (Returned
                 (Failure "Cannot delete paper that is under review or has been reviewed"),
               w1)
            else
              let c := StorageRemove "papers" [Papers.file_url paper] in
              let w2 :=
                match fault_at 1 w with
                | Some _ => issue c w1
                | None =>
                    set_bucket
                      (Supabase.remove_key (Papers.file_url paper) (bucket w))
                      (issue c w1)
                end in
              match fault_at 2 w with
              | Some e => (Returned (Failure e), issue (DbDelete "papers") w2)
              | None =>
                  (Returned (Success tt),
                   set_papers
                     (List.filter
                        (fun p => negb (String.eqb (Papers.id p) paperId))
                        (papers w))
                     (issue (DbDelete "papers") w2))
              end
        end
    end.
Proof.
  unfold PaperSubmission.deletePaper, try_catch, bind.
  rewrite select_single_run, next_fault_fault_at.
  destruct (fault_at 0 w) as [e|] eqn:H0; [reflexivity|].
  cbn [papers issue set_faults set_trace].
  destruct (single _) as [paper|e]; [|reflexivity].
  cbn zeta.
  destruct (negb _); [reflexivity|].
  rewrite storage_remove_run, next_fault_fault_at, fault_at_issue.
  destruct (fault_at 1 w) as [e1|] eqn:H1;
    rewrite papers_delete_eq_id_run; autorewrite with faults;
    destruct (fault_at 2 w); reflexivity.
Qed.

(** C1. Owner-initiated delete of a paper whose status is not [pending]
    returns a failure and deletes neither the storage object nor the
    record: the tables and the bucket are as before, and the fetch is the
    only request issued. When the fetch is answered, in a table keyed by
    id, the failure is the invalid-state one. *)
Theorem deletePaper_not_pending (w : World) (p : Papers.row) :
  In p (papers w) -> Papers.status p <> "pending" ->
  (exists e, fst (PaperSubmission.deletePaper (Papers.id p) w)
             = Returned (Failure e))
  /\ papers (snd (PaperSubmission.deletePaper (Papers.id p) w)) = papers w
  /\ bucket (snd (PaperSubmission.deletePaper (Papers.id p) w)) = bucket w
  /\ trace (snd (PaperSubmission.deletePaper (Papers.id p) w))
     = trace w ++ [DbSelect "papers"]
  /\ (NoDup (List.map Papers.id (papers w)) -> fault_at 0 w = None ->
      fst (PaperSubmission.deletePaper (Papers.id p) w)
      = Returned
          (Failure "Cannot delete paper that is under review or has been reviewed")).
Proof.
  intros Hin Hst. rewrite deletePaper_run.
  assert (Hnp : negb (String.eqb (Papers.status p) "pending") = true).
  { now apply negb_true_iff, String.eqb_neq. }
  destruct (fault_at 0 w) as [e|] eqn:H0.
  - cbn. repeat split; eauto. intros _ [=].
  - cbn zeta.
    destruct (List.filter _ (papers w)) as [|q [|q' l]] eqn:Hf; cbn [single].
    + cbn. repeat split; eauto. intros Hnd _.
      rewrite (filter_key_unique Papers.id _ p Hnd Hin) in Hf. discriminate.
    + assert (q = p) as ->.
      { assert (Hp : In p [q]).
        { rewrite <- Hf. apply filter_In. split; [exact Hin|apply String.eqb_refl]. }
        now destruct Hp as [->|[]]. }
      rewrite Hnp. cbn. repeat split; eauto.
    + cbn. repeat split; eauto. intros Hnd _.
      rewrite (filter_key_unique Papers.id _ p Hnd Hin) in Hf. discriminate.
Qed.

(** C5. Owner-initiated delete of a pending paper, when the fetch and the
    record delete are answered: it succeeds and the record is gone, whether
    or not the storage removal is answered; when the storage removal is
    answered the storage object is gone too, and when it is not the bucket
    is as before. *)
Theorem deletePaper_pending (w : World) (p : Papers.row) :
  In p (papers w) -> NoDup (List.map Papers.id (papers w)) ->
  Papers.status p = "pending" ->
  fault_at 0 w = None -> fault_at 2 w = None ->
  fst (PaperSubmission.deletePaper (Papers.id p) w) = Returned (Success tt)
  /\ (forall q, In q (papers (snd (PaperSubmission.deletePaper (Papers.id p) w)))
                <-> In q (papers w) /\ q <> p)
  /\ (fault_at 1 w = None ->
      bucket (snd (PaperSubmission.deletePaper (Papers.id p) w))
      = Supabase.remove_key (Papers.file_url p) (bucket w)
      /\ forall key, Papers.file_url p = Some key ->
           bucket (snd (PaperSubmission.deletePaper (Papers.id p) w)) !! key = None)
  /\ (fault_at 1 w <> None ->
      bucket (snd (PaperSubmission.deletePaper (Papers.id p) w)) = bucket w)
  /\ trace (snd (PaperSubmission.deletePaper (Papers.id p) w))
     = trace w ++ [DbSelect "papers";
                   StorageRemove "papers" [Papers.file_url p];
                   DbDelete "papers"].
Proof.
  intros Hin Hnd Hst H0 H2. rewrite deletePaper_run, H0, H2.
  rewrite (filter_key_unique Papers.id _ p Hnd Hin). cbn [single].
  rewrite Hst. cbn [String.eqb negb]. cbn zeta.
  change (negb ("pending" =? "pending")%string) with false. cbn iota.
  split; [reflexivity|]. split; [|split; [|split]].
  - intros q. cbn [snd papers set_papers]. now apply filter_other_ids.
  - intros H1. rewrite H1. cbn. split; [reflexivity|].
    intros key ->. cbn. apply lookup_delete_eq.
  - intros H1. destruct (fault_at 1 w); [reflexivity|congruence].
  - destruct (fault_at 1 w); cbn; now rewrite <- !app_assoc.
Qed.

(* ================================================================== *)
(** ** Admin delete *)
(* ================================================================== *)

Lemma isAdmin_some (w : World) (a : Admins.row) :
  fst (SupabaseClient.isAdmin w) = Returned (Some a) ->
  SupabaseClient.isAdmin w
  = (Returned (Some a), issue (DbSelect "admins") (issue AuthGetUser w)).
Proof.
  rewrite isAdmin_run. cbn [fst]. intros [= Ha]. rewrite Ha. f_equal.
  apply admin_answer_sound in Ha as (u & Hs & H0 & _).
  unfold after_isAdmin. now rewrite H0, Hs.
Qed.

Lemma isAdmin_none (w : World) :
  fst (SupabaseClient.isAdmin w) = Returned None ->
  SupabaseClient.isAdmin w = (Returned None, after_isAdmin w).
Proof. rewrite isAdmin_run. cbn [fst]. now intros [= ->]. Qed.

(** The requests [isAdmin] issues are reads, and it leaves the tables and
    the bucket alone. *)
Lemma after_isAdmin_frame (w : World) :
  papers (after_isAdmin w) = papers w
  /\ bucket (after_isAdmin w) = bucket w
  /\ activity_logs (after_isAdmin w) = activity_logs w
  /\ email_notifications (after_isAdmin w) = email_notifications w
  /\ exists cs, trace (after_isAdmin w) = trace w ++ cs
                /\ forallb is_read cs = true.
Proof.
  unfold after_isAdmin.
  destruct (fault_at 0 w); [|destruct (session_user w)]; cbn;
    repeat split; try reflexivity.
  - now exists [AuthGetUser].
  - exists [AuthGetUser; DbSelect "admins"]. now rewrite <- app_assoc.
  - now exists [AuthGetUser].
Qed.

(** C10. [adminDeletePaper] by a resolved admin, on a paper of any status,
    when the fetch and the record delete are answered: it succeeds and the
    record is gone whether or not the storage removal is answered; a
    storage removal that fails leaves the bucket as it was and aborts
    nothing. *)
Theorem adminDeletePaper_storage_best_effort (w : World) (a : Admins.row)
    (p : Papers.row) :
  fst (SupabaseClient.isAdmin w) = Returned (Some a) ->
  In p (papers w) -> NoDup (List.map Papers.id (papers w)) ->
  fault_at 2 w = None -> fault_at 4 w = None ->
  fst (Admin.adminDeletePaper (Papers.id p) w) = Returned (Success tt)
  /\ (forall q, In q (papers (snd (Admin.adminDeletePaper (Papers.id p) w)))
                <-> In q (papers w) /\ q <> p)
  /\ (fault_at 3 w = None ->
      bucket (snd (Admin.adminDeletePaper (Papers.id p) w))
      = Supabase.remove_key (Papers.file_url p) (bucket w))
  /\ (fault_at 3 w <> None ->
      bucket (snd (Admin.adminDeletePaper (Papers.id p) w)) = bucket w)
  /\ trace (snd (Admin.adminDeletePaper (Papers.id p) w))
     = trace w ++ [AuthGetUser; DbSelect "admins"; DbSelect "papers";
                   StorageRemove "papers" [Papers.file_url p];
                   DbDelete "papers"].
Proof.
  intros Hadm Hin Hnd H2 H4.
  unfold Admin.adminDeletePaper, try_catch, bind, Auth.window_auth_isAdmin.
  rewrite (isAdmin_some w a Hadm).
  rewrite select_single_run. autorewrite with faults. rewrite H2.
  cbn [papers issue set_faults set_trace].
  rewrite (filter_key_unique Papers.id _ p Hnd Hin). cbn [single].
  rewrite storage_remove_run. autorewrite with faults.
  destruct (fault_at 3 w) as [e|] eqn:H3;
    rewrite papers_delete_eq_id_run; autorewrite with faults; rewrite H4;
    cbn [fst snd ret papers bucket set_papers set_bucket issue set_faults
         set_trace trace foldr];
    (split; [reflexivity|]); (split; [intros q; now apply filter_other_ids|]);
    (split; [intros; try reflexivity; discriminate|]);
    (split; [intros; try reflexivity; congruence|]);
    now rewrite <- !app_assoc.
Qed.

(* ================================================================== *)
(** ** Profile resolution *)
(* ================================================================== *)

Lemma getCurrentUserRecord_run (w : World) :
  Auth.getCurrentUserRecord w
  = (Returned (record_answer w), after_getCurrentUserRecord w).
Proof.
  unfold Auth.getCurrentUserRecord, try_catch, bind, record_answer,
    after_getCurrentUserRecord, user_row_answer, admin_row_answer.
  rewrite getCurrentUser_run, <- next_fault_fault_at.
  destruct (next_fault w) as [e|]; [reflexivity|].
  destruct (session_user w) as [u|]; [|reflexivity].
  rewrite select_single_run. autorewrite with faults.
  cbn [users issue set_faults set_trace].
  destruct (fault_at 1 w) as [e1|].
  - cbn [data_of]. rewrite select_single_run. autorewrite with faults.
    cbn [admins issue set_faults set_trace].
    destruct (fault_at 2 w); [reflexivity|].
    now destruct (single _).
  - destruct (single (List.filter _ (users w))) as [x|e1]; [reflexivity|].
    cbn [data_of]. rewrite select_single_run. autorewrite with faults.
    cbn [admins issue set_faults set_trace].
    destruct (fault_at 2 w); [reflexivity|].
    now destruct (single _).
Qed.

Lemma after_getCurrentUserRecord_frame (w : World) :
  papers (after_getCurrentUserRecord w) = papers w
  /\ bucket (after_getCurrentUserRecord w) = bucket w
  /\ clock (after_getCurrentUserRecord w) = clock w
  /\ issued_ids (after_getCurrentUserRecord w) = issued_ids w
  /\ exists cs, trace (after_getCurrentUserRecord w) = trace w ++ cs
                /\ forallb is_read cs = true.
Proof.
  unfold after_getCurrentUserRecord.
  destruct (fault_at 0 w); [|destruct (session_user w) as [u|];
    [destruct (user_row_answer w u)|]]; cbn; repeat split; try reflexivity.
  - now exists [AuthGetUser].
  - exists [AuthGetUser; DbSelect "users"]. now rewrite <- app_assoc.
  - exists [AuthGetUser; DbSelect "users"; DbSelect "admins"].
    now rewrite <- !app_assoc.
  - now exists [AuthGetUser].
Qed.

(** When the lookups are answered, the profile is the one the tables
    determine. *)
Lemma record_answer_resolved (w : World) (u : AuthUser) :
  session_user w = Some u ->
  fault_at 0 w = None -> fault_at 1 w = None -> fault_at 2 w = None ->
  record_answer w = Spec.resolved_profile (users w) (admins w) (uid u).
Proof.
  intros Hs H0 H1 H2.
  unfold record_answer, user_row_answer, admin_row_answer, Spec.resolved_profile.
  rewrite H0, Hs, H1, H2.
  destruct (List.filter _ (users w)) as [|x [|x' l]]; cbn [single data_of];
    try reflexivity;
    destruct (List.filter _ (admins w)) as [|y [|y' l']]; reflexivity.
Qed.

(* ================================================================== *)
(** ** Paper upload *)
(* ================================================================== *)

Lemma healthy_after_getCurrentUserRecord (w : World) :
  healthy w -> healthy (after_getCurrentUserRecord w).
Proof.
  intros H. unfold after_getCurrentUserRecord.
  destruct (fault_at 0 w); [|destruct (session_user w) as [u|];
    [destruct (user_row_answer w u)|]]; repeat apply healthy_issue; exact H.
Qed.

Lemma healthy_after_isAdmin (w : World) : healthy w -> healthy (after_isAdmin w).
Proof.
  intros H. unfold after_isAdmin.
  destruct (fault_at 0 w); [|destruct (session_user w)];
    repeat apply healthy_issue; exact H.
Qed.

(** An upload that fails a file check: the outcome in closed form. Only
    the identity and profile lookups have been issued. *)
Lemma uploadPaper_rejected (rt : Runtime) (file : File)
    (metadata : PaperSubmission.Metadata) (w : World) :
  Utils.isValidFileType (name file) PaperSubmission.allowedTypes
  && Utils.isValidFileSize (size file) 10 = false ->
  PaperSubmission.uploadPaper rt file metadata w
  = match fault_at 0 w, session_user w with
    | None, Some _ =>
        (Returned
           (Failure
              (match record_answer (issue AuthGetUser w) with
               | None =>
                   "User record not found. Please complete registration first."
               | Some _ =>
                   if Utils.isValidFileType (name file) PaperSubmission.allowedTypes
                   then "File size exceeds 10 MB limit"
                   else "Invalid file type. Please upload PDF, DOC, or DOCX files only."
               end)),
         after_getCurrentUserRecord (issue AuthGetUser w))
    | _, _ =>
        (Returned (Failure "Please log in to submit a paper"),
         issue AuthGetUser w)
    end.
Proof.
  intros Hbad.
  unfold PaperSubmission.uploadPaper, try_catch, bind.
  rewrite getCurrentUser_run, next_fault_fault_at.
  destruct (fault_at 0 w); [reflexivity|].
  destruct (session_user w); [|reflexivity].
  rewrite getCurrentUserRecord_run.
  destruct (record_answer _); [|reflexivity].
  destruct (Utils.isValidFileType _ _); [|reflexivity].
  cbn in Hbad. now rewrite Hbad.
Qed.

(** Whatever check rejects the file, nothing has been written and only
    reads have been issued, the identity lookup first. *)
Lemma uploadPaper_rejected_frame (rt : Runtime) (file : File)
    (metadata : PaperSubmission.Metadata) (w : World) :
  Utils.isValidFileType (name file) PaperSubmission.allowedTypes
  && Utils.isValidFileSize (size file) 10 = false ->
  (exists e, fst (PaperSubmission.uploadPaper rt file metadata w)
             = Returned (Failure e))
  /\ papers (snd (PaperSubmission.uploadPaper rt file metadata w)) = papers w
  /\ bucket (snd (PaperSubmission.uploadPaper rt file metadata w)) = bucket w
  /\ exists cs,
       trace (snd (PaperSubmission.uploadPaper rt file metadata w))
       = trace w ++ AuthGetUser :: cs
       /\ forallb is_read cs = true.
Proof.
  intros Hbad. rewrite (uploadPaper_rejected rt file metadata w Hbad).
  destruct (fault_at 0 w); [|destruct (session_user w)]; cbn [fst snd].
  - split; [eauto|]. split; [reflexivity|]. split; [reflexivity|].
    exists []. now split.
  - destruct (after_getCurrentUserRecord_frame (issue AuthGetUser w))
      as (Hp & Hb & _ & _ & cs & Ht & Hr).
    rewrite Hp, Hb, Ht. cbn [papers bucket trace issue set_faults set_trace].
    split; [eauto|]. split; [reflexivity|]. split; [reflexivity|].
    exists cs. now rewrite <- app_assoc.
  - split; [eauto|]. split; [reflexivity|]. split; [reflexivity|].
    exists []. now split.
Qed.

(** C3. A file whose extension is not pdf, doc or docx: [uploadPaper]
    returns a failure, the [papers] table and the bucket are as before, and
    the only requests issued are reads (no storage upload, no database
    insert). For a caller who is authenticated with a resolved profile the
    failure is the file-type validation error. *)
Theorem uploadPaper_invalid_type (rt : Runtime) (file : File)
    (metadata : PaperSubmission.Metadata) (w : World) :
  ~ (exists e, Spec.extension (name file) = Some e
               /\ In e Spec.allowed_extensions) ->
  (exists e, fst (PaperSubmission.uploadPaper rt file metadata w)
             = Returned (Failure e))
  /\ papers (snd (PaperSubmission.uploadPaper rt file metadata w)) = papers w
  /\ bucket (snd (PaperSubmission.uploadPaper rt file metadata w)) = bucket w
  /\ (exists cs,
        trace (snd (PaperSubmission.uploadPaper rt file metadata w))
        = trace w ++ cs
        /\ forallb is_read cs = true)
  /\ (forall u prof,
        healthy w -> session_user w = Some u ->
        Spec.resolved_profile (users w) (admins w) (uid u) = Some prof ->
        fst (PaperSubmission.uploadPaper rt file metadata w)
        = Returned
            (Failure "Invalid file type. Please upload PDF, DOC, or DOCX files only.")).
Proof.
  intros Hext.
  assert (Hty : Utils.isValidFileType (name file) PaperSubmission.allowedTypes
                = false).
  { apply not_true_is_false. intros H. apply Hext.
    now apply isValidFileType_extension. }
  assert (Hbad : Utils.isValidFileType (name file) PaperSubmission.allowedTypes
                 && Utils.isValidFileSize (size file) 10 = false)
    by now rewrite Hty.
  destruct (uploadPaper_rejected_frame rt file metadata w Hbad)
    as (Hf & Hp & Hb & cs & Ht & Hr).
  split; [exact Hf|]. split; [exact Hp|]. split; [exact Hb|]. split.
  - exists (AuthGetUser :: cs). now split.
  - intros u prof Hh Hs Hprof.
    rewrite (uploadPaper_rejected rt file metadata w Hbad).
    rewrite (Hh 0%nat), Hs. cbn [fst].
    rewrite (record_answer_resolved _ u); autorewrite with faults; auto.
    cbn [users admins issue set_faults set_trace].
    now rewrite Hprof, Hty.
Qed.

(** C4, as the code has it. A file larger than 10 MiB: [uploadPaper]
    returns a failure and writes nothing, neither to storage nor to the
    record store; the requests it has issued by then are reads, the
    identity lookup first. For a caller who is authenticated with a
    resolved profile and a file of an allowed type, the failure is the size
    validation error, issued after those lookups. *)
Theorem uploadPaper_oversize_no_write (rt : Runtime) (file : File)
    (metadata : PaperSubmission.Metadata) (w : World) :
  (10 * Spec.MiB < size file)%Z ->
  (exists e, fst (PaperSubmission.uploadPaper rt file metadata w)
             = Returned (Failure e))
  /\ papers (snd (PaperSubmission.uploadPaper rt file metadata w)) = papers w
  /\ bucket (snd (PaperSubmission.uploadPaper rt file metadata w)) = bucket w
  /\ (exists cs,
        trace (snd (PaperSubmission.uploadPaper rt file metadata w))
        = trace w ++ AuthGetUser :: cs
        /\ forallb is_read cs = true)
  /\ (forall u prof,
        healthy w -> session_user w = Some u ->
        Spec.resolved_profile (users w) (admins w) (uid u) = Some prof ->
        Utils.isValidFileType (name file) PaperSubmission.allowedTypes = true ->
        fst (PaperSubmission.uploadPaper rt file metadata w)
        = Returned (Failure "File size exceeds 10 MB limit")).
Proof.
  intros Hbig.
  assert (Hsz : Utils.isValidFileSize (size file) 10 = false).
  { unfold Utils.isValidFileSize. apply Z.leb_gt. unfold Spec.MiB in Hbig. lia. }
  assert (Hbad : Utils.isValidFileType (name file) PaperSubmission.allowedTypes
                 && Utils.isValidFileSize (size file) 10 = false)
    by (rewrite Hsz; apply andb_false_r).
  destruct (uploadPaper_rejected_frame rt file metadata w Hbad)
    as (Hf & Hp & Hb & Ht).
  split; [exact Hf|]. split; [exact Hp|]. split; [exact Hb|].
  split; [exact Ht|].
  intros u prof Hh Hs Hprof Hty.
  rewrite (uploadPaper_rejected rt file metadata w Hbad).
  rewrite (Hh 0%nat), Hs. cbn [fst].
  rewrite (record_answer_resolved _ u); autorewrite with faults; auto.
  cbn [users admins issue set_faults set_trace].
  now rewrite Hprof, Hty.
Qed.

Lemma storage_upload_run (b key : string) (file : File) (w : World) :
  Supabase.storage_upload b key file w
  = match next_fault w with
    | Some e => (Returned (Error e), issue (StorageUpload b key) w)
    | None =>
        match bucket w !! key with
        | Some _ =>
            (Returned (Error "The resource already exists"),
             issue (StorageUpload b key) w)
        | None =>
            (Returned (Data key),
             set_bucket (<[key := file]> (bucket w))
               (issue (StorageUpload b key) w))
        end
    end.
Proof.
  unfold Supabase.storage_upload, request.
  destruct (next_fault w); [reflexivity|].
  cbn [bucket issue set_faults set_trace]. now destruct (bucket w !! key).
Qed.

Lemma papers_insert_single_run (rt : Runtime) (d : Papers.draft) (w : World) :
  Supabase.papers_insert_single rt d w
  = match next_fault w with
    | Some e => (Returned (Error e), issue (DbInsert "papers") w)
    | None =>
        let p := Papers.of_draft (gen_random_uuid rt (issued_ids w))
                   (db_now rt (clock w)) d in
        (Returned (Data p),
         set_issued_ids (S (issued_ids w))
           (set_papers (papers w ++ [p]) (issue (DbInsert "papers") w)))
    end.
Proof.
  unfold Supabase.papers_insert_single, request. now destruct (next_fault w).
Qed.

(** X29. An authenticated caller with a resolved profile uploads a file
    whose name is in the ASCII range, of an allowed extension and of at most
    10 MiB, the backend answers, and no object is stored under the path yet:
    [uploadPaper] returns success with a Paper row of status [pending],
    whose [file_size_bytes] is the size of the file and whose [file_url] is
    the storage path [{userId}/{timestamp}_{originalFileName}]; that row has
    been added to [papers] and the file is stored under that path. *)
Theorem uploadPaper_success (rt : Runtime) (file : File)
    (metadata : PaperSubmission.Metadata) (w : World) (u : AuthUser)
    (prof : Auth.Profile) :
  healthy w ->
  session_user w = Some u ->
  Spec.resolved_profile (users w) (admins w) (uid u) = Some prof ->
  ascii_only (name file) = true ->
  (exists e, Spec.extension (name file) = Some e
             /\ In e Spec.allowed_extensions) ->
  (size file <= 10 * Spec.MiB)%Z ->
  bucket w !! storage_path (Auth.id prof) (clock w) (name file) = None ->
  exists paperData,
    fst (PaperSubmission.uploadPaper rt file metadata w)
    = Returned (Success paperData)
    /\ Papers.status paperData = "pending"
    /\ Papers.file_size_bytes paperData = size file
    /\ Papers.file_url paperData
       = Some (storage_path (Auth.id prof) (clock w) (name file))
    /\ Papers.user_id paperData = Auth.id prof
    /\ papers (snd (PaperSubmission.uploadPaper rt file metadata w))
       = papers w ++ [paperData]
    /\ bucket (snd (PaperSubmission.uploadPaper rt file metadata w))
       = <[storage_path (Auth.id prof) (clock w) (name file) := file]> (bucket w).
Proof.
  (* the hypothesis on the name delimits the files on which the lower-casing
     of this development is JavaScript's *)
  intros Hh Hs Hprof _ Hext Hsz Hfree.
  apply isValidFileType_extension in Hext.
  assert (Hsz' : Utils.isValidFileSize (size file) 10 = true).
  { unfold Utils.isValidFileSize. apply Z.leb_le. unfold Spec.MiB in Hsz. lia. }
  pose proof (healthy_issue AuthGetUser w Hh) as Hh1.
  pose proof (healthy_after_getCurrentUserRecord _ Hh1) as Hh2.
  destruct (after_getCurrentUserRecord_frame (issue AuthGetUser w))
    as (Hp & Hb & Hc & Hi & _).
  cbn [papers bucket clock issued_ids issue set_faults set_trace] in Hp, Hb, Hc, Hi.
  unfold PaperSubmission.uploadPaper, try_catch, bind.
  rewrite getCurrentUser_run, (healthy_next w Hh), Hs.
  rewrite getCurrentUserRecord_run.
  rewrite (record_answer_resolved (issue AuthGetUser w) u); auto.
  cbn [users admins issue set_faults set_trace]. rewrite Hprof.
  rewrite Hext, Hsz'. cbn [negb gets].
  rewrite Hc.
  fold (storage_path (Auth.id prof) (clock w) (name file)).
  rewrite storage_upload_run, (healthy_next _ Hh2), Hb, Hfree.
  rewrite papers_insert_single_run.
  rewrite (healthy_next (set_bucket _ _) (healthy_issue _ _ Hh2)).
  cbn [fst snd ret papers bucket set_papers set_bucket set_issued_ids issue
       set_faults set_trace].
  eexists. split; [reflexivity|].
  rewrite ?Hp, ?Hb.
  repeat split; reflexivity.
Qed.

(* ================================================================== *)
(** ** Notifications and the audit log *)
(* ================================================================== *)

Lemma email_notifications_insert_run (row : EmailNotifications.row) (w : World) :
  Supabase.email_notifications_insert row w
  = match next_fault w with
    | Some e => (Returned (Error e), issue (DbInsert "email_notifications") w)
    | None =>
        (Returned (Data tt),
         set_email_notifications (email_notifications w ++ [row])
           (issue (DbInsert "email_notifications") w))
    end.
Proof.
  unfold Supabase.email_notifications_insert, request.
  now destruct (next_fault w).
Qed.

Lemma activity_logs_insert_run (row : ActivityLogs.row) (w : World) :
  Supabase.activity_logs_insert row w
  = match next_fault w with
    | Some e => (Returned (Error e), issue (DbInsert "activity_logs") w)
    | None =>
        (Returned (Data tt),
         set_activity_logs (activity_logs w ++ [row])
           (issue (DbInsert "activity_logs") w))
    end.
Proof.
  unfold Supabase.activity_logs_insert, request. now destruct (next_fault w).
Qed.

Lemma sendUserNotification_run (rt : Runtime) (email : string)
    (o : Utils.options) (w : World) :
  Utils.sendUserNotification rt email o w
  = (Returned (composer_opened (mailto_link rt email o)),
     after_sendUserNotification rt email o w).
Proof.
  unfold Utils.sendUserNotification, try_catch, bind, gets, modify, call,
    after_sendUserNotification, mailto_link.
  rewrite email_notifications_insert_run, next_fault_fault_at.
  destruct (fault_at 0 w);
    (destruct (encodeURIComponent rt (Utils.subject o)); [|reflexivity]);
    destruct (encodeURIComponent rt (Utils.body o)); reflexivity.
Qed.

Lemma sendStatusUpdateEmail_run (rt : Runtime) (paperData : Papers.joined)
    (w : World) :
  Admin.sendStatusUpdateEmail rt paperData w
  = (Returned tt, after_sendStatusUpdateEmail rt paperData w).
Proof.
  unfold Admin.sendStatusUpdateEmail, try_catch, bind,
    after_sendStatusUpdateEmail.
  destruct (Papers.users paperData) as [user|]; [|reflexivity].
  destruct (negb _); [reflexivity|].
  now rewrite sendUserNotification_run.
Qed.

Lemma after_isAdmin_fault (w : World) (a : Admins.row) (k : nat) :
  admin_answer w = Some a ->
  fault_at k (after_isAdmin w) = fault_at (2 + k) w.
Proof.
  intros Ha. apply admin_answer_sound in Ha as (u & Hs & H0 & _).
  unfold after_isAdmin. rewrite H0, Hs. now autorewrite with faults.
Qed.

Lemma logAdminActivity_run (rt : Runtime) (actionType : string)
    (actionData : Js.Obj) (w : World) :
  Admin.logAdminActivity rt actionType actionData w
  = (Returned tt, after_logAdminActivity rt actionType actionData w).
Proof.
  unfold Admin.logAdminActivity, try_catch, bind, Auth.window_auth_isAdmin,
    after_logAdminActivity.
  rewrite isAdmin_run.
  destruct (admin_answer w) as [a|] eqn:Ha; [|reflexivity].
  rewrite activity_logs_insert_run, next_fault_fault_at.
  rewrite (after_isAdmin_fault w a 0 Ha). cbn [Nat.add].
  destruct (after_isAdmin_frame w) as (_ & _ & Hl & _). rewrite Hl.
  destruct (fault_at 2 w); reflexivity.
Qed.

(** [isAdmin] answers by the caller's identity, the [admins] table and
    whether its two requests are answered. *)
Lemma admin_answer_ext (w w' : World) :
  session_user w' = session_user w -> admins w' = admins w ->
  fault_at 0 w' = fault_at 0 w -> fault_at 1 w' = fault_at 1 w ->
  admin_answer w' = admin_answer w.
Proof.
  intros Hs Ha H0 H1. unfold admin_answer. now rewrite Hs, Ha, H0, H1.
Qed.


(* ================================================================== *)
(** ** Status review *)
(* ================================================================== *)

Lemma papers_update_eq_id_single_run (r : Papers.review) (paperId : string)
    (w : World) :
  Supabase.papers_update_eq_id_single r paperId w
  = match next_fault w with
    | Some e => (Returned (Error e), issue (DbUpdate "papers") w)
    | None =>
        match single (List.filter
                        (fun p => String.eqb (Papers.id p) paperId) (papers w)) with
        | Data p =>
            (Returned
               (Data {| Papers.paper := Papers.with_review r p;
                        Papers.users :=
                          Supabase.owner_of (users w) (Papers.with_review r p) |}),
             set_papers
               (List.map
                  (fun q => if String.eqb (Papers.id q) paperId
                            then Papers.with_review r q else q) (papers w))
               (issue (DbUpdate "papers") w))
        | Error e => (Returned (Error e), issue (DbUpdate "papers") w)
        end
    end.
Proof.
  unfold Supabase.papers_update_eq_id_single, request.
  destruct (next_fault w); [reflexivity|].
  cbn [papers users issue set_faults set_trace].
  now destruct (single _).
Qed.

Lemma healthy_fault_at (w : World) (k : nat) : healthy w -> fault_at k w = None.
Proof. intros H. apply H. Qed.

(** A caller who is not a resolved admin is turned away before anything
    is written. *)
Lemma updatePaperStatus_unauthorized (rt : Runtime)
    (paperId newStatus comments : string) (w : World) :
  fst (SupabaseClient.isAdmin w) = Returned None ->
  Admin.updatePaperStatus rt paperId newStatus comments w
  = (Returned (Failure "Unauthorized: Admin access required"), after_isAdmin w).
Proof.
  intros Hn.
  unfold Admin.updatePaperStatus, try_catch, bind, Auth.window_auth_isAdmin.
  now rewrite (isAdmin_none w Hn).
Qed.

(** A review by a resolved admin with the backend answering, in closed
    form: the result, the papers, the notification log and the audit
    log. *)
Lemma updatePaperStatus_run (rt : Runtime) (newStatus comments : string)
    (w : World) (a : Admins.row) (p : Papers.row) :
  healthy w ->
  fst (SupabaseClient.isAdmin w) = Returned (Some a) ->
  In p (papers w) -> NoDup (List.map Papers.id (papers w)) ->
  let r := review_of rt a newStatus comments (clock w) in
  let o := Supabase.owner_of (users w) p in
  let data := {| Papers.paper := Papers.with_review r p; Papers.users := o |} in
  fst (Admin.updatePaperStatus rt (Papers.id p) newStatus comments w)
  = Returned (Success data)
  /\ papers (snd (Admin.updatePaperStatus rt (Papers.id p) newStatus comments w))
     = List.map (fun q => if String.eqb (Papers.id q) (Papers.id p)
                          then Papers.with_review r q else q) (papers w)
  /\ email_notifications
       (snd (Admin.updatePaperStatus rt (Papers.id p) newStatus comments w))
     = email_notifications w ++ status_notifications rt data (clock w)
  /\ activity_logs
       (snd (Admin.updatePaperStatus rt (Papers.id p) newStatus comments w))
     = activity_logs w
       ++ [activity_row rt a "paper_status_update"
             [ ("paper_id", Js.Str (Papers.id p));
               ("new_status", Js.Str newStatus);
               ("comments", Js.Str comments) ]].
Proof.
  intros Hh Hadm Hin Hnd r o data.
  pose proof Hadm as Hans. rewrite isAdmin_run in Hans. cbn [fst] in Hans.
  injection Hans as Hans.
  unfold Admin.updatePaperStatus, try_catch, bind, Auth.window_auth_isAdmin, gets.
  rewrite (isAdmin_some w a Hadm).
  (* the world after the admin check *)
  set (w2 := issue (DbSelect "admins") (issue AuthGetUser w)).
  assert (Hh2 : healthy w2) by (repeat apply healthy_issue; exact Hh).
  assert (Hc2 : clock w2 = clock w) by reflexivity.
  assert (Hp2 : papers w2 = papers w) by reflexivity.
  assert (Hu2 : users w2 = users w) by reflexivity.
  assert (Hs2 : session_user w2 = session_user w) by reflexivity.
  assert (Ha2 : admins w2 = admins w) by reflexivity.
  assert (He2 : email_notifications w2 = email_notifications w) by reflexivity.
  assert (Hl2 : activity_logs w2 = activity_logs w) by reflexivity.
  clearbody w2.
  rewrite Hc2. fold (review_of rt a newStatus comments (clock w)). fold r.
  rewrite papers_update_eq_id_single_run, (healthy_next w2 Hh2), Hp2, Hu2.
  rewrite (filter_key_unique Papers.id _ p Hnd Hin). cbn [single].
  change (Supabase.owner_of (users w) (Papers.with_review r p)) with o.
  fold data.
  (* the world after the update *)
  match goal with
  | |- context [set_papers ?v (issue ?c w2)] =>
      set (w3 := set_papers v (issue c w2))
  end.
  assert (Hh3 : healthy w3)
    by (apply (healthy_issue (DbUpdate "papers") w2); exact Hh2).
  assert (Hc3 : clock w3 = clock w2) by reflexivity.
  assert (Hp3 : papers w3
                = List.map (fun q => if String.eqb (Papers.id q) (Papers.id p)
                                     then Papers.with_review r q else q)
                    (papers w)) by reflexivity.
  assert (Hs3 : session_user w3 = session_user w2) by reflexivity.
  assert (Ha3 : admins w3 = admins w2) by reflexivity.
  assert (He3 : email_notifications w3 = email_notifications w2) by reflexivity.
  assert (Hl3 : activity_logs w3 = activity_logs w2) by reflexivity.
  clearbody w3.
  rewrite sendStatusUpdateEmail_run, logAdminActivity_run. cbn [fst snd ret].
  (* the world after the notification, written or skipped *)
  set (w4 := after_sendStatusUpdateEmail rt data w3).
  assert (H4 : healthy w4 /\ papers w4 = papers w3
               /\ session_user w4 = session_user w3
               /\ admins w4 = admins w3
               /\ activity_logs w4 = activity_logs w3
               /\ email_notifications w4
                  = email_notifications w3
                    ++ status_notifications rt data (clock w3)).
  { unfold w4, after_sendStatusUpdateEmail, status_notifications.
    destruct (Papers.users data) as [user|];
      [destruct (Js.truthy (Papers.o_email user)); cbn [negb]|];
      try (rewrite app_nil_r; now repeat split).
    unfold after_sendUserNotification. rewrite (healthy_fault_at w3 0 Hh3).
    cbv zeta.
    destruct (mailto_link rt (Papers.o_email user)
                (status_update_options rt (Papers.paper data) user));
      (split; [|now repeat split]);
      apply (healthy_issue (DbInsert "email_notifications") w3); exact Hh3. }
  destruct H4 as (Hh4 & Hp4 & Hs4 & Ha4 & Hl4 & He4).
  clearbody w4.
  (* the audit entry *)
  assert (Hans4 : admin_answer w4 = Some a).
  { rewrite <- Hans. apply admin_answer_ext.
    - now rewrite Hs4, Hs3, Hs2.
    - now rewrite Ha4, Ha3, Ha2.
    - now rewrite !healthy_fault_at.
    - now rewrite !healthy_fault_at. }
  unfold after_logAdminActivity. rewrite Hans4, (healthy_fault_at w4 2 Hh4).
  destruct (after_isAdmin_frame w4) as (Hp5 & _ & _ & He5 & _).
  cbn [papers email_notifications activity_logs set_activity_logs issue
       set_faults set_trace].
  rewrite Hp5, He5, Hp4, He4, Hl4, He3, Hl3, He2, Hl2, Hp3, Hc3, Hc2.
  split; [reflexivity|]. split; [reflexivity|]. split; reflexivity.
Qed.

(** In a table keyed by id, an update by id rewrites that row and no
    other. *)
Lemma map_update_by_id (ps : list Papers.row) (p : Papers.row)
    (f : Papers.row -> Papers.row) (q' : Papers.row) :
  NoDup (List.map Papers.id ps) -> In p ps ->
  In q' (List.map (fun q => if String.eqb (Papers.id q) (Papers.id p)
                            then f q else q) ps)
  <-> q' = f p \/ (In q' ps /\ q' <> p).
Proof.
  intros Hnd Hp. rewrite in_map_iff. split.
  - intros (q & Hq & Hin).
    destruct (String.eqb_spec (Papers.id q) (Papers.id p)) as [E|E].
    + left. subst q'. f_equal.
      assert (Hf : In q (List.filter
                           (fun y => String.eqb (Papers.id y) (Papers.id p)) ps)).
      { apply filter_In. split; [exact Hin | now apply String.eqb_eq]. }
      rewrite (filter_key_unique Papers.id ps p Hnd Hp) in Hf.
      now destruct Hf as [<-|[]].
    + right. subst q'. split; [exact Hin|]. intros ->. now apply E.
  - intros [->|[Hin Hne]].
    + exists p. now rewrite String.eqb_refl.
    + exists q'. split; [|exact Hin].
      destruct (String.eqb_spec (Papers.id q') (Papers.id p)) as [E|E];
        [|reflexivity].
      exfalso. apply Hne.
      assert (Hf : In q' (List.filter
                            (fun y => String.eqb (Papers.id y) (Papers.id p)) ps)).
      { apply filter_In. split; [exact Hin | now apply String.eqb_eq]. }
      rewrite (filter_key_unique Papers.id ps p Hnd Hp) in Hf.
      now destruct Hf as [<-|[]].
Qed.

(** C6, as the code has it. [updatePaperStatus] re-checks the admin
    identity itself: a caller whom [isAdmin] does not resolve gets the
    unauthorized failure and nothing is written. For a resolved admin, with
    the backend answering, a paper that exists, and any string as the new
    status: the call succeeds; the paper carries the new status, the
    admin's id and name as reviewer, the review timestamp and the comments;
    one activity-log entry of type [paper_status_update] has been appended;
    and one notification-log entry of type [paper_status_update] has been
    appended when the owner joined to the paper carries an email, none
    when it does not. *)
Theorem updatePaperStatus_review (rt : Runtime) (newStatus comments : string)
    (w : World) :
  (forall paperId,
     fst (SupabaseClient.isAdmin w) = Returned None ->
     fst (Admin.updatePaperStatus rt paperId newStatus comments w)
     = Returned (Failure "Unauthorized: Admin access required")
     /\ papers (snd (Admin.updatePaperStatus rt paperId newStatus comments w))
        = papers w
     /\ email_notifications
          (snd (Admin.updatePaperStatus rt paperId newStatus comments w))
        = email_notifications w
     /\ activity_logs
          (snd (Admin.updatePaperStatus rt paperId newStatus comments w))
        = activity_logs w)
  /\ (forall a p,
        healthy w ->
        fst (SupabaseClient.isAdmin w) = Returned (Some a) ->
        In p (papers w) -> NoDup (List.map Papers.id (papers w)) ->
        exists reviewed l,
          fst (Admin.updatePaperStatus rt (Papers.id p) newStatus comments w)
          = Returned (Success {| Papers.paper := reviewed;
                                 Papers.users := Supabase.owner_of (users w) p |})
          /\ (forall q,
                In q (papers (snd (Admin.updatePaperStatus rt (Papers.id p)
                                     newStatus comments w)))
                <-> q = reviewed \/ (In q (papers w) /\ q <> p))
          /\ Papers.id reviewed = Papers.id p
          /\ Papers.status reviewed = newStatus
          /\ Papers.reviewed_by reviewed = Some (Admins.id a)
          /\ Papers.reviewer_name reviewed = Some (Admins.full_name a)
          /\ Papers.review_date reviewed = Some (toISOString rt (clock w))
          /\ Papers.review_comments reviewed = Some comments
          /\ activity_logs
               (snd (Admin.updatePaperStatus rt (Papers.id p) newStatus
                       comments w))
             = activity_logs w ++ [l]
          /\ ActivityLogs.action_type l = "paper_status_update"
          /\ ActivityLogs.admin_id l = Admins.id a
          /\ ActivityLogs.new_data l
             = [ ("paper_id", Js.Str (Papers.id p));
                 ("new_status", Js.Str newStatus);
                 ("comments", Js.Str comments) ]
          /\ (forall o,
                Supabase.owner_of (users w) p = Some o ->
                Js.truthy (Papers.o_email o) = true ->
                exists n,
                  email_notifications
                    (snd (Admin.updatePaperStatus rt (Papers.id p) newStatus
                            comments w))
                  = email_notifications w ++ [n]
                  /\ EmailNotifications.type n = "paper_status_update"
                  /\ EmailNotifications.recipient_email n = Papers.o_email o)
          /\ (has_email (Supabase.owner_of (users w) p) = false ->
              email_notifications
                (snd (Admin.updatePaperStatus rt (Papers.id p) newStatus
                        comments w))
              = email_notifications w)).
Proof.
  split.
  - intros paperId Hn.
    rewrite (updatePaperStatus_unauthorized rt paperId newStatus comments w Hn).
    destruct (after_isAdmin_frame w) as (Hp & _ & Hl & He & _).
    cbn [fst snd]. now rewrite Hp, Hl, He.
  - intros a p Hh Hadm Hin Hnd.
    destruct (updatePaperStatus_run rt newStatus comments w a p
                Hh Hadm Hin Hnd) as (Hres & Hps & Hes & Hls).
    exists (Papers.with_review (review_of rt a newStatus comments (clock w)) p).
    eexists. split; [exact Hres|]. split.
    { intros q. rewrite Hps. now apply map_update_by_id. }
    do 6 (split; [reflexivity|]).
    split; [exact Hls|]. do 3 (split; [reflexivity|]).
    rewrite Hes. unfold status_notifications, has_email. cbn [Papers.users].
    split.
    + intros o Ho Hmail. rewrite Ho, Hmail. eexists.
      split; [reflexivity|]. split; reflexivity.
    + intros Hno.
      destruct (Supabase.owner_of (users w) p) as [o|];
        [rewrite Hno|]; apply app_nil_r.
Qed.

(* ================================================================== *)
(** ** Bulk delete *)
(* ================================================================== *)

Lemma papers_select_file_url_run (w : World) :
  Supabase.papers_select_file_url w
  = match next_fault w with
    | Some e => (Returned (Error e), issue (DbSelect "papers") w)
    | None =>
        (Returned (Data (List.map Papers.file_url (papers w))),
         issue (DbSelect "papers") w)
    end.
Proof.
  unfold Supabase.papers_select_file_url, request. now destruct (next_fault w).
Qed.

(** After a bulk removal no listed key is left in the bucket. *)
Lemma lookup_bulk_removed (keys : list (option string)) (b : gmap string File)
    (key : string) :
  In (Some key) keys -> foldr Supabase.remove_key b keys !! key = None.
Proof.
  induction keys as [|k keys IH]; intros Hin; [destruct Hin|].
  cbn [foldr]. destruct Hin as [->|Hin].
  - apply lookup_delete_eq.
  - destruct k as [k'|]; cbn [Supabase.remove_key]; [|now apply IH].
    apply lookup_delete_None. right. now apply IH.
Qed.

Lemma filter_none {A} (f : A -> bool) (l : list A) :
  (forall x, In x l -> f x = false) -> List.filter f l = [].
Proof.
  induction l as [|a l IH]; intros H; [reflexivity|].
  cbn. rewrite (H a) by now left. apply IH. intros x Hx. apply H. now right.
Qed.

Lemma stored_path_In (ps : list Papers.row) (p : Papers.row) (key : string) :
  In p ps -> Papers.file_url p = Some key -> key <> "" ->
  In (Some key) (Spec.stored_paths ps).
Proof.
  intros Hin Hurl Hne. unfold Spec.stored_paths. apply filter_In. split.
  - rewrite <- Hurl. now apply in_map.
  - cbn. unfold Js.truthy. apply negb_true_iff. now apply String.eqb_neq.
Qed.

(** C7. [deleteAllPapers] by a resolved admin, in a table whose ids are
    not the nil id, when every request is answered except possibly the
    storage removal: it collects the stored file paths, removes them from
    the bucket in one request, then deletes the records; no paper record
    is left, one activity-log entry carrying the count has been appended,
    and the result is success with that count. A storage removal that
    fails leaves the bucket as it was and stops nothing. *)
Theorem deleteAllPapers_bulk (rt : Runtime) (w : World) (a : Admins.row) :
  fst (SupabaseClient.isAdmin w) = Returned (Some a) ->
  (forall p, In p (papers w) -> Papers.id p <> Admin.nil_uuid) ->
  (forall k, fault_at k w = None
             \/ (k = 3%nat /\ Spec.stored_paths (papers w) <> [])) ->
  fst (Admin.deleteAllPapers rt w) = Returned (Success (length (papers w)))
  /\ papers (snd (Admin.deleteAllPapers rt w)) = []
  /\ activity_logs (snd (Admin.deleteAllPapers rt w))
     = activity_logs w
       ++ [activity_row rt a "delete_all_papers"
             [("count", Js.Num (Z.of_nat (length (papers w))))]]
  /\ (fault_at 3 w = None ->
      bucket (snd (Admin.deleteAllPapers rt w))
      = foldr Supabase.remove_key (bucket w) (Spec.stored_paths (papers w))
      /\ forall p key,
           In p (papers w) -> Papers.file_url p = Some key -> key <> "" ->
           bucket (snd (Admin.deleteAllPapers rt w)) !! key = None)
  /\ (fault_at 3 w <> None -> bucket (snd (Admin.deleteAllPapers rt w)) = bucket w)
  /\ trace (snd (Admin.deleteAllPapers rt w))
     = trace w
       ++ [AuthGetUser; DbSelect "admins"; DbSelect "papers"]
       ++ match Spec.stored_paths (papers w) with
          | [] => []
          | paths => [StorageRemove "papers" paths]
          end
       ++ [DbDelete "papers"; AuthGetUser; DbSelect "admins";
           DbInsert "activity_logs"].
Proof.
  intros Hadm Hnil Hf.
  assert (F : forall k, k <> 3%nat -> fault_at k w = None).
  { intros k Hk. destruct (Hf k) as [H|[H _]]; [exact H|contradiction]. }
  pose proof Hadm as Hans. rewrite isAdmin_run in Hans. cbn [fst] in Hans.
  injection Hans as Hans.
  destruct (admin_answer_sound w a Hans) as (u & Hsess & _).
  unfold Admin.deleteAllPapers, try_catch, bind, Auth.window_auth_isAdmin.
  rewrite (isAdmin_some w a Hadm).
  rewrite papers_select_file_url_run. autorewrite with faults.
  rewrite (F 2%nat) by discriminate.
  cbn [papers issue set_faults set_trace].
  (* the world after the paths have been collected *)
  set (w3 := issue (DbSelect "papers")
               (issue (DbSelect "admins") (issue AuthGetUser w))).
  assert (Hf3 : forall k, fault_at k w3 = fault_at (3 + k) w)
    by (intros k; unfold w3; now autorewrite with faults).
  assert (Hp3 : papers w3 = papers w) by reflexivity.
  assert (Hb3 : bucket w3 = bucket w) by reflexivity.
  assert (Hs3 : session_user w3 = session_user w) by reflexivity.
  assert (Ha3 : admins w3 = admins w) by reflexivity.
  assert (Hl3 : activity_logs w3 = activity_logs w) by reflexivity.
  assert (Ht3 : trace w3 = trace w ++ [AuthGetUser; DbSelect "admins";
                                       DbSelect "papers"])
    by (unfold w3; cbn; now rewrite <- !app_assoc).
  clearbody w3.
  fold (Spec.stored_paths (papers w)).
  (* the storage removal, if there is a path to remove *)
  match goal with
  | |- context [(if (0 <? length (List.map Papers.file_url (papers w)))%nat
                 then ?X else ?Y) w3] =>
      assert (Hrm : exists w4,
                 (if (0 <? length (List.map Papers.file_url (papers w)))%nat
                  then X else Y) w3 = (Returned tt, w4)
                 /\ (forall k, fault_at k w4
                               = fault_at (match Spec.stored_paths (papers w) with
                                           | [] => 3 | _ => 4
                                           end + k) w)
                 /\ papers w4 = papers w
                 /\ session_user w4 = session_user w
                 /\ admins w4 = admins w
                 /\ activity_logs w4 = activity_logs w
                 /\ bucket w4
                    = match fault_at 3 w with
                      | Some _ => bucket w
                      | None => foldr Supabase.remove_key (bucket w)
                                  (Spec.stored_paths (papers w))
                      end
                 /\ trace w4
                    = trace w3 ++ match Spec.stored_paths (papers w) with
                                  | [] => []
                                  | paths => [StorageRemove "papers" paths]
                                  end)
  end.
  { destruct (Spec.stored_paths (papers w)) as [|k0 ks] eqn:Hpaths.
    - exists w3. split.
      + now destruct (0 <? length _)%nat.
      + rewrite app_nil_r, Hb3.
        split; [exact Hf3|]. do 4 (split; [assumption|]).
        split; [|reflexivity]. now destruct (fault_at 3 w).
    - assert (Hlen : (0 <? length (List.map Papers.file_url (papers w)))%nat
                     = true).
      { destruct (papers w); [discriminate Hpaths|reflexivity]. }
      rewrite Hlen. cbn [length Nat.ltb Nat.leb].
      unfold bind. rewrite storage_remove_run, next_fault_fault_at, Hf3.
      cbn [Nat.add].
      destruct (fault_at 3 w) as [e|] eqn:H3.
      + eexists. split; [reflexivity|].
        split; [intros k; autorewrite with faults; now rewrite Hf3|].
        now repeat split.
      + eexists. split; [reflexivity|].
        split; [intros k; autorewrite with faults; now rewrite Hf3|].
        cbn [papers session_user admins activity_logs bucket trace set_bucket
             issue set_faults set_trace].
        rewrite Hb3. now repeat split. }
  destruct Hrm as (w4 & Hrun & Hf4 & Hp4 & Hs4 & Ha4 & Hl4 & Hb4 & Ht4).
  rewrite Hrun.
  assert (Hh4 : healthy w4).
  { intros k. rewrite Hf4.
    destruct (Spec.stored_paths (papers w)) eqn:Hpaths; [|apply F; lia].
    destruct (Hf (3 + k)%nat) as [H|[_ H]]; [exact H|contradiction]. }
  clear Hrun.
  rewrite papers_delete_neq_id_run, (healthy_next w4 Hh4).
  rewrite logAdminActivity_run. cbn [fst snd ret].
  (* the world after the records have been deleted *)
  match goal with
  | |- context [set_papers ?v (issue ?c w4)] =>
      set (w5 := set_papers v (issue c w4))
  end.
  assert (Hh5 : healthy w5)
    by (apply (healthy_issue (DbDelete "papers") w4); exact Hh4).
  assert (Hp5 : papers w5 = []).
  { unfold w5. cbn [papers set_papers]. rewrite Hp4. apply filter_none.
    intros p Hin. apply String.eqb_neq. now apply Hnil. }
  assert (Hs5 : session_user w5 = session_user w4) by reflexivity.
  assert (Ha5 : admins w5 = admins w4) by reflexivity.
  assert (Hl5 : activity_logs w5 = activity_logs w4) by reflexivity.
  assert (Hb5 : bucket w5 = bucket w4) by reflexivity.
  assert (Ht5 : trace w5 = trace w4 ++ [DbDelete "papers"]) by reflexivity.
  clearbody w5.
  assert (Hans5 : admin_answer w5 = Some a).
  { rewrite <- Hans. apply admin_answer_ext.
    - now rewrite Hs5, Hs4.
    - now rewrite Ha5, Ha4.
    - rewrite healthy_fault_at by exact Hh5. symmetry. apply F. discriminate.
    - rewrite healthy_fault_at by exact Hh5. symmetry. apply F. discriminate. }
  unfold after_logAdminActivity.
  rewrite Hans5, (healthy_fault_at w5 2 Hh5).
  assert (Hafter : after_isAdmin w5
                   = issue (DbSelect "admins") (issue AuthGetUser w5)).
  { unfold after_isAdmin.
    now rewrite (healthy_fault_at w5 0 Hh5), Hs5, Hs4, Hsess. }
  rewrite Hafter. rewrite List.length_map.
  cbn [papers bucket activity_logs trace set_activity_logs issue set_faults
       set_trace].
  rewrite Hp5, Hl5, Hl4, Hb5, Hb4, Ht5, Ht4, Ht3.
  split; [reflexivity|]. split; [reflexivity|]. split; [reflexivity|].
  split; [|split].
  - intros H3. rewrite H3. split; [reflexivity|].
    intros p key Hin Hurl Hne. apply lookup_bulk_removed.
    now apply stored_path_In with (p := p).
  - intros H3. destruct (fault_at 3 w); [reflexivity|congruence].
  - now rewrite <- !app_assoc.
Qed.

(* ================================================================== *)
(** ** The workflow on the small deployment *)
(* ================================================================== *)

Lemma healthy_no_faults (w : World) : faults w = [] -> healthy w.
Proof. intros H k. unfold fault_at. rewrite H. now destruct k. Qed.

Lemma demo_paper_ids : NoDup (List.map Papers.id [Demo.p1; Demo.p2]).
Proof.
  cbn. apply NoDup_cons. split; [|apply NoDup_singleton].
  rewrite list_elem_of_In. intros [H|[]]. discriminate H.
Qed.

Lemma demo_admin_auth_ids :
  NoDup (List.map Admins.auth_id
           (List.filter Admins.is_active [Demo.root; Demo.retired])).
Proof. cbn. apply NoDup_singleton. Qed.

(** The admin signs in: [isAdmin] hands back the admin row; a deactivated
    admin and a visitor who is not signed in get null. *)
Lemma isAdmin_iff_active_admin_row_witness :
  fst (SupabaseClient.isAdmin (Demo.as_user (Some Demo.root_login) []))
  = Returned (Some Demo.root)
  /\ fst (SupabaseClient.isAdmin (Demo.as_user (Some Demo.retired_login) []))
     = Returned None
  /\ fst (SupabaseClient.isAdmin (Demo.as_user None [])) = Returned None.
Proof.
  split; [|split].
  - destruct (isAdmin_iff_active_admin_row
                (Demo.as_user (Some Demo.root_login) []))
      as (_ & _ & _ & _ & H).
    apply (H Demo.root_login eq_refl eq_refl eq_refl demo_admin_auth_ids).
    split; [now left | split; reflexivity].
  - destruct (isAdmin_iff_active_admin_row
                (Demo.as_user (Some Demo.retired_login) []))
      as (_ & _ & _ & H & _).
    apply (H Demo.retired_login eq_refl).
    intros a [<-|[<-|[]]] Hid; [discriminate Hid | reflexivity].
  - destruct (isAdmin_iff_active_admin_row (Demo.as_user None []))
      as (_ & _ & H & _).
    exact (H eq_refl).
Defined.

(** The three rewritten categories, and one that goes through. *)
Lemma normalizedCategory_rule_witness :
  Registration.normalizedCategory (Some "listener_onsite") = Some "listener"
  /\ Registration.normalizedCategory (Some "scholar") = Some "student"
  /\ Registration.normalizedCategory (Some "expert") = Some "scientist"
  /\ Registration.normalizedCategory (Some "student") = Some "student".
Proof.
  split; [|split; [|split]].
  - destruct (normalizedCategory_rule "listener_onsite") as (H & _).
    apply H. now exists "onsite".
  - destruct (normalizedCategory_rule "scholar") as (_ & H & _).
    now apply H.
  - destruct (normalizedCategory_rule "expert") as (_ & _ & H & _).
    now apply H.
  - destruct (normalizedCategory_rule "student") as (_ & _ & _ & H).
    apply H.
    + intros (rest & Hr). vm_compute in Hr. discriminate Hr.
    + discriminate.
    + discriminate.
Defined.

(** Alice tries to delete her accepted paper. *)
Lemma deletePaper_not_pending_witness :
  In Demo.p2 (papers (Demo.as_user (Some Demo.alice_login) []))
  /\ Papers.status Demo.p2 <> "pending"
  /\ fst (PaperSubmission.deletePaper "p-2"
            (Demo.as_user (Some Demo.alice_login) []))
     = Returned
         (Failure "Cannot delete paper that is under review or has been reviewed")
  /\ papers (snd (PaperSubmission.deletePaper "p-2"
                    (Demo.as_user (Some Demo.alice_login) [])))
     = [Demo.p1; Demo.p2]
  /\ bucket (snd (PaperSubmission.deletePaper "p-2"
                    (Demo.as_user (Some Demo.alice_login) [])))
     = bucket (Demo.as_user (Some Demo.alice_login) []).
Proof.
  assert (Hin : In Demo.p2 (papers (Demo.as_user (Some Demo.alice_login) [])))
    by (right; now left).
  assert (Hst : Papers.status Demo.p2 <> "pending") by discriminate.
  split; [exact Hin|]. split; [exact Hst|].
  destruct (deletePaper_not_pending
              (Demo.as_user (Some Demo.alice_login) []) Demo.p2 Hin Hst)
    as (_ & Hp & Hb & _ & Hmsg).
  split; [exact (Hmsg demo_paper_ids eq_refl)|].
  split; [exact Hp | exact Hb].
Defined.

(** Alice deletes her pending paper while storage is down: the record
    goes, the file stays. *)
Lemma deletePaper_pending_witness :
  Papers.status Demo.p1 = "pending"
  /\ fault_at 1 (Demo.as_user (Some Demo.alice_login)
                   [None; Some "storage down"]) = Some "storage down"
  /\ fst (PaperSubmission.deletePaper "p-1"
            (Demo.as_user (Some Demo.alice_login) [None; Some "storage down"]))
     = Returned (Success tt)
  /\ ~ In Demo.p1
         (papers (snd (PaperSubmission.deletePaper "p-1"
                         (Demo.as_user (Some Demo.alice_login)
                            [None; Some "storage down"]))))
  /\ bucket (snd (PaperSubmission.deletePaper "p-1"
                    (Demo.as_user (Some Demo.alice_login)
                       [None; Some "storage down"])))
     = bucket (Demo.as_user (Some Demo.alice_login) []).
Proof.
  split; [reflexivity|]. split; [reflexivity|].
  destruct (deletePaper_pending
              (Demo.as_user (Some Demo.alice_login) [None; Some "storage down"])
              Demo.p1 (or_introl eq_refl) demo_paper_ids eq_refl eq_refl eq_refl)
    as (Hres & Hps & _ & Hb & _).
  split; [exact Hres|]. split.
  - intros H. apply Hps in H. now destruct H as [_ H].
  - apply Hb. discriminate.
Defined.

(** The admin deletes the accepted paper while storage is down. *)
Lemma adminDeletePaper_storage_best_effort_witness :
  Papers.status Demo.p2 = "accepted"
  /\ fault_at 3 (Demo.as_user (Some Demo.root_login)
                   [None; None; None; Some "storage down"]) = Some "storage down"
  /\ fst (Admin.adminDeletePaper "p-2"
            (Demo.as_user (Some Demo.root_login)
               [None; None; None; Some "storage down"]))
     = Returned (Success tt)
  /\ ~ In Demo.p2
         (papers (snd (Admin.adminDeletePaper "p-2"
                         (Demo.as_user (Some Demo.root_login)
                            [None; None; None; Some "storage down"]))))
  /\ bucket (snd (Admin.adminDeletePaper "p-2"
                    (Demo.as_user (Some Demo.root_login)
                       [None; None; None; Some "storage down"])))
     = bucket (Demo.as_user (Some Demo.root_login) []).
Proof.
  split; [reflexivity|]. split; [reflexivity|].
  destruct (adminDeletePaper_storage_best_effort
              (Demo.as_user (Some Demo.root_login)
                 [None; None; None; Some "storage down"])
              Demo.root Demo.p2 eq_refl (or_intror (or_introl eq_refl))
              demo_paper_ids eq_refl eq_refl)
    as (Hres & Hps & _ & Hb & _).
  split; [exact Hres|]. split.
  - intros H. apply Hps in H. now destruct H as [_ H].
  - apply Hb. discriminate.
Defined.

(** Alice uploads [paper.pdf], 2 MiB, titled X. *)
Lemma uploadPaper_success_witness :
  healthy (Demo.as_user (Some Demo.alice_login) [])
  /\ Spec.resolved_profile [Demo.alice] [Demo.root; Demo.retired] "a-1"
     = Some (Auth.UserProfile Demo.alice)
  /\ Spec.extension "paper.pdf" = Some "pdf"
  /\ exists paperData,
       fst (PaperSubmission.uploadPaper Demo.runtime Demo.pdf Demo.titled_X
              (Demo.as_user (Some Demo.alice_login) []))
       = Returned (Success paperData)
       /\ Papers.status paperData = "pending"
       /\ Papers.file_size_bytes paperData = 2097152%Z
       /\ Papers.file_url paperData = Some "u-1/1767225600000_paper.pdf".
Proof.
  assert (Hh : healthy (Demo.as_user (Some Demo.alice_login) []))
    by now apply healthy_no_faults.
  split; [exact Hh|]. split; [reflexivity|]. split; [reflexivity|].
  destruct (uploadPaper_success Demo.runtime Demo.pdf Demo.titled_X
              (Demo.as_user (Some Demo.alice_login) []) Demo.alice_login
              (Auth.UserProfile Demo.alice) Hh eq_refl eq_refl eq_refl)
    as (paperData & Hres & Hst & Hsz & Hurl & _).
  - exists "pdf". split; [reflexivity | now left].
  - vm_compute. discriminate.
  - vm_compute. reflexivity.
  - exists paperData. split; [exact Hres|]. split; [exact Hst|].
    split; [exact Hsz | exact Hurl].
Defined.

(** Alice submits an installer: the file-type error, and nothing written. *)
Lemma uploadPaper_invalid_type_witness :
  Spec.extension "setup.exe" = Some "exe"
  /\ fst (PaperSubmission.uploadPaper Demo.runtime Demo.exe Demo.titled_X
            (Demo.as_user (Some Demo.alice_login) []))
     = Returned
         (Failure "Invalid file type. Please upload PDF, DOC, or DOCX files only.")
  /\ papers (snd (PaperSubmission.uploadPaper Demo.runtime Demo.exe Demo.titled_X
                    (Demo.as_user (Some Demo.alice_login) [])))
     = [Demo.p1; Demo.p2]
  /\ bucket (snd (PaperSubmission.uploadPaper Demo.runtime Demo.exe Demo.titled_X
                    (Demo.as_user (Some Demo.alice_login) [])))
     = bucket (Demo.as_user (Some Demo.alice_login) []).
Proof.
  split; [reflexivity|].
  destruct (uploadPaper_invalid_type Demo.runtime Demo.exe Demo.titled_X
              (Demo.as_user (Some Demo.alice_login) []))
    as (_ & Hp & Hb & _ & Hmsg).
  - intros (e & He & Hin). vm_compute in He. injection He as <-.
    destruct Hin as [H|[H|[H|[]]]]; discriminate H.
  - split; [|split; [exact Hp | exact Hb]].
    apply (Hmsg Demo.alice_login (Auth.UserProfile Demo.alice)).
    + now apply healthy_no_faults.
    + reflexivity.
    + reflexivity.
Defined.

(** Alice submits an 11 MiB pdf: the size error, nothing written. *)
Lemma uploadPaper_oversize_no_write_witness :
  (10 * Spec.MiB < size Demo.big_pdf)%Z
  /\ fst (PaperSubmission.uploadPaper Demo.runtime Demo.big_pdf Demo.titled_X
            (Demo.as_user (Some Demo.alice_login) []))
     = Returned (Failure "File size exceeds 10 MB limit")
  /\ papers (snd (PaperSubmission.uploadPaper Demo.runtime Demo.big_pdf
                    Demo.titled_X (Demo.as_user (Some Demo.alice_login) [])))
     = [Demo.p1; Demo.p2]
  /\ bucket (snd (PaperSubmission.uploadPaper Demo.runtime Demo.big_pdf
                    Demo.titled_X (Demo.as_user (Some Demo.alice_login) [])))
     = bucket (Demo.as_user (Some Demo.alice_login) []).
Proof.
  assert (Hbig : (10 * Spec.MiB < size Demo.big_pdf)%Z) by reflexivity.
  split; [exact Hbig|].
  destruct (uploadPaper_oversize_no_write Demo.runtime Demo.big_pdf
              Demo.titled_X (Demo.as_user (Some Demo.alice_login) []) Hbig)
    as (_ & Hp & Hb & _ & Hmsg).
  split; [|split; [exact Hp | exact Hb]].
  apply (Hmsg Demo.alice_login (Auth.UserProfile Demo.alice)).
  - now apply healthy_no_faults.
  - reflexivity.
  - reflexivity.
  - reflexivity.
Defined.

(** The same upload on the wire: by the time the size check rejects the
    file, the identity lookup and the profile lookup have gone out. *)
Lemma uploadPaper_oversize_after_lookups :
  Utils.isValidFileSize (size Demo.big_pdf) 10 = false
  /\ fst (PaperSubmission.uploadPaper Demo.runtime Demo.big_pdf Demo.titled_X
            (Demo.as_user (Some Demo.alice_login) []))
     = Returned (Failure "File size exceeds 10 MB limit")
  /\ trace (snd (PaperSubmission.uploadPaper Demo.runtime Demo.big_pdf
                   Demo.titled_X (Demo.as_user (Some Demo.alice_login) [])))
     = [AuthGetUser; AuthGetUser; DbSelect "users"].
Proof. repeat split; vm_compute; reflexivity. Qed.

(** The admin accepts the pending paper with the comment [Great work]. *)
Lemma updatePaperStatus_review_witness :
  exists reviewed n l,
    fst (Admin.updatePaperStatus Demo.runtime "p-1" "accepted" "Great work"
           (Demo.as_user (Some Demo.root_login) []))
    = Returned (Success {| Papers.paper := reviewed;
                           Papers.users := Some Demo.alice_owner |})
    /\ Papers.status reviewed = "accepted"
    /\ Papers.reviewer_name reviewed = Some "Root"
    /\ Papers.review_date reviewed = Some "T1767225600000"
    /\ Papers.review_comments reviewed = Some "Great work"
    /\ email_notifications
         (snd (Admin.updatePaperStatus Demo.runtime "p-1" "accepted"
                 "Great work" (Demo.as_user (Some Demo.root_login) [])))
       = [n]
    /\ EmailNotifications.type n = "paper_status_update"
    /\ activity_logs
         (snd (Admin.updatePaperStatus Demo.runtime "p-1" "accepted"
                 "Great work" (Demo.as_user (Some Demo.root_login) [])))
       = [l]
    /\ ActivityLogs.action_type l = "paper_status_update".
Proof.
  destruct (updatePaperStatus_review Demo.runtime "accepted" "Great work"
              (Demo.as_user (Some Demo.root_login) [])) as (_ & H).
  destruct (H Demo.root Demo.p1)
    as (reviewed & l & Hres & _ & _ & Hst & _ & Hname & Hdate & Hcom
        & Hls & Hact & _ & _ & Hmail & _).
  - now apply healthy_no_faults.
  - reflexivity.
  - now left.
  - exact demo_paper_ids.
  - destruct (Hmail Demo.alice_owner eq_refl eq_refl) as (n & Hes & Hty & _).
    exists reviewed, n, l. split; [exact Hres|]. split; [exact Hst|].
    split; [exact Hname|]. split; [exact Hdate|]. split; [exact Hcom|].
    split; [exact Hes|]. split; [exact Hty|]. split; [exact Hls | exact Hact].
Defined.

(** The admin has uploaded a paper of their own (their profile is an
    [admins] row, so no [users] row is joined to it) and accepts it: the
    review succeeds and is audited, and no notification is logged. *)
Lemma updatePaperStatus_without_owner_email :
  Papers.user_id Demo.root_paper = Admins.id Demo.root
  /\ fst (PaperSubmission.uploadPaper Demo.runtime Demo.pdf Demo.titled_X
            (Demo.as_user (Some Demo.root_login) []))
     = Returned (Success Demo.root_paper)
  /\ papers (snd (PaperSubmission.uploadPaper Demo.runtime Demo.pdf
                    Demo.titled_X (Demo.as_user (Some Demo.root_login) [])))
     = papers (Demo.after_root_upload [])
  /\ Supabase.owner_of (users (Demo.after_root_upload [])) Demo.root_paper = None
  /\ fst (Admin.updatePaperStatus Demo.runtime "paper-2" "accepted" "Great work"
            (Demo.after_root_upload []))
     = Returned
         (Success
            {| Papers.paper :=
                 Papers.with_review
                   (review_of Demo.runtime Demo.root "accepted" "Great work"
                      1767225600000)
                   Demo.root_paper;
               Papers.users := None |})
  /\ email_notifications
       (snd (Admin.updatePaperStatus Demo.runtime "paper-2" "accepted"
               "Great work" (Demo.after_root_upload [])))
     = []
  /\ List.map ActivityLogs.action_type
       (activity_logs
          (snd (Admin.updatePaperStatus Demo.runtime "paper-2" "accepted"
                  "Great work" (Demo.after_root_upload []))))
     = ["paper_status_update"].
Proof. repeat split; vm_compute; reflexivity. Qed.

Lemma five_papers_no_nil_id :
  forall p, In p Demo.five_papers -> Papers.id p <> Admin.nil_uuid.
Proof.
  intros p [<-|[<-|[<-|[<-|[<-|[]]]]]]; discriminate.
Qed.

(** The admin deletes all of five papers while storage is up, and while
    it is down. *)
Lemma deleteAllPapers_bulk_witness :
  fst (Admin.deleteAllPapers Demo.runtime (Demo.five [])) = Returned (Success 5%nat)
  /\ papers (snd (Admin.deleteAllPapers Demo.runtime (Demo.five []))) = []
  /\ bucket (snd (Admin.deleteAllPapers Demo.runtime (Demo.five [])))
     !! "u-1/13_c.pdf" = None
  /\ (exists l,
        activity_logs (snd (Admin.deleteAllPapers Demo.runtime (Demo.five [])))
        = [l]
        /\ ActivityLogs.action_type l = "delete_all_papers"
        /\ ActivityLogs.new_data l = [("count", Js.Num 5)])
  /\ fst (Admin.deleteAllPapers Demo.runtime
            (Demo.five [None; None; None; Some "storage down"]))
     = Returned (Success 5%nat)
  /\ papers (snd (Admin.deleteAllPapers Demo.runtime
                    (Demo.five [None; None; None; Some "storage down"])))
     = [].
Proof.
  destruct (deleteAllPapers_bulk Demo.runtime (Demo.five []) Demo.root
              eq_refl five_papers_no_nil_id)
    as (Hres & Hps & Hls & Hb & _).
  { intros k. left. now apply healthy_no_faults. }
  destruct (deleteAllPapers_bulk Demo.runtime
              (Demo.five [None; None; None; Some "storage down"]) Demo.root
              eq_refl five_papers_no_nil_id)
    as (Hres' & Hps' & _).
  { intros [|[|[|[|k]]]]; try (left; reflexivity).
    - right. split; [reflexivity|]. vm_compute. discriminate.
    - left. unfold fault_at. cbn. now destruct k. }
  split; [exact Hres|]. split; [exact Hps|]. split.
  - destruct (Hb eq_refl) as (_ & Hgone).
    apply (Hgone (Demo.paper "q-3" "accepted" "u-1/13_c.pdf")).
    + right. right. now left.
    + reflexivity.
    + discriminate.
  - split; [|split; [exact Hres' | exact Hps']].
    eexists. split; [exact Hls|]. split; reflexivity.
Defined.

(* ================================================================== *)
(** ** Regular expressions: the matcher decides the language *)
(* ================================================================== *)

Lemma lang_eps_inv (l : list ascii) : Regex.lang Regex.Eps l -> l = [].
Proof. intros H. now inversion H. Qed.

Lemma lang_cls_inv (p : ascii -> bool) (l : list ascii) :
  Regex.lang (Regex.Cls p) l -> exists c, l = [c] /\ p c = true.
Proof. intros H. inversion H; subst. eauto. Qed.

Lemma lang_cat_inv (r1 r2 : Regex.re) (l : list ascii) :
  Regex.lang (Regex.Cat r1 r2) l ->
  exists l1 l2, l = l1 ++ l2 /\ Regex.lang r1 l1 /\ Regex.lang r2 l2.
Proof. intros H. inversion H; subst. eauto. Qed.

Lemma lang_alt_inv (r1 r2 : Regex.re) (l : list ascii) :
  Regex.lang (Regex.Alt r1 r2) l -> Regex.lang r1 l \/ Regex.lang r2 l.
Proof. intros H. inversion H; subst; auto. Qed.

Lemma nullable_lang (r : Regex.re) :
  Regex.nullable r = true <-> Regex.lang r [].
Proof.
  induction r as [| |p|r1 IH1 r2 IH2|r1 IH1 r2 IH2|r IH]; cbn.
  - split; [discriminate | intros H; inversion H].
  - split; [constructor | reflexivity].
  - split; [discriminate | intros H; inversion H].
  - rewrite andb_true_iff, IH1, IH2. split.
    + intros [H1 H2]. exact (Regex.lang_cat _ _ [] [] H1 H2).
    + intros H. apply lang_cat_inv in H as (l1 & l2 & E & H1 & H2).
      symmetry in E. apply app_eq_nil in E as [-> ->]. now split.
  - rewrite orb_true_iff, IH1, IH2. split.
    + intros [H|H]; [now apply Regex.lang_alt_l | now apply Regex.lang_alt_r].
    + intros H. now apply lang_alt_inv in H.
  - split; [constructor | reflexivity].
Qed.

(** A non-empty string of [r*] starts with a non-empty string of [r]. *)
Lemma lang_star_cons_inv (r : Regex.re) (l : list ascii) :
  Regex.lang (Regex.Star r) l ->
  forall c l', l = c :: l' ->
    exists l1 l2, l' = l1 ++ l2 /\ Regex.lang r (c :: l1)
                  /\ Regex.lang (Regex.Star r) l2.
Proof.
  remember (Regex.Star r) as sr eqn:E. intros H.
  induction H as [| | | | | |r' l1 l2 H1 _ H2 IH2]; try discriminate.
  injection E as ->. intros c l' Hl.
  destruct l1 as [|c1 l1].
  - cbn in Hl. exact (IH2 eq_refl c l' Hl).
  - cbn in Hl. injection Hl as -> <-. eauto.
Qed.

Lemma deriv_lang (r : Regex.re) :
  forall c l, Regex.lang (Regex.deriv c r) l <-> Regex.lang r (c :: l).
Proof.
  induction r as [| |p|r1 IH1 r2 IH2|r1 IH1 r2 IH2|r IH]; intros c l; cbn.
  - split; intros H; inversion H.
  - split; intros H; inversion H.
  - destruct (p c) eqn:Hp; split; intros H.
    + apply lang_eps_inv in H. subst l. now constructor.
    + apply lang_cls_inv in H as (c' & E & _). injection E as <- ->.
      constructor.
    + inversion H.
    + apply lang_cls_inv in H as (c' & E & Hc). injection E as <- ->.
      congruence.
  - assert (Hcat : Regex.lang (Regex.Cat (Regex.deriv c r1) r2) l
                   <-> exists l1 l2, l = l1 ++ l2 /\ Regex.lang r1 (c :: l1)
                                     /\ Regex.lang r2 l2).
    { split.
      - intros H. apply lang_cat_inv in H as (l1 & l2 & -> & H1 & H2).
        exists l1, l2. rewrite <- IH1. auto.
      - intros (l1 & l2 & -> & H1 & H2). constructor; [now apply IH1 | exact H2]. }
    assert (Hfull : Regex.lang (Regex.Cat r1 r2) (c :: l)
                    <-> (exists l1 l2, l = l1 ++ l2 /\ Regex.lang r1 (c :: l1)
                                       /\ Regex.lang r2 l2)
                        \/ (Regex.lang r1 [] /\ Regex.lang r2 (c :: l))).
    { split.
      - intros H. apply lang_cat_inv in H as (l1 & l2 & E & H1 & H2).
        destruct l1 as [|c1 l1]; cbn in E.
        + right. subst l2. auto.
        + injection E as <- ->. left. eauto.
      - intros [(l1 & l2 & -> & H1 & H2)|[H1 H2]].
        + exact (Regex.lang_cat _ _ (c :: l1) l2 H1 H2).
        + exact (Regex.lang_cat _ _ [] (c :: l) H1 H2). }
    rewrite Hfull. destruct (Regex.nullable r1) eqn:Hn.
    + apply nullable_lang in Hn. split.
      * intros H. apply lang_alt_inv in H as [H|H].
        -- left. now apply Hcat.
        -- right. split; [exact Hn | now apply IH2].
      * intros [H|[_ H]].
        -- apply Regex.lang_alt_l. now apply Hcat.
        -- apply Regex.lang_alt_r. now apply IH2.
    + rewrite Hcat. split; [auto|]. intros [H|[H _]]; [exact H|].
      apply nullable_lang in H. congruence.
  - split; intros H; apply lang_alt_inv in H as [H|H].
    + apply Regex.lang_alt_l. now apply IH1.
    + apply Regex.lang_alt_r. now apply IH2.
    + apply Regex.lang_alt_l. now apply IH1.
    + apply Regex.lang_alt_r. now apply IH2.
  - split.
    + intros H. apply lang_cat_inv in H as (l1 & l2 & -> & H1 & H2).
      apply IH in H1.
      exact (Regex.lang_star_cons r (c :: l1) l2 H1 H2).
    + intros H.
      destruct (lang_star_cons_inv r (c :: l) H c l eq_refl)
        as (l1 & l2 & -> & H1 & H2).
      constructor; [now apply IH | exact H2].
Qed.

Lemma matches_lang (r : Regex.re) (l : list ascii) :
  Regex.matches r l = true <-> Regex.lang r l.
Proof.
  revert r. induction l as [|c l IH]; intros r; cbn.
  - apply nullable_lang.
  - rewrite IH. apply deriv_lang.
Qed.

(** [c+] for a character class: the non-empty strings of its characters. *)
Lemma lang_star_cls (p : ascii -> bool) (l : list ascii) :
  Regex.lang (Regex.Star (Regex.Cls p)) l <-> forallb p l = true.
Proof.
  split.
  - remember (Regex.Star (Regex.Cls p)) as sr eqn:E. intros H.
    induction H as [| | | | | |r' l1 l2 H1 _ H2 IH2]; try discriminate.
    + reflexivity.
    + injection E as ->. apply lang_cls_inv in H1 as (c & -> & Hc). cbn.
      now rewrite Hc, IH2.
  - induction l as [|c l IH]; cbn; intros H.
    + constructor.
    + apply andb_true_iff in H as [Hc Hl].
      exact (Regex.lang_star_cons _ [c] l (Regex.lang_cls p c Hc) (IH Hl)).
Qed.

Lemma lang_plus_cls (p : ascii -> bool) (l : list ascii) :
  Regex.lang (Regex.Plus (Regex.Cls p)) l <-> l <> [] /\ forallb p l = true.
Proof.
  unfold Regex.Plus. split.
  - intros H. apply lang_cat_inv in H as (l1 & l2 & -> & H1 & H2).
    apply lang_cls_inv in H1 as (c & -> & Hc). apply lang_star_cls in H2. cbn.
    split; [discriminate|]. now rewrite Hc, H2.
  - intros [Hne H]. destruct l as [|c l]; [contradiction|].
    cbn in H. apply andb_true_iff in H as [Hc Hl].
    exact (Regex.lang_cat _ _ [c] l (Regex.lang_cls p c Hc)
             (proj2 (lang_star_cls p l) Hl)).
Qed.

Lemma lang_rep_cls (p : ascii -> bool) (n : nat) (l : list ascii) :
  Regex.lang (Regex.Rep n (Regex.Cls p)) l
  <-> length l = n /\ forallb p l = true.
Proof.
  revert l. induction n as [|n IH]; intros l; cbn.
  - split.
    + intros H. apply lang_eps_inv in H. subst l. now split.
    + intros [H _]. destruct l; [constructor | discriminate].
  - split.
    + intros H. apply lang_cat_inv in H as (l1 & l2 & -> & H1 & H2).
      apply lang_cls_inv in H1 as (c & -> & Hc). apply IH in H2 as [<- H2].
      cbn. split; [reflexivity|]. now rewrite Hc, H2.
    + intros [Hlen H]. destruct l as [|c l]; [discriminate|].
      cbn in H. apply andb_true_iff in H as [Hc Hl].
      injection Hlen as Hlen.
      exact (Regex.lang_cat _ _ [c] l (Regex.lang_cls p c Hc)
               (proj2 (IH l) (conj Hlen Hl))).
Qed.

Lemma lang_repupto_cls (p : ascii -> bool) (n : nat) (l : list ascii) :
  Regex.lang (Regex.RepUpTo n (Regex.Cls p)) l
  <-> (length l <= n)%nat /\ forallb p l = true.
Proof.
  revert l. induction n as [|n IH]; intros l; cbn.
  - split.
    + intros H. apply lang_eps_inv in H. subst l. now split.
    + intros [H _]. destruct l; [constructor | cbn in H; lia].
  - unfold Regex.Opt. split.
    + intros H. apply lang_alt_inv in H as [H|H].
      * apply lang_cat_inv in H as (l1 & l2 & -> & H1 & H2).
        apply lang_cls_inv in H1 as (c & -> & Hc).
        apply IH in H2 as [Hlen H2]. cbn.
        split; [lia|]. now rewrite Hc, H2.
      * apply lang_eps_inv in H. subst l. split; [cbn; lia | reflexivity].
    + intros [Hlen H]. destruct l as [|c l].
      * apply Regex.lang_alt_r. constructor.
      * cbn in H, Hlen. apply andb_true_iff in H as [Hc Hl].
        apply Regex.lang_alt_l.
        refine (Regex.lang_cat _ _ [c] l (Regex.lang_cls p c Hc) _).
        apply IH. split; [lia | exact Hl].
Qed.

Lemma lang_range_cls (p : ascii -> bool) (lo hi : nat) (l : list ascii) :
  (lo <= hi)%nat ->
  Regex.lang (Regex.Range lo hi (Regex.Cls p)) l
  <-> (lo <= length l <= hi)%nat /\ forallb p l = true.
Proof.
  intros Hle. unfold Regex.Range. split.
  - intros H. apply lang_cat_inv in H as (l1 & l2 & -> & H1 & H2).
    apply lang_rep_cls in H1 as [H1 P1].
    apply lang_repupto_cls in H2 as [H2 P2].
    rewrite length_app, forallb_app, P1, P2. split; [lia | reflexivity].
  - intros [Hlen H].
    rewrite <- (firstn_skipn lo l) in H |- *.
    rewrite forallb_app in H. apply andb_true_iff in H as [P1 P2].
    constructor.
    + apply lang_rep_cls. split; [|exact P1]. rewrite length_firstn. lia.
    + apply lang_repupto_cls. split; [|exact P2]. rewrite length_skipn. lia.
Qed.

(* ================================================================== *)
(** ** Form validation *)
(* ================================================================== *)

Lemma email_char_no_at (l : list ascii) :
  forallb Utils.email_char l = true ->
  count_occ ascii_dec l "@"%char = 0%nat
  /\ forallb (fun c => negb (Regex.is_space c)) l = true.
Proof.
  induction l as [|c l IH]; [now split|].
  cbn [forallb]. intros H. apply andb_true_iff in H as [Hc Hl].
  destruct (IH Hl) as [IH1 IH2].
  unfold Utils.email_char in Hc. apply negb_true_iff, orb_false_iff in Hc
    as [Hs Ha].
  split.
  - rewrite count_occ_cons_neq; [exact IH1|].
    intros ->. now rewrite Ascii.eqb_refl in Ha.
  - cbn. now rewrite Hs, IH2.
Qed.

(** X1. [isValidEmail] accepts exactly the strings of the shape
    [local@domain.tld] whose three parts are non-empty and hold neither
    white space nor an at sign (dots are allowed in each part). An accepted
    address therefore has exactly one at sign and no white space. *)
Theorem isValidEmail_shape (email : string) :
  (Utils.isValidEmail email = true
   <-> exists local domain tld,
         String.list_ascii_of_string email
         = local ++ "@"%char :: domain ++ "."%char :: tld
         /\ local <> [] /\ domain <> [] /\ tld <> []
         /\ forallb Utils.email_char (local ++ domain ++ tld) = true)
  /\ (Utils.isValidEmail email = true ->
      count_occ ascii_dec (String.list_ascii_of_string email) "@"%char = 1%nat
      /\ forallb (fun c => negb (Regex.is_space c))
           (String.list_ascii_of_string email) = true).
Proof.
  assert (Hshape :
    Utils.isValidEmail email = true
    <-> exists local domain tld,
          String.list_ascii_of_string email
          = local ++ "@"%char :: domain ++ "."%char :: tld
          /\ local <> [] /\ domain <> [] /\ tld <> []
          /\ forallb Utils.email_char (local ++ domain ++ tld) = true).
  { unfold Utils.isValidEmail, Regex.test, Utils.email_regex.
    rewrite matches_lang. split.
    - intros H.
      apply lang_cat_inv in H as (local & l1 & E1 & Hlocal & H).
      apply lang_cat_inv in H as (at_ & l2 & E2 & Hat & H).
      apply lang_cat_inv in H as (domain & l3 & E3 & Hdomain & H).
      apply lang_cat_inv in H as (dot & tld & E4 & Hdot & Htld).
      apply lang_cls_inv in Hat as (c & -> & Hc).
      apply Ascii.eqb_eq in Hc. subst c.
      apply lang_cls_inv in Hdot as (c & -> & Hc).
      apply Ascii.eqb_eq in Hc. subst c.
      apply lang_plus_cls in Hlocal as [N1 P1].
      apply lang_plus_cls in Hdomain as [N2 P2].
      apply lang_plus_cls in Htld as [N3 P3].
      exists local, domain, tld. subst l3 l2 l1. rewrite E1.
      split; [reflexivity|]. repeat (split; [assumption|]).
      now rewrite !forallb_app, P1, P2, P3.
    - intros (local & domain & tld & E & N1 & N2 & N3 & P). rewrite E.
      rewrite !forallb_app in P.
      apply andb_true_iff in P as [P1 P]. apply andb_true_iff in P as [P2 P3].
      constructor; [now apply lang_plus_cls|].
      apply (Regex.lang_cat _ _ ["@"%char]); [now constructor|].
      constructor; [now apply lang_plus_cls|].
      apply (Regex.lang_cat _ _ ["."%char]); [now constructor|].
      now apply lang_plus_cls. }
  split; [exact Hshape|].
  intros H. apply Hshape in H as (local & domain & tld & E & _ & _ & _ & P).
  rewrite E. rewrite !forallb_app in P.
  apply andb_true_iff in P as [P1 P]. apply andb_true_iff in P as [P2 P3].
  apply email_char_no_at in P1 as [C1 S1].
  apply email_char_no_at in P2 as [C2 S2].
  apply email_char_no_at in P3 as [C3 S3].
  split.
  - rewrite count_occ_app, C1. cbn [count_occ].
    destruct (ascii_dec "@" "@"); [|contradiction].
    rewrite count_occ_app, C2. cbn [count_occ].
    destruct (ascii_dec "." "@"); [discriminate|]. now rewrite C3.
  - rewrite forallb_app, S1. cbn [forallb]. rewrite forallb_app, S2.
    cbn [forallb]. now rewrite S3.
Qed.

(** X2. [isValidPhone] accepts exactly an optional plus sign followed by
    ten to fifteen characters, each a digit, white space, a hyphen or a
    parenthesis. It asks for no digit: ten to fifteen characters of white
    space alone are accepted. *)
Theorem isValidPhone_shape (phone : string) :
  (Utils.isValidPhone phone = true
   <-> exists body,
         (String.list_ascii_of_string phone = body
          \/ String.list_ascii_of_string phone = "+"%char :: body)
         /\ (10 <= length body <= 15)%nat
         /\ forallb Utils.phone_char body = true)
  /\ ((10 <= length (String.list_ascii_of_string phone) <= 15)%nat ->
      forallb Regex.is_space (String.list_ascii_of_string phone) = true ->
      Utils.isValidPhone phone = true).
Proof.
  assert (Hshape :
    Utils.isValidPhone phone = true
    <-> exists body,
          (String.list_ascii_of_string phone = body
           \/ String.list_ascii_of_string phone = "+"%char :: body)
          /\ (10 <= length body <= 15)%nat
          /\ forallb Utils.phone_char body = true).
  { unfold Utils.isValidPhone, Regex.test, Utils.phone_regex.
    rewrite matches_lang. split.
    - intros H. apply lang_cat_inv in H as (sign & body & E & Hsign & Hbody).
      apply lang_range_cls in Hbody as [Hlen P]; [|lia].
      exists body. split; [|now split].
      apply lang_alt_inv in Hsign as [Hs|Hs].
      + apply lang_cls_inv in Hs as (c & -> & Hc).
        apply Ascii.eqb_eq in Hc. subst c. now right.
      + apply lang_eps_inv in Hs. subst sign. now left.
    - intros (body & [E|E] & Hlen & P); rewrite E.
      + apply (Regex.lang_cat _ _ []).
        * apply Regex.lang_alt_r. constructor.
        * apply lang_range_cls; [lia | now split].
      + apply (Regex.lang_cat _ _ ["+"%char]).
        * apply Regex.lang_alt_l. now constructor.
        * apply lang_range_cls; [lia | now split]. }
  split; [exact Hshape|].
  intros Hlen Hsp. apply Hshape.
  exists (String.list_ascii_of_string phone). split; [now left|].
  split; [exact Hlen|].
  apply forallb_forall. intros c Hc.
  rewrite forallb_forall in Hsp. unfold Utils.phone_char.
  now rewrite (Hsp c Hc), orb_true_r.
Qed.

(** The address [a@b.c] passes, [a@b] and [a b@c.d] do not; ten blanks pass
    as a phone number. *)
Lemma form_validators_examples :
  Utils.isValidEmail "a@b.c" = true
  /\ Utils.isValidEmail "a@b" = false
  /\ Utils.isValidEmail "a b@c.d" = false
  /\ Utils.isValidEmail "a@b@c.d" = false
  /\ Utils.isValidPhone "+91 98765-43210" = true
  /\ Utils.isValidPhone "          " = true
  /\ Utils.isValidPhone "12345" = false.
Proof. repeat split; reflexivity. Qed.

(* ================================================================== *)
(** ** String helpers *)
(* ================================================================== *)

Lemma append_cons (c : ascii) (s t : string) :
  String c s +:+ t = String c (s +:+ t).
Proof. reflexivity. Qed.

Lemma append_nil_l (t : string) : "" +:+ t = t.
Proof. reflexivity. Qed.

Lemma length_append (s t : string) :
  String.length (s +:+ t) = (String.length s + String.length t)%nat.
Proof.
  induction s as [|c s IH]; [reflexivity|].
  rewrite append_cons. cbn. now rewrite IH.
Qed.

Lemma take_drop_chars (n : nat) (s : string) :
  Js.take_chars n s +:+ Js.drop_chars n s = s.
Proof.
  revert s. induction n as [|n IH]; intros s; [reflexivity|].
  destruct s as [|c s]; [reflexivity|].
  cbn [Js.take_chars Js.drop_chars]. rewrite append_cons. now rewrite IH.
Qed.

Lemma length_take_chars (n : nat) (s : string) :
  String.length (Js.take_chars n s) = Nat.min n (String.length s).
Proof.
  revert s. induction n as [|n IH]; intros s; [reflexivity|].
  destruct s as [|c s]; [reflexivity|]. cbn. now rewrite IH.
Qed.

Lemma lower_upper_char (c : ascii) :
  Js.lower_char (Js.upper_char c) = Js.lower_char c.
Proof. destruct c as [[] [] [] [] [] [] [] []]; reflexivity. Qed.

Lemma lower_lower_char (c : ascii) :
  Js.lower_char (Js.lower_char c) = Js.lower_char c.
Proof. destruct c as [[] [] [] [] [] [] [] []]; reflexivity. Qed.

Lemma upper_upper_char (c : ascii) :
  Js.upper_char (Js.upper_char c) = Js.upper_char c.
Proof. destruct c as [[] [] [] [] [] [] [] []]; reflexivity. Qed.

Lemma upper_char_dot (c : ascii) :
  Ascii.eqb (Js.upper_char c) "." = Ascii.eqb c ".".
Proof. destruct c as [[] [] [] [] [] [] [] []]; reflexivity. Qed.

Lemma map_chars_compose (f g : ascii -> ascii) (s : string) :
  Js.map_chars f (Js.map_chars g s) = Js.map_chars (fun c => f (g c)) s.
Proof. induction s as [|c s IH]; [reflexivity|]. cbn. now rewrite IH. Qed.

Lemma map_chars_ext (f g : ascii -> ascii) (s : string) :
  (forall c, f c = g c) -> Js.map_chars f s = Js.map_chars g s.
Proof.
  intros H. induction s as [|c s IH]; [reflexivity|]. cbn. now rewrite H, IH.
Qed.

Lemma toLowerCase_idempotent (s : string) :
  Js.toLowerCase (Js.toLowerCase s) = Js.toLowerCase s.
Proof.
  unfold Js.toLowerCase. rewrite map_chars_compose.
  apply map_chars_ext, lower_lower_char.
Qed.

Lemma toLowerCase_toUpperCase (s : string) :
  Js.toLowerCase (Js.toUpperCase s) = Js.toLowerCase s.
Proof.
  unfold Js.toLowerCase, Js.toUpperCase. rewrite map_chars_compose.
  apply map_chars_ext, lower_upper_char.
Qed.

(** Mapping characters in a way that keeps dots dots and nothing else a
    dot does not move the last dot. *)
Lemma lastIndexOf_from_map_chars (f : ascii -> ascii) (s : string) :
  (forall c, Ascii.eqb (f c) "." = Ascii.eqb c ".") ->
  forall i acc,
    Js.lastIndexOf_from "." (Js.map_chars f s) i acc
    = Js.lastIndexOf_from "." s i acc.
Proof.
  intros Hf. induction s as [|c s IH]; intros i acc; [reflexivity|].
  cbn. now rewrite Hf, IH.
Qed.

(** X3. For a file name in the ASCII range the file-type check ignores
    the letter case of the name, whatever the allow-list. A name is
    accepted only through an allow-list entry that is written in lower
    case and that the lower-cased name ends with: an entry holding an
    upper-case letter accepts no file. *)
Theorem isValidFileType_case (fileName : string) (allowedTypes : list string) :
  ascii_only fileName = true ->
  Utils.isValidFileType (Js.toUpperCase fileName) allowedTypes
  = Utils.isValidFileType fileName allowedTypes
  /\ Utils.isValidFileType (Js.toLowerCase fileName) allowedTypes
     = Utils.isValidFileType fileName allowedTypes
  /\ (Utils.isValidFileType fileName allowedTypes = true ->
      exists t front,
        In t allowedTypes /\ Js.toLowerCase t = t
        /\ Js.toLowerCase fileName = front +:+ t).
Proof.
  (* the hypothesis delimits the names on which the case mappings of this
     development are JavaScript's *)
  intros _.
  unfold Utils.isValidFileType, Js.lastIndexOf. split; [|split].
  - rewrite toLowerCase_toUpperCase. unfold Js.toUpperCase.
    now rewrite (lastIndexOf_from_map_chars _ _ upper_char_dot).
  - rewrite toLowerCase_idempotent. unfold Js.toLowerCase at 2.
    now rewrite (lastIndexOf_from_map_chars _ _ lower_char_dot).
  - intros H. apply includes_In in H. unfold Js.substring in H.
    set (n := Z.to_nat (Z.max 0 (Js.lastIndexOf_from "." fileName 0 (-1)))) in *.
    exists (Js.drop_chars n (Js.toLowerCase fileName)),
           (Js.take_chars n (Js.toLowerCase fileName)).
    split; [exact H|]. split.
    + rewrite drop_chars_toLowerCase. apply toLowerCase_idempotent.
    + symmetry. apply take_drop_chars.
Qed.

(** [Paper.PDF] is accepted as [paper.pdf] is. *)
Lemma isValidFileType_case_witness :
  Utils.isValidFileType "PAPER.PDF" PaperSubmission.allowedTypes = true
  /\ Utils.isValidFileType "paper.pdf" PaperSubmission.allowedTypes = true
  /\ Utils.isValidFileType "paper.pdf" [".PDF"] = false.
Proof.
  destruct (isValidFileType_case "paper.pdf" PaperSubmission.allowedTypes
              eq_refl) as (Hup & _ & _).
  split; [exact (eq_trans Hup eq_refl)|]. split; reflexivity.
Defined.

(** X4. [capitalize] changes at most the first character. For a string
    that starts in the ASCII range the length and everything after the
    first character are kept, capitalizing twice is capitalizing once, a
    string that does not start with a lower-case letter comes back as it
    is, and a lower-case first letter is replaced by its upper-case
    form. *)
Theorem capitalize_first_only (c : ascii) (rest : string) :
  (N_of_ascii c < 128)%N ->
  String.length (Utils.capitalize (String c rest)) = S (String.length rest)
  /\ Js.slice1 (Utils.capitalize (String c rest)) = rest
  /\ Utils.capitalize (Utils.capitalize (String c rest))
     = Utils.capitalize (String c rest)
  /\ (Js.is_lower c = false -> Utils.capitalize (String c rest) = String c rest)
  /\ (Js.is_lower c = true ->
      exists C, Utils.capitalize (String c rest) = String C rest
                /\ Js.is_upper C = true /\ Js.lower_char C = c).
Proof.
  (* the hypothesis delimits the characters on which [toUpperCase] of this
     development is JavaScript's *)
  intros _.
  assert (E : Utils.capitalize (String c rest)
              = String (Js.upper_char c) rest) by reflexivity.
  rewrite E. split; [reflexivity|]. split; [reflexivity|]. split; [|split].
  - assert (E' : Utils.capitalize (String (Js.upper_char c) rest)
                 = String (Js.upper_char (Js.upper_char c)) rest)
      by reflexivity.
    now rewrite E', upper_upper_char.
  - intros Hc. unfold Js.upper_char. now rewrite Hc.
  - intros Hc. exists (Js.upper_char c). split; [reflexivity|].
    revert Hc. destruct c as [[] [] [] [] [] [] [] []]; vm_compute;
      (discriminate || (intros _; split; reflexivity)).
Qed.

(** [under review] keeps all but its first letter; [Accepted] stays. *)
Lemma capitalize_first_only_witness :
  Js.slice1 (Utils.capitalize "under review") = "nder review"
  /\ Utils.capitalize "Accepted" = "Accepted".
Proof.
  destruct (capitalize_first_only "u" "nder review")
    as (_ & Hrest & _); [vm_compute; reflexivity|].
  destruct (capitalize_first_only "A" "ccepted")
    as (_ & _ & _ & Hup & _); [vm_compute; reflexivity|].
  split; [exact Hrest | exact (Hup eq_refl)].
Defined.

(** X5. [truncateText]: a text of at most [maxLength] characters comes back
    whole; a longer one is cut to its first [maxLength] characters and
    three dots are added, so the result has [maxLength + 3] characters
    (which is more than the text had when it was less than three over the
    limit); with a negative limit a non-empty text becomes the three dots
    alone. *)
Theorem truncateText_length (text : string) (maxLength : Z) :
  ((Js.length text <= maxLength)%Z -> Utils.truncateText text maxLength = text)
  /\ ((0 <= maxLength < Js.length text)%Z ->
      Utils.truncateText text maxLength
      = Js.take_chars (Z.to_nat maxLength) text +:+ "..."
      /\ Js.length (Utils.truncateText text maxLength) = (maxLength + 3)%Z)
  /\ ((maxLength < 0)%Z -> text <> "" ->
      Utils.truncateText text maxLength = "...").
Proof.
  unfold Utils.truncateText, Js.truthy.
  destruct (String.eqb_spec text "") as [->|Hne]; cbn [negb].
  - split; [reflexivity|]. split; [|intros _ H; contradiction].
    unfold Js.length. cbn. lia.
  - split; [|split].
    + intros H. apply Z.leb_le in H. now rewrite H.
    + intros [H0 H]. apply Z.leb_gt in H as Hb. rewrite Hb.
      assert (Hcut : Js.substring_range text 0 maxLength
                     = Js.take_chars (Z.to_nat maxLength) text).
      { unfold Js.substring_range, Js.length in *.
        replace (Z.to_nat (Z.min (Z.max 0 0) (Z.of_nat (String.length text))))
          with 0%nat by lia.
        replace (Z.to_nat (Z.min (Z.max 0 maxLength)
                             (Z.of_nat (String.length text))))
          with (Z.to_nat maxLength) by lia.
        rewrite Nat.max_0_l, Nat.min_0_l, Nat.sub_0_r. reflexivity. }
      rewrite Hcut. split; [reflexivity|].
      unfold Js.length in *. rewrite length_append, length_take_chars.
      cbn [String.length]. lia.
    + intros Hneg _. assert (Hb : (Js.length text <=? maxLength)%Z = false).
      { apply Z.leb_gt. unfold Js.length. lia. }
      rewrite Hb. unfold Js.substring_range, Js.length.
      replace (Z.to_nat (Z.min (Z.max 0 0) (Z.of_nat (String.length text))))
        with 0%nat by lia.
      replace (Z.to_nat (Z.min (Z.max 0 maxLength)
                           (Z.of_nat (String.length text))))
        with 0%nat by lia.
      reflexivity.
Qed.

(** A 51-character text cut at 50 comes back with 53 characters. *)
Lemma truncateText_length_witness :
  (0 <= 50 < Js.length "The quick brown fox jumps over the lazy dog and on.")%Z
  /\ Js.length "The quick brown fox jumps over the lazy dog and on." = 51%Z
  /\ Js.length
       (Utils.truncateText
          "The quick brown fox jumps over the lazy dog and on." 50) = 53%Z.
Proof.
  assert (H : (0 <= 50
               < Js.length "The quick brown fox jumps over the lazy dog and on.")%Z)
    by (vm_compute; split; [discriminate | reflexivity]).
  split; [exact H|]. split; [reflexivity|].
  destruct (truncateText_length
              "The quick brown fox jumps over the lazy dog and on." 50)
    as (_ & Hcut & _).
  exact (proj2 (Hcut H)).
Defined.

(* ================================================================== *)
(** ** Registration: category and form checks *)
(* ================================================================== *)

Lemma startsWith_listener_underscore (s : string) :
  Js.startsWith s "listener_" = true -> Js.startsWith s "listener" = true.
Proof.
  intros H. apply startsWith_append in H as (rest & ->).
  apply startsWith_append. exists ("_" +:+ rest). reflexivity.
Qed.

(** X6. Normalizing a category twice is normalizing it once, and what is
    sent to the record store is never [scholar], never [expert], and never
    a value that starts with [listener_]. *)
Theorem normalizedCategory_idempotent (rawCategory : option string) :
  Registration.normalizedCategory (Registration.normalizedCategory rawCategory)
  = Registration.normalizedCategory rawCategory
  /\ Registration.normalizedCategory rawCategory <> Some "scholar"
  /\ Registration.normalizedCategory rawCategory <> Some "expert"
  /\ (forall rest,
        Registration.normalizedCategory rawCategory
        <> Some ("listener_" +:+ rest)).
Proof.
  destruct rawCategory as [raw|]; cbn [Registration.normalizedCategory].
  2:{ split; [reflexivity|]. split; [discriminate|].
      split; [discriminate|]. discriminate. }
  destruct (Js.startsWith raw "listener_") eqn:Hl.
  { split; [reflexivity|]. split; [discriminate|]. split; [discriminate|].
    intros rest H. vm_compute in H. discriminate H. }
  destruct (String.eqb_spec raw "scholar") as [->|Hs].
  { split; [reflexivity|]. split; [discriminate|]. split; [discriminate|].
    intros rest H. vm_compute in H. discriminate H. }
  destruct (String.eqb_spec raw "expert") as [->|He].
  { split; [reflexivity|]. split; [discriminate|]. split; [discriminate|].
    intros rest H. vm_compute in H. discriminate H. }
  split; [|split; [|split]].
  - cbn [Registration.normalizedCategory]. rewrite Hl.
    apply String.eqb_neq in Hs, He. now rewrite Hs, He.
  - congruence.
  - congruence.
  - intros rest [= ->].
    assert (Js.startsWith ("listener_" +:+ rest) "listener_" = true)
      by (apply startsWith_append; now exists rest).
    congruence.
Qed.

(** X7. After a successful registration the browser stays on the success
    dialog exactly when the checked category starts with [listener]
    (without the underscore the normalization asks for). Every category
    stored as [listener] stays; so does a value such as [listeners], which
    is stored unchanged. With no category checked the browser goes to the
    submission page. *)
Theorem redirect_after_success_listeners (category : option string) :
  (Registration.redirect_after_success category = None
   <-> exists rest, category = Some ("listener" +:+ rest))
  /\ (Registration.redirect_after_success category = None
      \/ Registration.redirect_after_success category
         = Some "papersubmission.html")
  /\ (Registration.normalizedCategory category = Some "listener" ->
      Registration.redirect_after_success category = None)
  /\ (forall rest,
        category = Some ("listener" +:+ rest) ->
        Js.startsWith rest "_" = false -> rest <> "" ->
        Registration.redirect_after_success category = None
        /\ Registration.normalizedCategory category = category).
Proof.
  assert (Hstay : forall c, Js.startsWith c "listener" = true ->
            Registration.redirect_after_success (Some c) = None).
  { intros c Hc. cbn [Registration.redirect_after_success]. rewrite Hc.
    destruct c as [|a c]; [discriminate Hc | reflexivity]. }
  split; [|split; [|split]].
  - split.
    + destruct category as [c|]; [|discriminate].
      cbn [Registration.redirect_after_success].
      destruct (Js.truthy c && Js.startsWith c "listener") eqn:E;
        [|discriminate].
      intros _. apply andb_true_iff in E as [_ E].
      apply startsWith_append in E as (rest & ->). now exists rest.
    + intros (rest & ->). apply Hstay, startsWith_append. now exists rest.
  - destruct category as [c|]; cbn [Registration.redirect_after_success];
      [|now right].
    destruct (Js.truthy c && Js.startsWith c "listener"); [now left | now right].
  - destruct category as [c|]; [|discriminate].
    cbn [Registration.normalizedCategory].
    destruct (Js.startsWith c "listener_") eqn:Hl.
    + intros _. now apply Hstay, startsWith_listener_underscore.
    + destruct (String.eqb c "scholar"); [discriminate|].
      destruct (String.eqb c "expert"); [discriminate|].
      intros [= ->]. now apply Hstay.
  - intros rest -> Hu Hne. split.
    + apply Hstay, startsWith_append. now exists rest.
    + cbn [Registration.normalizedCategory].
      destruct rest as [|a rest]; [contradiction|].
      assert (E : Js.startsWith ("listener" +:+ String a rest) "listener_"
                  = false).
      { destruct (Js.startsWith ("listener" +:+ String a rest) "listener_")
          eqn:E; [|reflexivity].
        apply startsWith_append in E as (r & E). vm_compute in E.
        injection E as -> _.
        assert (Js.startsWith (String "_" rest) "_" = true)
          by (apply startsWith_append; now exists rest).
        congruence. }
      rewrite E.
      assert (E1 : String.eqb ("listener" +:+ String a rest) "scholar" = false)
        by reflexivity.
      assert (E2 : String.eqb ("listener" +:+ String a rest) "expert" = false)
        by reflexivity.
      now rewrite E1, E2.
Qed.

(** X8. [validateRegistrationForm] accepts a form exactly when the name is
    filled in, the email and the phone pass their validators, a category is
    chosen, and, only if an account is asked for, the password has at
    least six characters. Without [createAccount] the password is not
    looked at. *)
Theorem validateRegistrationForm_accepts (formData : Registration.FormData) :
  (Registration.validateRegistrationForm formData = None
   <-> (exists n, Registration.fullName formData = Some n /\ n <> "")
       /\ (exists e, Registration.email formData = Some e
                     /\ Utils.isValidEmail e = true)
       /\ (exists p, Registration.phone formData = Some p
                     /\ Utils.isValidPhone p = true)
       /\ (exists c, Registration.category formData = Some c /\ c <> "")
       /\ (Registration.createAccount formData = true ->
           exists pw, Registration.password formData = Some pw
                      /\ (6 <= String.length pw)%nat))
  /\ (Registration.createAccount formData = false ->
      forall pw,
        Registration.validateRegistrationForm
          {| Registration.fullName := Registration.fullName formData;
             Registration.email := Registration.email formData;
             Registration.phone := Registration.phone formData;
             Registration.category := Registration.category formData;
             Registration.createAccount := false;
             Registration.password := pw |}
        = Registration.validateRegistrationForm formData).
Proof.
  assert (Ht : forall o : option string,
            Js.truthy_opt o = true <-> exists s, o = Some s /\ s <> "").
  { intros [s|]; cbn.
    - unfold Js.truthy. destruct (String.eqb_spec s "") as [->|Hne]; cbn.
      + split; [discriminate | intros (s & [= <-] & H); contradiction].
      + split; [intros _; now exists s | reflexivity].
    - split; [discriminate | intros (s & [=] & _)]. }
  destruct formData as [fn em ph cat ca pw].
  unfold Registration.validateRegistrationForm.
  cbn [Registration.fullName Registration.email Registration.phone
       Registration.category Registration.createAccount Registration.password].
  split.
  - split.
    + destruct (Js.truthy_opt fn) eqn:Hfn; [|discriminate].
      destruct (Js.truthy_opt em) eqn:Hem; [|discriminate].
      destruct (Js.truthy_opt ph) eqn:Hph; [|discriminate].
      cbn [negb orb].
      apply Ht in Hem as (e & -> & He). apply Ht in Hph as (p & -> & Hp).
      change (default "" (Some e)) with e. change (default "" (Some p)) with p.
      destruct (Utils.isValidEmail e) eqn:Ve; [|cbn [negb]; discriminate].
      destruct (Utils.isValidPhone p) eqn:Vp; [|cbn [negb]; discriminate].
      cbn [negb].
      destruct (Js.truthy_opt cat) eqn:Hcat; [|cbn [negb]; discriminate].
      cbn [negb]. intros H.
      split; [now apply Ht|]. split; [now exists e|]. split; [now exists p|].
      split; [now apply Ht|].
      intros ->. cbn [andb] in H.
      destruct (Js.truthy_opt pw) eqn:Hpw; [|discriminate].
      cbn [negb] in H. apply Ht in Hpw as (s & -> & _).
      change (default "" (Some s)) with s in H.
      destruct (Js.length s <? 6)%Z eqn:Hlen; [discriminate|].
      exists s. split; [reflexivity|].
      apply Z.ltb_ge in Hlen. unfold Js.length in Hlen. lia.
    + intros (Hfn & (e & -> & Ve) & (p & -> & Vp) & Hcat & Hpw).
      apply Ht in Hfn, Hcat. rewrite Hfn, Hcat.
      change (default "" (Some e)) with e. change (default "" (Some p)) with p.
      assert (He : Js.truthy_opt (Some e) = true).
      { apply Ht. exists e. split; [reflexivity|]. intros ->.
        vm_compute in Ve. discriminate Ve. }
      assert (Hp : Js.truthy_opt (Some p) = true).
      { apply Ht. exists p. split; [reflexivity|]. intros ->.
        vm_compute in Vp. discriminate Vp. }
      rewrite He, Hp, Ve, Vp. cbn [negb orb].
      destruct ca; [|reflexivity].
      destruct (Hpw eq_refl) as (s & -> & Hlen). cbn [andb].
      change (default "" (Some s)) with s.
      assert (Hs : Js.truthy_opt (Some s) = true).
      { apply Ht. exists s. split; [reflexivity|]. intros ->.
        cbn in Hlen. lia. }
      rewrite Hs. cbn [negb].
      assert (Hl : (Js.length s <? 6)%Z = false)
        by (apply Z.ltb_ge; unfold Js.length; lia).
      now rewrite Hl.
  - intros -> pw'. reflexivity.
Qed.

(* ================================================================== *)
(** ** Deleting a submission: what is not checked, and what can go wrong *)
(* ================================================================== *)

Lemma filter_id_absent (ps : list Papers.row) (paperId : string) :
  ~ In paperId (List.map Papers.id ps) ->
  List.filter (fun p => String.eqb (Papers.id p) paperId) ps = [].
Proof.
  induction ps as [|a ps IH]; intros Hk; [reflexivity|].
  cbn in *. destruct (String.eqb_spec (Papers.id a) paperId) as [E|E].
  - exfalso. apply Hk. now left.
  - apply IH. intros H. apply Hk. now right.
Qed.

Lemma fault_at_same_faults (k : nat) (w w' : World) :
  faults w' = faults w -> fault_at k w' = fault_at k w.
Proof. unfold fault_at. now intros ->. Qed.

(** X9. [deletePaper] never asks who is signed in: its answer and what it
    does to the [papers] table and to the bucket depend on the table, the
    bucket and the service's answers only. Run for another session, or for
    none, it does the same. *)
Theorem deletePaper_ignores_identity (paperId : string) (w w' : World) :
  papers w' = papers w -> bucket w' = bucket w -> faults w' = faults w ->
  fst (PaperSubmission.deletePaper paperId w')
  = fst (PaperSubmission.deletePaper paperId w)
  /\ papers (snd (PaperSubmission.deletePaper paperId w'))
     = papers (snd (PaperSubmission.deletePaper paperId w))
  /\ bucket (snd (PaperSubmission.deletePaper paperId w'))
     = bucket (snd (PaperSubmission.deletePaper paperId w)).
Proof.
  intros Hp Hb Hf. rewrite !deletePaper_run.
  rewrite !(fault_at_same_faults _ w w' Hf), Hp, Hb.
  destruct (fault_at 0 w); [cbn; now rewrite Hp, Hb|].
  cbv zeta.
  destruct (single _) as [paper|e]; [|cbn; now rewrite Hp, Hb].
  destruct (negb _); [cbn; now rewrite Hp, Hb|].
  destruct (fault_at 1 w), (fault_at 2 w); cbn; rewrite ?Hp, ?Hb;
    repeat split; reflexivity.
Qed.

(** X10. Deleting under an id that no row of [papers] carries fails and
    changes nothing: one read is made, no file is removed and no row is
    deleted. When the read is answered, the message is the one of a
    single-row request that found no row. *)
Theorem deletePaper_unknown_id (paperId : string) (w : World) :
  ~ In paperId (List.map Papers.id (papers w)) ->
  (exists e, fst (PaperSubmission.deletePaper paperId w) = Returned (Failure e))
  /\ papers (snd (PaperSubmission.deletePaper paperId w)) = papers w
  /\ bucket (snd (PaperSubmission.deletePaper paperId w)) = bucket w
  /\ trace (snd (PaperSubmission.deletePaper paperId w))
     = trace w ++ [DbSelect "papers"]
  /\ (fault_at 0 w = None ->
      fst (PaperSubmission.deletePaper paperId w)
      = Returned
          (Failure "JSON object requested, multiple (or no) rows returned")).
Proof.
  intros Hid. rewrite deletePaper_run, (filter_id_absent _ _ Hid).
  cbn [single]. cbv zeta.
  destruct (fault_at 0 w) as [e|]; cbn.
  - split; [now exists e|]. repeat split; try reflexivity. discriminate.
  - split; [eexists; reflexivity|]. repeat split; reflexivity.
Qed.

(** X11. The two steps of a deletion are not atomic. When the file has
    been removed and the record store then refuses the delete,
    [deletePaper] reports that failure, and the submission is still listed
    although its file is gone from the bucket. *)
Theorem deletePaper_record_delete_fails (w : World) (p : Papers.row)
    (e : string) :
  In p (papers w) -> NoDup (List.map Papers.id (papers w)) ->
  Papers.status p = "pending" ->
  fault_at 0 w = None -> fault_at 1 w = None -> fault_at 2 w = Some e ->
  fst (PaperSubmission.deletePaper (Papers.id p) w) = Returned (Failure e)
  /\ papers (snd (PaperSubmission.deletePaper (Papers.id p) w)) = papers w
  /\ bucket (snd (PaperSubmission.deletePaper (Papers.id p) w))
     = Supabase.remove_key (Papers.file_url p) (bucket w)
  /\ (forall key, Papers.file_url p = Some key ->
        bucket (snd (PaperSubmission.deletePaper (Papers.id p) w)) !! key = None).
Proof.
  intros Hin Hnd Hst H0 H1 H2.
  rewrite deletePaper_run, H0, H1, H2.
  rewrite (filter_key_unique Papers.id _ p Hnd Hin). cbn [single].
  rewrite Hst. cbn.
  split; [reflexivity|]. split; [reflexivity|]. split; [reflexivity|].
  intros key ->. cbn. apply lookup_delete_eq.
Qed.

(** Signed in as Alice or not signed in at all, deleting [p-1] does the
    same. *)
Lemma deletePaper_ignores_identity_witness :
  fst (PaperSubmission.deletePaper "p-1" (Demo.as_user None []))
  = fst (PaperSubmission.deletePaper "p-1"
           (Demo.as_user (Some Demo.alice_login) []))
  /\ papers (snd (PaperSubmission.deletePaper "p-1" (Demo.as_user None [])))
     = papers (snd (PaperSubmission.deletePaper "p-1"
                      (Demo.as_user (Some Demo.alice_login) [])))
  /\ bucket (snd (PaperSubmission.deletePaper "p-1" (Demo.as_user None [])))
     = bucket (snd (PaperSubmission.deletePaper "p-1"
                      (Demo.as_user (Some Demo.alice_login) []))).
Proof.
  apply (deletePaper_ignores_identity "p-1"
           (Demo.as_user (Some Demo.alice_login) []) (Demo.as_user None []));
    reflexivity.
Defined.

(** No submission is called [p-9]. *)
Lemma deletePaper_unknown_id_witness :
  fst (PaperSubmission.deletePaper "p-9"
         (Demo.as_user (Some Demo.alice_login) []))
  = Returned (Failure "JSON object requested, multiple (or no) rows returned")
  /\ papers (snd (PaperSubmission.deletePaper "p-9"
                    (Demo.as_user (Some Demo.alice_login) [])))
     = [Demo.p1; Demo.p2].
Proof.
  assert (Hid : ~ In "p-9" (List.map Papers.id
                  (papers (Demo.as_user (Some Demo.alice_login) [])))).
  { intros [H|[H|[]]]; discriminate H. }
  destruct (deletePaper_unknown_id "p-9"
              (Demo.as_user (Some Demo.alice_login) []) Hid)
    as (_ & Hp & _ & _ & Hmsg).
  split; [exact (Hmsg eq_refl) | exact Hp].
Defined.

(** The record store refuses the delete of [p-1] after its file was
    removed. *)
Lemma deletePaper_record_delete_fails_witness :
  fst (PaperSubmission.deletePaper "p-1"
         (Demo.as_user (Some Demo.alice_login) [None; None; Some "timeout"]))
  = Returned (Failure "timeout")
  /\ papers (snd (PaperSubmission.deletePaper "p-1"
                    (Demo.as_user (Some Demo.alice_login)
                       [None; None; Some "timeout"])))
     = [Demo.p1; Demo.p2]
  /\ bucket (snd (PaperSubmission.deletePaper "p-1"
                    (Demo.as_user (Some Demo.alice_login)
                       [None; None; Some "timeout"])))
     !! "u-1/1_paper.pdf" = None.
Proof.
  assert (Hin : In Demo.p1
                  (papers (Demo.as_user (Some Demo.alice_login)
                             [None; None; Some "timeout"]))) by now left.
  destruct (deletePaper_record_delete_fails
              (Demo.as_user (Some Demo.alice_login) [None; None; Some "timeout"])
              Demo.p1 "timeout" Hin demo_paper_ids eq_refl eq_refl eq_refl
              eq_refl)
    as (Hr & Hp & _ & Hk).
  split; [exact Hr|]. split; [exact Hp | exact (Hk _ eq_refl)].
Defined.

(* ================================================================== *)
(** ** Submitting: the order of the checks, and partial failure *)
(* ================================================================== *)

(** [uploadPaper] in closed form; [w1] is the world after the identity and
    profile lookups. *)
Lemma uploadPaper_run (rt : Runtime) (file : File)
    (metadata : PaperSubmission.Metadata) (w : World) :
  PaperSubmission.uploadPaper rt file metadata w
  = match fault_at 0 w, session_user w with
    | None, Some _ =>
        let w1 := after_getCurrentUserRecord (issue AuthGetUser w) in
        match record_answer (issue AuthGetUser w) with
        | None =>
            (Returned
               (Failure "User record not found. Please complete registration first."),
             w1)
        | Some prof =>
            if negb (Utils.isValidFileType (name file)
                       PaperSubmission.allowedTypes) then
              (Returned
                 (Failure "Invalid file type. Please upload PDF, DOC, or DOCX files only."),
               w1)
            else if negb (Utils.isValidFileSize (size file) 10) then
              (Returned (Failure "File size exceeds 10 MB limit"), w1)
            else
              let key := storage_path (Auth.id prof) (clock w) (name file) in
              let w2 := issue (StorageUpload "papers" key) w1 in
              match fault_at 0 w1 with
              | Some e => (Returned (Failure e), w2)
              | None =>
                  match bucket w !! key with
                  | Some _ =>
                      (Returned (Failure "The resource already exists"), w2)
                  | None =>
                      let w3 := set_bucket (<[key := file]> (bucket w)) w2 in
                      match fault_at 1 w1 with
                      | Some e =>
                          (Returned (Failure e), issue (DbInsert "papers") w3)
                      | None =>
                          let p :=
                            Papers.of_draft
                              (gen_random_uuid rt (issued_ids w))
                              (db_now rt (clock w))
                              (upload_draft prof file metadata key) in
                          (Returned (Success p),
                           set_issued_ids (S (issued_ids w))
                             (set_papers (papers w ++ [p])
                                (issue (DbInsert "papers") w3)))
                      end
                  end
              end
        end
    | _, _ =>
        (Returned (Failure "Please log in to submit a paper"),
         issue AuthGetUser w)
    end.
Proof.
  destruct (after_getCurrentUserRecord_frame (issue AuthGetUser w))
    as (Hp & Hb & Hc & Hi & _).
  cbn [papers bucket clock issued_ids issue set_faults set_trace]
    in Hp, Hb, Hc, Hi.
  unfold PaperSubmission.uploadPaper, try_catch, bind.
  rewrite getCurrentUser_run, <- next_fault_fault_at.
  destruct (next_fault w) as [e|]; [reflexivity|].
  destruct (session_user w) as [u|]; [|reflexivity].
  rewrite getCurrentUserRecord_run.
  destruct (record_answer (issue AuthGetUser w)) as [prof|]; [|reflexivity].
  destruct (Utils.isValidFileType (name file) PaperSubmission.allowedTypes);
    [|reflexivity].
  destruct (Utils.isValidFileSize (size file) 10); [|reflexivity].
  cbn [negb gets]. cbv zeta.
  set (w1 := after_getCurrentUserRecord (issue AuthGetUser w)) in *.
  clearbody w1.
  rewrite Hc. fold (storage_path (Auth.id prof) (clock w) (name file)).
  set (key := storage_path (Auth.id prof) (clock w) (name file)).
  rewrite storage_upload_run, <- next_fault_fault_at, Hb.
  destruct (next_fault w1) as [e|] eqn:H0; [reflexivity|].
  destruct (bucket w !! key) as [f|]; [reflexivity|].
  rewrite papers_insert_single_run.
  rewrite next_fault_fault_at. autorewrite with faults.
  fold (upload_draft prof file metadata key).
  destruct (fault_at 1 w1) as [e|]; [reflexivity|].
  cbn [papers clock issued_ids set_bucket issue set_faults set_trace].
  rewrite Hp, Hc, Hi. reflexivity.
Qed.

(** The lookups of a signed-in author whose [users] row is found. *)
Lemma author_lookups (w : World) (u : AuthUser) (row : Users.row) :
  session_user w = Some u ->
  List.filter (fun x => String.eqb (Users.auth_id x) (uid u)) (users w) = [row] ->
  fault_at 1 w = None -> fault_at 2 w = None ->
  record_answer (issue AuthGetUser w) = Some (Auth.UserProfile row)
  /\ after_getCurrentUserRecord (issue AuthGetUser w)
     = issue (DbSelect "users") (issue AuthGetUser (issue AuthGetUser w)).
Proof.
  intros Hs Hrow H1 H2.
  unfold record_answer, after_getCurrentUserRecord, user_row_answer.
  autorewrite with faults. rewrite H1, H2.
  cbn [session_user users issue set_faults set_trace]. rewrite Hs, Hrow.
  split; reflexivity.
Qed.

(** X12. [uploadPaper] settles who is submitting before it looks at the
    file. Whatever the file is, a caller who is not signed in is told to
    log in after a single identity lookup, and a signed-in caller without a
    row in [users] or [admins] is told to complete registration; in both
    cases nothing is stored. *)
Theorem uploadPaper_identity_first (rt : Runtime) (file : File)
    (metadata : PaperSubmission.Metadata) (w : World) :
  (session_user w = None \/ fault_at 0 w <> None ->
   PaperSubmission.uploadPaper rt file metadata w
   = (Returned (Failure "Please log in to submit a paper"),
      issue AuthGetUser w))
  /\ (forall u,
        healthy w -> session_user w = Some u ->
        Spec.resolved_profile (users w) (admins w) (uid u) = None ->
        fst (PaperSubmission.uploadPaper rt file metadata w)
        = Returned
            (Failure "User record not found. Please complete registration first.")
        /\ papers (snd (PaperSubmission.uploadPaper rt file metadata w))
           = papers w
        /\ bucket (snd (PaperSubmission.uploadPaper rt file metadata w))
           = bucket w).
Proof.
  rewrite uploadPaper_run. split.
  - intros [Hs|Hf].
    + rewrite Hs. now destruct (fault_at 0 w).
    + destruct (fault_at 0 w); [reflexivity | contradiction].
  - intros u Hh Hs Hprof.
    destruct (after_getCurrentUserRecord_frame (issue AuthGetUser w))
      as (Hp & Hb & _).
    cbn [papers bucket issue set_faults set_trace] in Hp, Hb.
    rewrite (healthy_fault_at w 0 Hh), Hs.
    rewrite (record_answer_resolved (issue AuthGetUser w) u);
      [|exact Hs|autorewrite with faults; now apply healthy_fault_at..].
    cbn [users admins issue set_faults set_trace]. rewrite Hprof.
    cbv zeta. cbn [fst snd]. now rewrite Hp, Hb.
Qed.

(** X13. Storing the file and inserting the record are two requests. When
    an author's file has been stored and the record store then refuses the
    insert, [uploadPaper] reports that failure, no row is added to
    [papers], and the file stays in the bucket under its path. *)
Theorem uploadPaper_insert_fails_keeps_file (rt : Runtime) (file : File)
    (metadata : PaperSubmission.Metadata) (w : World) (u : AuthUser)
    (row : Users.row) (e : string) :
  session_user w = Some u ->
  List.filter (fun x => String.eqb (Users.auth_id x) (uid u)) (users w) = [row] ->
  Utils.isValidFileType (name file) PaperSubmission.allowedTypes = true ->
  Utils.isValidFileSize (size file) 10 = true ->
  bucket w !! storage_path (Users.id row) (clock w) (name file) = None ->
  fault_at 0 w = None -> fault_at 1 w = None -> fault_at 2 w = None ->
  fault_at 3 w = None -> fault_at 4 w = Some e ->
  fst (PaperSubmission.uploadPaper rt file metadata w) = Returned (Failure e)
  /\ papers (snd (PaperSubmission.uploadPaper rt file metadata w)) = papers w
  /\ bucket (snd (PaperSubmission.uploadPaper rt file metadata w))
     = <[storage_path (Users.id row) (clock w) (name file) := file]> (bucket w).
Proof.
  intros Hs Hrow Hty Hsz Hfree H0 H1 H2 H3 H4.
  rewrite uploadPaper_run, H0, Hs.
  destruct (author_lookups (issue AuthGetUser w) u row) as [Hr Ha];
    [exact Hs | exact Hrow | now autorewrite with faults..|].
  destruct (author_lookups w u row Hs Hrow H1 H2) as [Hr' Ha'].
  rewrite Hr', Ha', Hty, Hsz. cbn [negb Auth.id]. cbv zeta.
  autorewrite with faults. rewrite H3, Hfree, H4.
  cbn. split; [reflexivity|]. split; reflexivity.
Qed.

(** X14. [uploadPaper] only ever adds. Whatever happens, every object that
    was in the bucket is still there unchanged (a path that is taken is
    never overwritten), every row of [papers] is still there, and a row is
    added only when the call reports success, in which case it is the row
    that is returned. *)
Theorem uploadPaper_only_adds (rt : Runtime) (file : File)
    (metadata : PaperSubmission.Metadata) (w : World) :
  (forall key f,
     bucket w !! key = Some f ->
     bucket (snd (PaperSubmission.uploadPaper rt file metadata w)) !! key
     = Some f)
  /\ ((exists e,
         fst (PaperSubmission.uploadPaper rt file metadata w)
         = Returned (Failure e)
         /\ papers (snd (PaperSubmission.uploadPaper rt file metadata w))
            = papers w)
      \/ (exists p,
            fst (PaperSubmission.uploadPaper rt file metadata w)
            = Returned (Success p)
            /\ papers (snd (PaperSubmission.uploadPaper rt file metadata w))
               = papers w ++ [p]
            /\ Papers.status p = "pending"
            /\ exists key,
                 Papers.file_url p = Some key
                 /\ bucket w !! key = None
                 /\ bucket (snd (PaperSubmission.uploadPaper rt file metadata w))
                    !! key = Some file)).
Proof.
  destruct (after_getCurrentUserRecord_frame (issue AuthGetUser w))
    as (Hp & Hb & _).
  cbn [papers bucket issue set_faults set_trace] in Hp, Hb.
  remember (PaperSubmission.uploadPaper rt file metadata w) as r eqn:Hr.
  rewrite uploadPaper_run in Hr.
  set (w1 := after_getCurrentUserRecord (issue AuthGetUser w)) in *.
  clearbody w1.
  assert (Hstay : forall w' e,
            bucket w' = bucket w -> papers w' = papers w ->
            r = (Returned (Failure e), w') ->
            (forall key f, bucket w !! key = Some f ->
                           bucket (snd r) !! key = Some f)
            /\ ((exists e0, fst r = Returned (Failure e0)
                            /\ papers (snd r) = papers w)
                \/ (exists p,
                      fst r = Returned (Success p)
                      /\ papers (snd r) = papers w ++ [p]
                      /\ Papers.status p = "pending"
                      /\ exists key,
                           Papers.file_url p = Some key
                           /\ bucket w !! key = None
                           /\ bucket (snd r) !! key = Some file))).
  { intros w' e Hb' Hp' ->. cbn [fst snd]. split.
    - intros key f Hk. now rewrite Hb'.
    - left. exists e. now split. }
  assert (Hw : bucket (issue AuthGetUser w) = bucket w
               /\ papers (issue AuthGetUser w) = papers w) by now split.
  destruct Hw as [Hb0 Hp0].
  destruct (fault_at 0 w); [(eapply Hstay; [| |exact Hr]; assumption)|].
  destruct (session_user w); [|(eapply Hstay; [| |exact Hr]; assumption)].
  cbv zeta in Hr.
  destruct (record_answer _) as [prof|]; [|(eapply Hstay; [| |exact Hr]; assumption)].
  destruct (negb (Utils.isValidFileType _ _)); [(eapply Hstay; [| |exact Hr]; assumption)|].
  destruct (negb (Utils.isValidFileSize _ _)); [(eapply Hstay; [| |exact Hr]; assumption)|].
  set (key := storage_path (Auth.id prof) (clock w) (name file)) in *.
  destruct (fault_at 0 w1); [(eapply Hstay; [| |exact Hr]; assumption)|].
  destruct (bucket w !! key) eqn:Hfree; [(eapply Hstay; [| |exact Hr]; assumption)|].
  clear Hstay.
  destruct (fault_at 1 w1); subst r;
    cbn [fst snd bucket papers issue set_bucket set_papers set_issued_ids
         set_faults set_trace].
  - split.
    + intros k f Hk. rewrite lookup_insert_ne; [exact Hk|].
      intros <-. congruence.
    + left. eexists. split; [reflexivity | exact Hp].
  - split.
    + intros k f Hk. rewrite lookup_insert_ne; [exact Hk|].
      intros <-. congruence.
    + right. eexists. split; [reflexivity|].
      split; [reflexivity|]. split; [reflexivity|]. exists key.
      split; [reflexivity|]. split; [exact Hfree | apply lookup_insert_eq].
Qed.

Lemma filter_keep_other_ids (ps : list Papers.row) (paperId : string) :
  ~ In paperId (List.map Papers.id ps) ->
  List.filter (fun p => negb (String.eqb (Papers.id p) paperId)) ps = ps.
Proof.
  induction ps as [|a ps IH]; intros Hk; [reflexivity|].
  cbn in *. destruct (String.eqb_spec (Papers.id a) paperId) as [E|E].
  - exfalso. apply Hk. now left.
  - cbn. f_equal. apply IH. intros H. apply Hk. now right.
Qed.

(** X15. Submitting and then withdrawing is a round trip. When a
    submission succeeds under an id no other paper carries, and the author
    deletes it while it is still pending, the [papers] table and the
    bucket are back to what they were before the submission. *)
Theorem upload_then_delete_restores (rt : Runtime) (file : File)
    (metadata : PaperSubmission.Metadata) (w : World) (u : AuthUser)
    (prof : Auth.Profile) :
  healthy w ->
  session_user w = Some u ->
  Spec.resolved_profile (users w) (admins w) (uid u) = Some prof ->
  Utils.isValidFileType (name file) PaperSubmission.allowedTypes = true ->
  Utils.isValidFileSize (size file) 10 = true ->
  bucket w !! storage_path (Auth.id prof) (clock w) (name file) = None ->
  ~ In (gen_random_uuid rt (issued_ids w)) (List.map Papers.id (papers w)) ->
  exists p,
    fst (PaperSubmission.uploadPaper rt file metadata w) = Returned (Success p)
    /\ fst (PaperSubmission.deletePaper (Papers.id p)
              (snd (PaperSubmission.uploadPaper rt file metadata w)))
       = Returned (Success tt)
    /\ papers (snd (PaperSubmission.deletePaper (Papers.id p)
                      (snd (PaperSubmission.uploadPaper rt file metadata w))))
       = papers w
    /\ bucket (snd (PaperSubmission.deletePaper (Papers.id p)
                      (snd (PaperSubmission.uploadPaper rt file metadata w))))
       = bucket w.
Proof.
  intros Hh Hs Hprof Hty Hsz Hfree Hfresh.
  pose proof (healthy_issue AuthGetUser w Hh) as Hh1.
  pose proof (healthy_after_getCurrentUserRecord _ Hh1) as Hh2.
  rewrite uploadPaper_run, (healthy_fault_at w 0 Hh), Hs.
  rewrite (record_answer_resolved (issue AuthGetUser w) u);
    [|exact Hs|now apply healthy_fault_at..].
  cbn [users admins issue set_faults set_trace]. rewrite Hprof, Hty, Hsz.
  cbn [negb]. cbv zeta.
  set (w1 := after_getCurrentUserRecord (issue AuthGetUser w)) in *.
  clearbody w1.
  rewrite !(healthy_fault_at w1 _ Hh2), Hfree.
  set (key := storage_path (Auth.id prof) (clock w) (name file)) in *.
  set (p := Papers.of_draft _ _ _).
  set (w' := set_issued_ids _ _).
  assert (Hp' : papers w' = papers w ++ [p]) by reflexivity.
  assert (Hb' : bucket w' = <[key := file]> (bucket w)) by reflexivity.
  assert (Hh' : healthy w').
  { intros k. unfold w'. autorewrite with faults. apply Hh2. }
  assert (Hid : Papers.id p = gen_random_uuid rt (issued_ids w))
    by reflexivity.
  assert (Hst : Papers.status p = "pending") by reflexivity.
  assert (Hurl : Papers.file_url p = Some key) by reflexivity.
  clearbody w' p.
  exists p. cbn [fst snd]. split; [reflexivity|].
  rewrite deletePaper_run, !(healthy_fault_at w' _ Hh'), Hp', Hb'.
  rewrite List.filter_app, Hid, (filter_id_absent _ _ Hfresh).
  cbn [List.filter app]. rewrite <- Hid, String.eqb_refl. cbn [single].
  rewrite Hst. cbn [String.eqb negb]. cbv zeta. rewrite Hurl.
  cbn [fst snd papers bucket set_papers set_bucket issue set_faults set_trace
       Supabase.remove_key].
  split; [reflexivity|]. split.
  - rewrite List.filter_app, Hid, (filter_keep_other_ids _ _ Hfresh).
    cbn [List.filter]. rewrite <- Hid, String.eqb_refl. cbn [negb].
    apply app_nil_r.
  - now apply delete_insert_id.
Qed.

(** Alice's upload is stored, then the record store refuses the insert. *)
Lemma uploadPaper_insert_fails_keeps_file_witness :
  fst (PaperSubmission.uploadPaper Demo.runtime Demo.pdf Demo.titled_X
         (Demo.as_user (Some Demo.alice_login)
            [None; None; None; None; Some "insert refused"]))
  = Returned (Failure "insert refused")
  /\ papers (snd (PaperSubmission.uploadPaper Demo.runtime Demo.pdf
                    Demo.titled_X
                    (Demo.as_user (Some Demo.alice_login)
                       [None; None; None; None; Some "insert refused"])))
     = [Demo.p1; Demo.p2]
  /\ bucket (snd (PaperSubmission.uploadPaper Demo.runtime Demo.pdf
                    Demo.titled_X
                    (Demo.as_user (Some Demo.alice_login)
                       [None; None; None; None; Some "insert refused"])))
     !! "u-1/1767225600000_paper.pdf" = Some Demo.pdf.
Proof.
  destruct (uploadPaper_insert_fails_keeps_file Demo.runtime Demo.pdf
              Demo.titled_X
              (Demo.as_user (Some Demo.alice_login)
                 [None; None; None; None; Some "insert refused"])
              Demo.alice_login Demo.alice "insert refused"
              eq_refl eq_refl eq_refl eq_refl)
    as (Hr & Hp & Hb); try reflexivity.
  split; [exact Hr|]. split; [exact Hp|]. rewrite Hb. reflexivity.
Defined.

(** Alice submits a paper and withdraws it at once. *)
Lemma upload_then_delete_restores_witness :
  exists p,
    fst (PaperSubmission.uploadPaper Demo.runtime Demo.pdf Demo.titled_X
           (Demo.as_user (Some Demo.alice_login) []))
    = Returned (Success p)
    /\ papers (snd (PaperSubmission.deletePaper (Papers.id p)
                      (snd (PaperSubmission.uploadPaper Demo.runtime Demo.pdf
                              Demo.titled_X
                              (Demo.as_user (Some Demo.alice_login) [])))))
       = [Demo.p1; Demo.p2]
    /\ bucket (snd (PaperSubmission.deletePaper (Papers.id p)
                      (snd (PaperSubmission.uploadPaper Demo.runtime Demo.pdf
                              Demo.titled_X
                              (Demo.as_user (Some Demo.alice_login) [])))))
       = bucket (Demo.as_user (Some Demo.alice_login) []).
Proof.
  destruct (upload_then_delete_restores Demo.runtime Demo.pdf Demo.titled_X
              (Demo.as_user (Some Demo.alice_login) []) Demo.alice_login
              (Auth.UserProfile Demo.alice))
    as (p & Hu & _ & Hp & Hb).
  - now apply healthy_no_faults.
  - reflexivity.
  - reflexivity.
  - reflexivity.
  - reflexivity.
  - vm_compute. reflexivity.
  - vm_compute. intros [H|[H|[]]]; discriminate H.
  - exists p. split; [exact Hu|]. split; [exact Hp | exact Hb].
Defined.

(* ================================================================== *)
(** ** Profiles and listings *)
(* ================================================================== *)

Lemma active_admin_filter (authId : string) (ads : list Admins.row) :
  List.filter (SupabaseClient.active_admin_of authId) ads
  = List.filter Admins.is_active
      (List.filter (fun x => String.eqb (Admins.auth_id x) authId) ads).
Proof.
  induction ads as [|a ads IH]; [reflexivity|].
  cbn. unfold SupabaseClient.active_admin_of at 1.
  destruct (String.eqb (Admins.auth_id a) authId); cbn.
  - destruct (Admins.is_active a); cbn; now rewrite IH.
  - exact IH.
Qed.

(** X16. The profile lookup and the admin check disagree on deactivated
    admins. [getCurrentUserRecord] answers the [users] row of the caller
    when there is one, whatever [admins] holds; without one it answers the
    caller's [admins] row even when that row is deactivated, while
    [isAdmin] answers null for it. *)
Theorem getCurrentUserRecord_precedence (w : World) (u : AuthUser) :
  healthy w -> session_user w = Some u ->
  (forall row,
     List.filter (fun x => String.eqb (Users.auth_id x) (uid u)) (users w)
     = [row] ->
     fst (Auth.getCurrentUserRecord w)
     = Returned (Some (Auth.UserProfile row)))
  /\ (forall a,
        List.filter (fun x => String.eqb (Users.auth_id x) (uid u)) (users w)
        = [] ->
        List.filter (fun x => String.eqb (Admins.auth_id x) (uid u)) (admins w)
        = [a] ->
        fst (Auth.getCurrentUserRecord w)
        = Returned (Some (Auth.AdminProfile a))
        /\ (Admins.is_active a = false ->
            fst (SupabaseClient.isAdmin w) = Returned None
            /\ fst (Auth.isAdmin w) = Returned None)).
Proof.
  intros Hh Hs.
  rewrite getCurrentUserRecord_run. cbn [fst].
  rewrite (record_answer_resolved w u Hs) by now apply healthy_fault_at.
  unfold Spec.resolved_profile. split.
  - intros row ->. reflexivity.
  - intros a -> Ha. rewrite Ha. split; [reflexivity|].
    intros Hact. rewrite auth_isAdmin_run, isAdmin_run. cbn [fst].
    unfold admin_answer.
    rewrite !(healthy_fault_at w _ Hh), Hs, active_admin_filter, Ha.
    cbn [List.filter]. rewrite Hact. split; reflexivity.
Qed.

Lemma insert_newest_first_perm (instant_of : string -> Z) (p : Papers.row)
    (l : list Papers.row) :
  Permutation (Supabase.insert_newest_first instant_of p l) (p :: l).
Proof.
  induction l as [|q l IH]; [reflexivity|].
  cbn. destruct (_ <=? _)%Z; [reflexivity|].
  rewrite IH. apply perm_swap.
Qed.

Lemma newest_first_perm (instant_of : string -> Z) (l : list Papers.row) :
  Permutation (Supabase.newest_first instant_of l) l.
Proof.
  induction l as [|p l IH]; [reflexivity|].
  cbn. rewrite insert_newest_first_perm. now rewrite IH.
Qed.

Lemma insert_newest_first_sorted (instant_of : string -> Z) (p : Papers.row)
    (l : list Papers.row) :
  StronglySorted (not_older instant_of) l ->
  StronglySorted (not_older instant_of)
    (Supabase.insert_newest_first instant_of p l).
Proof.
  induction l as [|q l IH]; intros Hs.
  - cbn. constructor; constructor.
  - apply StronglySorted_inv in Hs as [Hs Hq]. cbn.
    destruct (_ <=? _)%Z eqn:E.
    + apply Z.leb_le in E. constructor.
      * now constructor.
      * constructor; [exact E|].
        eapply Forall_impl; [exact Hq|]. unfold not_older. cbn. intros x Hx. lia.
    + apply Z.leb_gt in E. constructor; [now apply IH|].
      rewrite (insert_newest_first_perm instant_of p l).
      constructor; [unfold not_older; lia | exact Hq].
Qed.

Lemma newest_first_sorted (instant_of : string -> Z) (l : list Papers.row) :
  StronglySorted (not_older instant_of) (Supabase.newest_first instant_of l).
Proof.
  induction l as [|p l IH]; [constructor|].
  cbn. now apply insert_newest_first_sorted.
Qed.

Lemma newest_first_In (instant_of : string -> Z) (l : list Papers.row)
    (p : Papers.row) :
  In p (Supabase.newest_first instant_of l) <-> In p l.
Proof.
  split; apply Permutation_in;
    [|symmetry]; apply newest_first_perm.
Qed.

(** [getUserPapers] in closed form. *)
Lemma getUserPapers_run (instant_of : string -> Z) (w : World) :
  PaperSubmission.getUserPapers instant_of w
  = match fault_at 0 w, session_user w with
    | None, Some _ =>
        let w1 := after_getCurrentUserRecord (issue AuthGetUser w) in
        match record_answer (issue AuthGetUser w) with
        | None => (Returned [], w1)
        | Some prof =>
            (Returned
               (match fault_at 0 w1 with
                | Some _ => []
                | None =>
                    Supabase.newest_first instant_of
                      (List.filter
                         (fun p => String.eqb (Papers.user_id p) (Auth.id prof))
                         (papers w))
                end),
             issue (DbSelect "papers") w1)
        end
    | _, _ => (Returned [], issue AuthGetUser w)
    end.
Proof.
  destruct (after_getCurrentUserRecord_frame (issue AuthGetUser w))
    as (Hp & _).
  cbn [papers issue set_faults set_trace] in Hp.
  unfold PaperSubmission.getUserPapers, try_catch, bind.
  rewrite getCurrentUser_run, <- next_fault_fault_at.
  destruct (next_fault w) as [e|]; [reflexivity|].
  destruct (session_user w) as [u|]; [|reflexivity].
  rewrite getCurrentUserRecord_run.
  destruct (record_answer (issue AuthGetUser w)) as [prof|]; [|reflexivity].
  cbv zeta.
  set (w1 := after_getCurrentUserRecord (issue AuthGetUser w)) in *.
  clearbody w1.
  unfold Supabase.papers_select_eq_user_id, request.
  rewrite <- next_fault_fault_at.
  destruct (next_fault w1) as [e|]; [reflexivity|].
  cbn [papers issue set_faults set_trace ret]. now rewrite Hp.
Qed.

(** X17. A signed-in caller with a profile is listed their own
    submissions, all of them and no one else's, the newest first; listing
    changes neither the table nor the bucket. *)
Theorem getUserPapers_own_newest_first (instant_of : string -> Z) (w : World)
    (u : AuthUser) (prof : Auth.Profile) :
  healthy w -> session_user w = Some u ->
  Spec.resolved_profile (users w) (admins w) (uid u) = Some prof ->
  exists l,
    fst (PaperSubmission.getUserPapers instant_of w) = Returned l
    /\ Permutation l
         (List.filter (fun p => String.eqb (Papers.user_id p) (Auth.id prof))
            (papers w))
    /\ (forall p, In p l <-> In p (papers w) /\ Papers.user_id p = Auth.id prof)
    /\ StronglySorted (not_older instant_of) l
    /\ papers (snd (PaperSubmission.getUserPapers instant_of w)) = papers w
    /\ bucket (snd (PaperSubmission.getUserPapers instant_of w)) = bucket w.
Proof.
  intros Hh Hs Hprof.
  pose proof (healthy_issue AuthGetUser w Hh) as Hh1.
  pose proof (healthy_after_getCurrentUserRecord _ Hh1) as Hh2.
  destruct (after_getCurrentUserRecord_frame (issue AuthGetUser w))
    as (Hp & Hb & _).
  cbn [papers bucket issue set_faults set_trace] in Hp, Hb.
  rewrite getUserPapers_run, (healthy_fault_at w 0 Hh), Hs.
  rewrite (record_answer_resolved (issue AuthGetUser w) u);
    [|exact Hs|now apply healthy_fault_at..].
  cbn [users admins issue set_faults set_trace]. rewrite Hprof. cbv zeta.
  rewrite (healthy_fault_at _ 0 Hh2).
  eexists. split; [reflexivity|]. split; [apply newest_first_perm|].
  split; [|split; [apply newest_first_sorted|]].
  - intros p. rewrite newest_first_In, List.filter_In, String.eqb_eq.
    reflexivity.
  - cbn [snd papers bucket issue set_faults set_trace]. now split.
Qed.

(** X18. [getUserPapers] never throws and only reads. Whatever the
    service answers, it returns a list of rows of the [papers] table and
    leaves table and bucket as they were; a caller who is not signed in, or
    whose lookups fail, gets the empty list, which is also what an author
    without submissions gets. *)
Theorem getUserPapers_read_only (instant_of : string -> Z) (w : World) :
  exists l,
    fst (PaperSubmission.getUserPapers instant_of w) = Returned l
    /\ (forall p, In p l -> In p (papers w))
    /\ (session_user w = None \/ fault_at 0 w <> None -> l = [])
    /\ papers (snd (PaperSubmission.getUserPapers instant_of w)) = papers w
    /\ bucket (snd (PaperSubmission.getUserPapers instant_of w)) = bucket w
    /\ exists cs,
         trace (snd (PaperSubmission.getUserPapers instant_of w))
         = trace w ++ cs
         /\ forallb is_read cs = true.
Proof.
  destruct (after_getCurrentUserRecord_frame (issue AuthGetUser w))
    as (Hp & Hb & _ & _ & cs & Ht & Hcs).
  cbn [papers bucket trace issue set_faults set_trace] in Hp, Hb, Ht.
  rewrite getUserPapers_run.
  set (w1 := after_getCurrentUserRecord (issue AuthGetUser w)) in *.
  clearbody w1.
  assert (Hout : exists cs0, trace (issue AuthGetUser w) = trace w ++ cs0
                             /\ forallb is_read cs0 = true)
    by now exists [AuthGetUser].
  destruct (fault_at 0 w) as [e|] eqn:H0.
  { exists []. cbn. repeat split; try tauto; exact Hout. }
  destruct (session_user w) as [u|] eqn:Hs.
  2:{ exists []. cbn. repeat split; try tauto; exact Hout. }
  cbv zeta.
  assert (Hout1 : exists cs0, trace w1 = trace w ++ cs0
                              /\ forallb is_read cs0 = true).
  { exists (AuthGetUser :: cs). split; [|exact Hcs].
    rewrite Ht, <- app_assoc. reflexivity. }
  assert (Hout2 : exists cs0,
            trace (issue (DbSelect "papers") w1) = trace w ++ cs0
            /\ forallb is_read cs0 = true).
  { exists ((AuthGetUser :: cs) ++ [DbSelect "papers"]). split.
    - cbn [trace issue set_faults set_trace]. rewrite Ht.
      now rewrite <- !app_assoc.
    - rewrite forallb_app. cbn [forallb is_read andb] in *.
      now rewrite Hcs. }
  destruct (record_answer _) as [prof|].
  2:{ exists []. cbn [fst snd]. split; [reflexivity|]. split; [intros p []|].
      split; [reflexivity|]. split; [exact Hp|]. split; [exact Hb|exact Hout1]. }
  eexists. cbn [fst snd]. split; [reflexivity|]. split.
  - intros p Hin. destruct (fault_at 0 w1); [destruct Hin|].
    apply newest_first_In, List.filter_In in Hin. tauto.
  - split; [intros [H|H]; [discriminate H | contradiction]|].
    cbn [papers bucket issue set_faults set_trace].
    split; [exact Hp|]. split; [exact Hb | exact Hout2].
Qed.

(** X19. [getAllPapers] makes one read and no check of who is asking.
    With no status, or an empty one, it lists every paper; with a status it
    lists exactly the papers in that status; newest first in both cases,
    each with the name and email of its owner's [users] row when there is
    one. If the read
    fails the answer is the empty list. *)
Theorem getAllPapers_listing (instant_of : string -> Z)
    (status : option string) (w : World) :
  (fault_at 0 w = None ->
   (status = None \/ status = Some "" ->
    fst (Admin.getAllPapers instant_of status w)
    = Returned (List.map (fun p => (p, Supabase.listed_owner (users w) p))
                  (Supabase.newest_first instant_of (papers w))))
   /\ (forall st, status = Some st -> st <> "" ->
       fst (Admin.getAllPapers instant_of status w)
       = Returned
           (List.map (fun p => (p, Supabase.listed_owner (users w) p))
              (Supabase.newest_first instant_of
                 (List.filter (fun p => String.eqb (Papers.status p) st)
                    (papers w))))))
  /\ (fault_at 0 w <> None ->
      fst (Admin.getAllPapers instant_of status w) = Returned [])
  /\ snd (Admin.getAllPapers instant_of status w)
     = issue (DbSelect "papers") w
  /\ (forall l,
        fst (Admin.getAllPapers instant_of status w) = Returned l ->
        StronglySorted (not_older instant_of) (List.map fst l)
        /\ forall p o, In (p, o) l ->
             In p (papers w)
             /\ (forall st, status = Some st -> st <> "" -> Papers.status p = st)
             /\ forall r, o = Some r ->
                  exists u, In u (users w) /\ Users.id u = Papers.user_id p
                            /\ Supabase.l_full_name r = Users.full_name u
                            /\ Supabase.l_email r = Users.email u).
Proof.
  unfold Admin.getAllPapers, try_catch, bind, Supabase.papers_select_listing,
    request.
  rewrite next_fault_fault_at.
  destruct (fault_at 0 w) as [e|] eqn:H0.
  { cbn. split; [discriminate|]. split; [reflexivity|]. split; [reflexivity|].
    intros l [= <-]. split; [constructor | intros p o []]. }
  set (rows := match (if Js.truthy_opt status then status else None) with
               | Some st => List.filter _ _
               | None => _
               end).
  cbn [fst snd ret].
  assert (Hrows_all : status = None \/ status = Some "" ->
            rows = papers (issue (DbSelect "papers") w)).
  { intros [->| ->]; reflexivity. }
  assert (Hrows_st : forall st, status = Some st -> st <> "" ->
            rows = List.filter (fun p => String.eqb (Papers.status p) st)
                     (papers (issue (DbSelect "papers") w))).
  { intros st -> Hne. unfold rows. cbn [Js.truthy_opt]. unfold Js.truthy.
    apply String.eqb_neq in Hne. now rewrite Hne. }
  split; [intros _; split|].
  - intros H. now rewrite (Hrows_all H).
  - intros st Hst Hne. now rewrite (Hrows_st st Hst Hne).
  - split; [intros H; contradiction|]. split; [reflexivity|].
    intros l [= <-]. rewrite List.map_map. cbn [fst]. rewrite List.map_id.
    split; [apply newest_first_sorted|].
    intros p o Hin. apply List.in_map_iff in Hin as (q & [= <- <-] & Hq).
    apply newest_first_In in Hq.
    assert (Hsub : In q rows ->
              In q (papers w)
              /\ forall st, status = Some st -> st <> "" -> Papers.status q = st).
    { intros Hr. destruct status as [st|].
      - destruct (String.eqb_spec st "") as [->|Hne].
        + rewrite Hrows_all in Hr by now right. split; [exact Hr|].
          intros st [= <-] H. contradiction.
        + rewrite (Hrows_st st eq_refl Hne) in Hr.
          apply List.filter_In in Hr as [Hr Hst]. split; [exact Hr|].
          intros st' [= <-] _. now apply String.eqb_eq.
      - rewrite Hrows_all in Hr by now left. split; [exact Hr|].
        intros st [=]. }
    destruct (Hsub Hq) as [H1 H2]. split; [exact H1|]. split; [exact H2|].
    intros r Hr. unfold Supabase.listed_owner in Hr.
    destruct (List.find _ (users w)) as [x|] eqn:Hx; [|discriminate Hr].
    injection Hr as <-. apply List.find_some in Hx as [Hx1 Hx2].
    exists x. split; [exact Hx1|]. split; [now apply String.eqb_eq|].
    split; reflexivity.
Qed.

(** Retired's admin row is deactivated: a profile, but no admin rights. *)
Lemma getCurrentUserRecord_precedence_witness :
  fst (Auth.getCurrentUserRecord (Demo.as_user (Some Demo.retired_login) []))
  = Returned (Some (Auth.AdminProfile Demo.retired))
  /\ fst (SupabaseClient.isAdmin (Demo.as_user (Some Demo.retired_login) []))
     = Returned None
  /\ fst (Auth.getCurrentUserRecord (Demo.as_user (Some Demo.alice_login) []))
     = Returned (Some (Auth.UserProfile Demo.alice)).
Proof.
  assert (Hh : forall who, healthy (Demo.as_user who []))
    by (intros who; now apply healthy_no_faults).
  destruct (getCurrentUserRecord_precedence
              (Demo.as_user (Some Demo.retired_login) []) Demo.retired_login
              (Hh _) eq_refl) as [_ Hadm].
  destruct (Hadm Demo.retired eq_refl eq_refl) as [Hrec Hno].
  destruct (getCurrentUserRecord_precedence
              (Demo.as_user (Some Demo.alice_login) []) Demo.alice_login
              (Hh _) eq_refl) as [Husr _].
  split; [exact Hrec|]. split; [exact (proj1 (Hno eq_refl))|].
  exact (Husr Demo.alice eq_refl).
Defined.

(** Alice's two submissions are hers, and listed. *)
Lemma getUserPapers_own_newest_first_witness :
  exists l,
    fst (PaperSubmission.getUserPapers (fun _ => 0%Z)
           (Demo.as_user (Some Demo.alice_login) [])) = Returned l
    /\ Permutation l [Demo.p1; Demo.p2].
Proof.
  destruct (getUserPapers_own_newest_first (fun _ => 0%Z)
              (Demo.as_user (Some Demo.alice_login) []) Demo.alice_login
              (Auth.UserProfile Demo.alice))
    as (l & Hl & Hperm & _).
  - now apply healthy_no_faults.
  - reflexivity.
  - reflexivity.
  - exists l. split; [exact Hl | exact Hperm].
Defined.

(* ================================================================== *)
(** ** Deletions by an admin: authorization, audit and partial failure *)
(* ================================================================== *)

(** [adminDeletePaper] in closed form; [w2] is the world after the admin
    check. *)
Lemma adminDeletePaper_run (paperId : string) (w : World) :
  Admin.adminDeletePaper paperId w
  = match admin_answer w with
    | None =>
        (Returned (Failure "Unauthorized: Admin access required"),
         after_isAdmin w)
    | Some _ =>
        let w2 := after_isAdmin w in
        match fault_at 0 w2 with
        | Some e => (Returned (Failure e), issue (DbSelect "papers") w2)
        | None =>
            let w3 := issue (DbSelect "papers") w2 in
            match single (List.filter
                            (fun p => String.eqb (Papers.id p) paperId)
                            (papers w)) with
            | Error e => (Returned (Failure e), w3)
            | Data paper =>
                let c := StorageRemove "papers" [Papers.file_url paper] in
                let w4 :=
                  match fault_at 1 w2 with
                  | Some _ => issue c w3
                  | None =>
                      set_bucket
                        (Supabase.remove_key (Papers.file_url paper) (bucket w))
                        (issue c w3)
                  end in
                match fault_at 2 w2 with
                | Some e => (Returned (Failure e), issue (DbDelete "papers") w4)
                | None =>
                    (Returned (Success tt),
                     set_papers
                       (List.filter
                          (fun p => negb (String.eqb (Papers.id p) paperId))
                          (papers w))
                       (issue (DbDelete "papers") w4))
                end
            end
        end
    end.
Proof.
  destruct (after_isAdmin_frame w) as (Hp & Hb & _).
  unfold Admin.adminDeletePaper, try_catch, bind, Auth.window_auth_isAdmin.
  rewrite isAdmin_run.
  destruct (admin_answer w) as [a|]; [|reflexivity].
  cbv zeta. set (w2 := after_isAdmin w) in *. clearbody w2.
  rewrite select_single_run, next_fault_fault_at.
  destruct (fault_at 0 w2) as [e|]; [reflexivity|].
  cbn [papers issue set_faults set_trace]. rewrite Hp.
  destruct (single _) as [paper|e]; [|reflexivity].
  rewrite storage_remove_run. autorewrite with faults.
  destruct (fault_at 1 w2) as [e1|];
    rewrite papers_delete_eq_id_run; autorewrite with faults;
    destruct (fault_at 2 w2) as [e2|];
    cbn [papers bucket set_bucket issue set_faults set_trace foldr];
    now rewrite ?Hp, ?Hb.
Qed.

(** X20. [adminDeletePaper] and [deleteAllPapers] refuse a caller for whom
    [isAdmin] answers null: the result is the authorization failure, only
    the admin check's reads have been made, and papers, bucket and activity
    log are as before. *)
Theorem admin_deletions_require_admin (rt : Runtime) (paperId : string)
    (w : World) :
  fst (SupabaseClient.isAdmin w) = Returned None ->
  Admin.adminDeletePaper paperId w
  = (Returned (Failure "Unauthorized: Admin access required"), after_isAdmin w)
  /\ Admin.deleteAllPapers rt w
     = (Returned (Failure "Unauthorized: Admin access required"),
        after_isAdmin w)
  /\ papers (after_isAdmin w) = papers w
  /\ bucket (after_isAdmin w) = bucket w
  /\ activity_logs (after_isAdmin w) = activity_logs w
  /\ exists cs, trace (after_isAdmin w) = trace w ++ cs
                /\ forallb is_read cs = true.
Proof.
  intros Hno.
  destruct (after_isAdmin_frame w) as (Hp & Hb & Hl & _ & Ht).
  split; [|split].
  - rewrite adminDeletePaper_run.
    rewrite isAdmin_run in Hno. cbn [fst] in Hno. injection Hno as ->.
    reflexivity.
  - unfold Admin.deleteAllPapers, try_catch, bind, Auth.window_auth_isAdmin.
    now rewrite (isAdmin_none w Hno).
  - now repeat (split; [assumption|]).
Qed.

(** X21. A deletion by an admin is not written to the activity log:
    whatever its outcome, [adminDeletePaper] leaves [activity_logs] and
    [email_notifications] as they were. *)
Theorem adminDeletePaper_leaves_no_audit_entry (paperId : string) (w : World) :
  activity_logs (snd (Admin.adminDeletePaper paperId w)) = activity_logs w
  /\ email_notifications (snd (Admin.adminDeletePaper paperId w))
     = email_notifications w.
Proof.
  destruct (after_isAdmin_frame w) as (_ & _ & Hl & Hn & _).
  rewrite adminDeletePaper_run.
  destruct (admin_answer w) as [a|]; [|now split].
  cbv zeta. set (w2 := after_isAdmin w) in *. clearbody w2.
  destruct (fault_at 0 w2); [now split|].
  destruct (single _) as [paper|e]; [|now split].
  destruct (fault_at 1 w2), (fault_at 2 w2); now split.
Qed.

(** X22. What [adminDeletePaper] does when it cannot finish. Under an id
    that no paper carries it fails and changes nothing. When the file has
    been removed and the record store then refuses the delete, it reports
    that failure and the record is still there, without its file. *)
Theorem adminDeletePaper_failures (w : World) (a : Admins.row) :
  fst (SupabaseClient.isAdmin w) = Returned (Some a) ->
  (forall paperId,
     ~ In paperId (List.map Papers.id (papers w)) ->
     (exists e, fst (Admin.adminDeletePaper paperId w) = Returned (Failure e))
     /\ papers (snd (Admin.adminDeletePaper paperId w)) = papers w
     /\ bucket (snd (Admin.adminDeletePaper paperId w)) = bucket w)
  /\ (forall p e,
        In p (papers w) -> NoDup (List.map Papers.id (papers w)) ->
        fault_at 2 w = None -> fault_at 3 w = None -> fault_at 4 w = Some e ->
        fst (Admin.adminDeletePaper (Papers.id p) w) = Returned (Failure e)
        /\ papers (snd (Admin.adminDeletePaper (Papers.id p) w)) = papers w
        /\ bucket (snd (Admin.adminDeletePaper (Papers.id p) w))
           = Supabase.remove_key (Papers.file_url p) (bucket w)
        /\ forall key, Papers.file_url p = Some key ->
             bucket (snd (Admin.adminDeletePaper (Papers.id p) w)) !! key
             = None).
Proof.
  intros Hadm.
  destruct (after_isAdmin_frame w) as (Hp & Hb & _).
  rewrite isAdmin_run in Hadm. cbn [fst] in Hadm. injection Hadm as Hans.
  pose proof (after_isAdmin_fault w a) as Hf.
  split.
  - intros paperId Hid. rewrite adminDeletePaper_run, Hans.
    rewrite (filter_id_absent _ _ Hid). cbn [single]. cbv zeta.
    destruct (fault_at 0 (after_isAdmin w)) as [e|];
      cbn [fst snd papers bucket issue set_faults set_trace];
      (split; [eexists; reflexivity|]); now split.
  - intros p e Hin Hnd H2 H3 H4. rewrite adminDeletePaper_run, Hans.
    cbv zeta. rewrite !(Hf _ Hans). cbn [Nat.add]. rewrite H2, H3, H4.
    rewrite (filter_key_unique Papers.id _ p Hnd Hin). cbn [single].
    cbv zeta. cbn [fst snd papers bucket set_bucket issue set_faults set_trace].
    split; [reflexivity|]. split; [exact Hp|]. split; [reflexivity|].
    intros key ->. apply lookup_delete_eq.
Qed.

(** X23. [deleteAllPapers] is not atomic either. When the files have been
    removed from the bucket and the record store then refuses the bulk
    delete, the call reports that failure: every record is still there, no
    stored file of any of them is, and nothing is written to the activity
    log. *)
Theorem deleteAllPapers_record_delete_fails (rt : Runtime) (w : World)
    (a : Admins.row) (e : string) :
  fst (SupabaseClient.isAdmin w) = Returned (Some a) ->
  Spec.stored_paths (papers w) <> [] ->
  fault_at 2 w = None -> fault_at 3 w = None -> fault_at 4 w = Some e ->
  fst (Admin.deleteAllPapers rt w) = Returned (Failure e)
  /\ papers (snd (Admin.deleteAllPapers rt w)) = papers w
  /\ bucket (snd (Admin.deleteAllPapers rt w))
     = foldr Supabase.remove_key (bucket w) (Spec.stored_paths (papers w))
  /\ (forall p key,
        In p (papers w) -> Papers.file_url p = Some key -> key <> "" ->
        bucket (snd (Admin.deleteAllPapers rt w)) !! key = None)
  /\ activity_logs (snd (Admin.deleteAllPapers rt w)) = activity_logs w.
Proof.
  intros Hadm Hpaths H2 H3 H4.
  unfold Admin.deleteAllPapers, try_catch, bind, Auth.window_auth_isAdmin.
  rewrite (isAdmin_some w a Hadm).
  rewrite papers_select_file_url_run. autorewrite with faults. rewrite H2.
  cbn [papers issue set_faults set_trace].
  fold (Spec.stored_paths (papers w)).
  assert (Hlen : (0 <? length (List.map Papers.file_url (papers w)))%nat = true).
  { destruct (papers w); [now contradiction Hpaths | reflexivity]. }
  rewrite Hlen.
  destruct (Spec.stored_paths (papers w)) as [|k0 ks] eqn:Hk;
    [now contradiction Hpaths|].
  cbn [length Nat.ltb Nat.leb]. unfold bind.
  rewrite storage_remove_run. autorewrite with faults. rewrite H3.
  cbn [ret]. rewrite papers_delete_neq_id_run. autorewrite with faults.
  rewrite H4.
  cbn [fst snd papers bucket activity_logs set_bucket issue set_faults
       set_trace].
  split; [reflexivity|]. split; [reflexivity|]. split; [reflexivity|].
  split; [|reflexivity].
  intros p key Hin Hurl Hne. rewrite <- Hk. apply lookup_bulk_removed.
  now apply stored_path_In with (p := p).
Qed.

(** Alice is no admin. *)
Lemma admin_deletions_require_admin_witness :
  fst (Admin.adminDeletePaper "p-1" (Demo.as_user (Some Demo.alice_login) []))
  = Returned (Failure "Unauthorized: Admin access required")
  /\ fst (Admin.deleteAllPapers Demo.runtime
            (Demo.as_user (Some Demo.alice_login) []))
     = Returned (Failure "Unauthorized: Admin access required")
  /\ papers (snd (Admin.deleteAllPapers Demo.runtime
                    (Demo.as_user (Some Demo.alice_login) [])))
     = [Demo.p1; Demo.p2].
Proof.
  destruct (admin_deletions_require_admin Demo.runtime "p-1"
              (Demo.as_user (Some Demo.alice_login) []) eq_refl)
    as (Hone & Hall & Hp & _).
  rewrite Hone, Hall. cbn [fst snd]. split; [reflexivity|].
  split; [reflexivity | exact Hp].
Defined.

(** The admin deletes [p-2]; the record store refuses after the file is
    gone. *)
Lemma adminDeletePaper_failures_witness :
  fst (Admin.adminDeletePaper "p-2"
         (Demo.as_user (Some Demo.root_login)
            [None; None; None; None; Some "timeout"]))
  = Returned (Failure "timeout")
  /\ papers (snd (Admin.adminDeletePaper "p-2"
                    (Demo.as_user (Some Demo.root_login)
                       [None; None; None; None; Some "timeout"])))
     = [Demo.p1; Demo.p2]
  /\ bucket (snd (Admin.adminDeletePaper "p-2"
                    (Demo.as_user (Some Demo.root_login)
                       [None; None; None; None; Some "timeout"])))
     !! "u-1/2_paper.pdf" = None.
Proof.
  destruct (adminDeletePaper_failures
              (Demo.as_user (Some Demo.root_login)
                 [None; None; None; None; Some "timeout"]) Demo.root eq_refl)
    as [_ H].
  destruct (H Demo.p2 "timeout") as (Hr & Hp & _ & Hk).
  - right. now left.
  - exact demo_paper_ids.
  - reflexivity.
  - reflexivity.
  - reflexivity.
  - split; [exact Hr|]. split; [exact Hp | exact (Hk _ eq_refl)].
Defined.

(** Five papers: the files are removed, then the bulk delete is refused. *)
Lemma deleteAllPapers_record_delete_fails_witness :
  fst (Admin.deleteAllPapers Demo.runtime
         (Demo.five [None; None; None; None; Some "timeout"]))
  = Returned (Failure "timeout")
  /\ papers (snd (Admin.deleteAllPapers Demo.runtime
                    (Demo.five [None; None; None; None; Some "timeout"])))
     = Demo.five_papers
  /\ bucket (snd (Admin.deleteAllPapers Demo.runtime
                    (Demo.five [None; None; None; None; Some "timeout"])))
     !! "u-1/13_c.pdf" = None.
Proof.
  destruct (deleteAllPapers_record_delete_fails Demo.runtime
              (Demo.five [None; None; None; None; Some "timeout"])
              Demo.root "timeout" eq_refl)
    as (Hr & Hp & _ & Hk & _).
  - discriminate.
  - reflexivity.
  - reflexivity.
  - reflexivity.
  - split; [exact Hr|]. split; [exact Hp|].
    apply (Hk (Demo.paper "q-3" "accepted" "u-1/13_c.pdf")).
    + right. right. now left.
    + reflexivity.
    + discriminate.
Defined.

(* ================================================================== *)
(** ** The audit log and the mail composer *)
(* ================================================================== *)

(** X24. [logAdminActivity] never fails and never stops its caller. It
    appends at most one row, and only for a caller [isAdmin] answers a row
    for; that row names this admin and the action. A caller who is no
    admin, or an insert the record store refuses, leaves the log as it
    was, silently. Papers, bucket and notification log are never
    touched. *)
Theorem logAdminActivity_audit (rt : Runtime) (actionType : string)
    (actionData : Js.Obj) (w : World) :
  fst (Admin.logAdminActivity rt actionType actionData w) = Returned tt
  /\ papers (snd (Admin.logAdminActivity rt actionType actionData w)) = papers w
  /\ bucket (snd (Admin.logAdminActivity rt actionType actionData w)) = bucket w
  /\ email_notifications
       (snd (Admin.logAdminActivity rt actionType actionData w))
     = email_notifications w
  /\ (fst (SupabaseClient.isAdmin w) = Returned None ->
      activity_logs (snd (Admin.logAdminActivity rt actionType actionData w))
      = activity_logs w)
  /\ (forall a,
        fst (SupabaseClient.isAdmin w) = Returned (Some a) ->
        (fault_at 2 w <> None ->
         activity_logs (snd (Admin.logAdminActivity rt actionType actionData w))
         = activity_logs w)
        /\ (fault_at 2 w = None ->
            exists row,
              activity_logs
                (snd (Admin.logAdminActivity rt actionType actionData w))
              = activity_logs w ++ [row]
              /\ ActivityLogs.admin_id row = Admins.id a
              /\ ActivityLogs.actor_email row = Admins.email a
              /\ ActivityLogs.actor_role row = Admins.role a
              /\ ActivityLogs.action_type row = actionType
              /\ ActivityLogs.new_data row = actionData)).
Proof.
  destruct (after_isAdmin_frame w) as (Hp & Hb & Hl & Hn & _).
  rewrite logAdminActivity_run, isAdmin_run. cbn [fst snd].
  unfold after_logAdminActivity.
  split; [reflexivity|].
  destruct (admin_answer w) as [a|].
  - destruct (fault_at 2 w) as [e|];
      cbn [papers bucket email_notifications activity_logs set_activity_logs
           issue set_faults set_trace];
      (split; [exact Hp|]); (split; [exact Hb|]); (split; [exact Hn|]);
      (split; [discriminate|]); intros a' [= <-].
    + split; [intros _; exact Hl | discriminate].
    + split; [intros H; now contradiction H|]. intros _.
      eexists. split; [reflexivity|]. now repeat split.
  - split; [exact Hp|]. split; [exact Hb|]. split; [exact Hn|].
    split; [intros _; exact Hl | discriminate].
Qed.

(** [sendAdminNotification] in closed form. *)
Lemma sendAdminNotification_run (rt : Runtime) (o : Utils.options) (w : World) :
  Utils.sendAdminNotification rt o w
  = (Returned (composer_opened (mailto_link rt Utils.ADMIN_EMAIL o)),
     let w2 :=
       match fault_at 0 w with
       | Some _ => issue (DbInsert "email_notifications") w
       | None =>
           set_email_notifications
             (email_notifications w ++ [admin_notification_row rt o (clock w)])
             (issue (DbInsert "email_notifications") w)
       end in
     match mailto_link rt Utils.ADMIN_EMAIL o with
     | Returned link => set_opened_windows (opened_windows w ++ [link]) w2
     | Thrown _ => w2
     end).
Proof.
  unfold Utils.sendAdminNotification, try_catch, bind, gets, modify, call,
    mailto_link, admin_notification_row.
  rewrite email_notifications_insert_run, next_fault_fault_at.
  destruct (fault_at 0 w);
    (destruct (encodeURIComponent rt (Utils.subject o)); [|reflexivity]);
    destruct (encodeURIComponent rt (Utils.body o)); reflexivity.
Qed.

(** X25. The two notification helpers never throw. They first record the
    notification, best effort: the row (status [opened_client], the type
    prefixed [admin_] for [sendAdminNotification]) is added when the record
    store accepts the insert, and a refused insert changes nothing else.
    Then they encode subject and body. When both encodings return, one
    mail composer is opened, addressed to the recipient (the conference
    address for [sendAdminNotification]), and the answer is [true]. When
    [encodeURIComponent] throws, no composer is opened and the answer is
    [false], although the row may already have been recorded. *)
Theorem notifications_open_composer (rt : Runtime) (email : string)
    (o : Utils.options) (w : World) :
  (forall s b,
     encodeURIComponent rt (Utils.subject o) = Returned s ->
     encodeURIComponent rt (Utils.body o) = Returned b ->
     fst (Utils.sendUserNotification rt email o w) = Returned true
     /\ fst (Utils.sendAdminNotification rt o w) = Returned true
     /\ opened_windows (snd (Utils.sendUserNotification rt email o w))
        = opened_windows w
          ++ ["mailto:" +:+ email +:+ "?subject=" +:+ s +:+ "&body=" +:+ b]
     /\ opened_windows (snd (Utils.sendAdminNotification rt o w))
        = opened_windows w
          ++ ["mailto:" +:+ Utils.ADMIN_EMAIL +:+ "?subject=" +:+ s
              +:+ "&body=" +:+ b])
  /\ ((exists e, encodeURIComponent rt (Utils.subject o) = Thrown e)
      \/ (exists e, encodeURIComponent rt (Utils.body o) = Thrown e) ->
      fst (Utils.sendUserNotification rt email o w) = Returned false
      /\ fst (Utils.sendAdminNotification rt o w) = Returned false
      /\ opened_windows (snd (Utils.sendUserNotification rt email o w))
         = opened_windows w
      /\ opened_windows (snd (Utils.sendAdminNotification rt o w))
         = opened_windows w)
  /\ (fault_at 0 w <> None ->
      email_notifications (snd (Utils.sendUserNotification rt email o w))
      = email_notifications w
      /\ email_notifications (snd (Utils.sendAdminNotification rt o w))
         = email_notifications w)
  /\ (fault_at 0 w = None ->
      exists r1 r2,
        email_notifications (snd (Utils.sendUserNotification rt email o w))
        = email_notifications w ++ [r1]
        /\ email_notifications (snd (Utils.sendAdminNotification rt o w))
           = email_notifications w ++ [r2]
        /\ EmailNotifications.recipient_email r1 = email
        /\ EmailNotifications.status r1 = "opened_client"
        /\ EmailNotifications.recipient_email r2 = Utils.ADMIN_EMAIL
        /\ EmailNotifications.status r2 = "opened_client"
        /\ Js.startsWith (EmailNotifications.type r2) "admin_" = true
        /\ EmailNotifications.subject r1 = Utils.subject o
        /\ EmailNotifications.body r2 = Utils.body o).
Proof.
  rewrite sendUserNotification_run, sendAdminNotification_run.
  unfold after_sendUserNotification, mailto_link. cbn [fst snd]. cbv zeta.
  split; [|split; [|split]].
  - intros s b -> ->. cbn [composer_opened].
    destruct (fault_at 0 w); now repeat split.
  - intros [(e & ->)|(e & Hb)].
    + cbn [composer_opened]. destruct (fault_at 0 w); now repeat split.
    + destruct (encodeURIComponent rt (Utils.subject o)); rewrite ?Hb;
        cbn [composer_opened]; destruct (fault_at 0 w); now repeat split.
  - intros Hf. destruct (fault_at 0 w) as [e|]; [|now contradiction Hf].
    destruct (encodeURIComponent rt (Utils.subject o));
      [destruct (encodeURIComponent rt (Utils.body o))|]; now split.
  - intros ->.
    exists (notification_row rt email o (clock w)),
           (admin_notification_row rt o (clock w)).
    assert (Hpre : Js.startsWith
                     (EmailNotifications.type
                        (admin_notification_row rt o (clock w))) "admin_"
                   = true).
    { apply startsWith_append. eexists. reflexivity. }
    destruct (encodeURIComponent rt (Utils.subject o));
      [destruct (encodeURIComponent rt (Utils.body o))|];
      (split; [reflexivity|]); (split; [reflexivity|]);
      now repeat (split; [reflexivity|]).
Qed.

(* ================================================================== *)
(** ** Reviews that cannot be applied, and what a review does to the owner *)
(* ================================================================== *)

(** X26. A review that the record store cannot apply changes nothing. For
    an admin, when the update is refused, or when no paper carries the
    given id, [updatePaperStatus] answers a failure; no paper is changed,
    no notification is recorded, no composer is opened and nothing is
    written to the activity log. *)
Theorem updatePaperStatus_failures (rt : Runtime)
    (paperId newStatus comments : string) (w : World) (a : Admins.row) :
  fst (SupabaseClient.isAdmin w) = Returned (Some a) ->
  (forall e, fault_at 2 w = Some e ->
     fst (Admin.updatePaperStatus rt paperId newStatus comments w)
     = Returned (Failure e))
  /\ (fault_at 2 w = None ->
      ~ In paperId (List.map Papers.id (papers w)) ->
      fst (Admin.updatePaperStatus rt paperId newStatus comments w)
      = Returned
          (Failure "JSON object requested, multiple (or no) rows returned"))
  /\ (fault_at 2 w <> None \/ ~ In paperId (List.map Papers.id (papers w)) ->
      papers (snd (Admin.updatePaperStatus rt paperId newStatus comments w))
      = papers w
      /\ email_notifications
           (snd (Admin.updatePaperStatus rt paperId newStatus comments w))
         = email_notifications w
      /\ opened_windows
           (snd (Admin.updatePaperStatus rt paperId newStatus comments w))
         = opened_windows w
      /\ activity_logs
           (snd (Admin.updatePaperStatus rt paperId newStatus comments w))
         = activity_logs w).
Proof.
  intros Hadm.
  unfold Admin.updatePaperStatus, try_catch, bind, Auth.window_auth_isAdmin,
    gets.
  rewrite (isAdmin_some w a Hadm).
  rewrite papers_update_eq_id_single_run. autorewrite with faults.
  cbn [papers issue set_faults set_trace].
  destruct (fault_at 2 w) as [e|] eqn:H2.
  - cbn. split; [now intros e' [= <-]|]. split; [discriminate|].
    intros _. now repeat split.
  - split; [discriminate|].
    destruct (in_dec String.string_dec paperId (List.map Papers.id (papers w)))
      as [Hin|Hid].
    + split; [intros _ H; contradiction|].
      intros [H|H]; [congruence | contradiction].
    + rewrite (filter_id_absent _ _ Hid). cbn.
      split; [reflexivity|]. intros _. now repeat split.
Qed.

Lemma filter_updated_by_id (ps : list Papers.row) (p : Papers.row)
    (f : Papers.row -> Papers.row) :
  (forall q, Papers.id (f q) = Papers.id q) ->
  NoDup (List.map Papers.id ps) -> In p ps ->
  List.filter (fun q => String.eqb (Papers.id q) (Papers.id p))
    (List.map (fun q => if String.eqb (Papers.id q) (Papers.id p)
                        then f q else q) ps)
  = [f p].
Proof.
  intros Hf Hnd Hin.
  induction ps as [|a ps IH]; [destruct Hin|].
  cbn in Hnd. apply NoDup_cons in Hnd as [Ha Hnd].
  assert (Ha' : ~ In (Papers.id a) (List.map Papers.id ps))
    by (intros H; apply Ha; now apply list_elem_of_In).
  cbn [List.map List.filter]. destruct Hin as [<-|Hin].
  - rewrite String.eqb_refl, Hf, String.eqb_refl. f_equal.
    apply filter_none. intros x Hx.
    apply List.in_map_iff in Hx as (q & <- & Hq).
    assert (Hne : Papers.id q <> Papers.id a)
      by (intros E; apply Ha'; rewrite <- E; now apply List.in_map).
    apply String.eqb_neq in Hne. now rewrite Hne.
  - assert (Hne : Papers.id a <> Papers.id p)
      by (intros E; apply Ha'; rewrite E; now apply List.in_map).
    apply String.eqb_neq in Hne. rewrite Hne, Hne. now apply IH.
Qed.

(** X27. Once an admin has put a paper into any status other than
    [pending], its owner can no longer withdraw it: [deletePaper] on the
    reviewed paper fails, and the paper, carrying the review, and its file
    stay. *)
Theorem reviewed_paper_cannot_be_withdrawn (rt : Runtime)
    (newStatus comments : string) (w : World) (a : Admins.row)
    (p : Papers.row) :
  healthy w ->
  fst (SupabaseClient.isAdmin w) = Returned (Some a) ->
  In p (papers w) -> NoDup (List.map Papers.id (papers w)) ->
  newStatus <> "pending" ->
  exists reviewed,
    fst (Admin.updatePaperStatus rt (Papers.id p) newStatus comments w)
    = Returned (Success reviewed)
    /\ Papers.status (Papers.paper reviewed) = newStatus
    /\ In (Papers.paper reviewed)
         (papers (snd (Admin.updatePaperStatus rt (Papers.id p) newStatus
                         comments w)))
    /\ (exists e,
          fst (PaperSubmission.deletePaper (Papers.id p)
                 (snd (Admin.updatePaperStatus rt (Papers.id p) newStatus
                         comments w)))
          = Returned (Failure e))
    /\ papers (snd (PaperSubmission.deletePaper (Papers.id p)
                      (snd (Admin.updatePaperStatus rt (Papers.id p) newStatus
                              comments w))))
       = papers (snd (Admin.updatePaperStatus rt (Papers.id p) newStatus
                        comments w))
    /\ bucket (snd (PaperSubmission.deletePaper (Papers.id p)
                      (snd (Admin.updatePaperStatus rt (Papers.id p) newStatus
                              comments w))))
       = bucket (snd (Admin.updatePaperStatus rt (Papers.id p) newStatus
                        comments w)).
Proof.
  intros Hh Hadm Hin Hnd Hst.
  destruct (updatePaperStatus_run rt newStatus comments w a p Hh Hadm Hin Hnd)
    as (Hres & Hpapers & _).
  cbv zeta in Hres, Hpapers.
  set (r := review_of rt a newStatus comments (clock w)) in *.
  set (w' := snd (Admin.updatePaperStatus rt (Papers.id p) newStatus comments w))
    in *.
  clearbody w'.
  eexists. split; [exact Hres|]. cbn [Papers.paper].
  split; [reflexivity|]. split.
  - rewrite Hpapers. apply (map_update_by_id _ _ _ _ Hnd Hin). now left.
  - rewrite deletePaper_run.
    destruct (fault_at 0 w') as [e|].
    { cbn. split; [now exists e|]. now split. }
    rewrite Hpapers.
    rewrite (filter_updated_by_id _ p (Papers.with_review r)
               (fun q => eq_refl) Hnd Hin).
    cbn [single]. cbv zeta.
    assert (E : String.eqb (Papers.status (Papers.with_review r p)) "pending"
                = false) by now apply String.eqb_neq.
    rewrite E. cbn. split; [eexists; reflexivity|]. now split.
Qed.

Lemma after_getCurrentUserRecord_identity (w : World) :
  session_user (after_getCurrentUserRecord w) = session_user w
  /\ users (after_getCurrentUserRecord w) = users w
  /\ admins (after_getCurrentUserRecord w) = admins w.
Proof.
  unfold after_getCurrentUserRecord.
  destruct (fault_at 0 w); [|destruct (session_user w) as [u|] eqn:E;
    [destruct (user_row_answer w u)|]]; cbn; now rewrite ?E.
Qed.

(** X28. A paper that has just been submitted shows up in its author's own
    listing: after a successful [uploadPaper], [getUserPapers] for the same
    session returns a list that holds the new row. *)
Theorem uploaded_paper_is_listed (rt : Runtime) (instant_of : string -> Z)
    (file : File) (metadata : PaperSubmission.Metadata) (w : World)
    (u : AuthUser) (prof : Auth.Profile) :
  healthy w ->
  session_user w = Some u ->
  Spec.resolved_profile (users w) (admins w) (uid u) = Some prof ->
  Utils.isValidFileType (name file) PaperSubmission.allowedTypes = true ->
  Utils.isValidFileSize (size file) 10 = true ->
  bucket w !! storage_path (Auth.id prof) (clock w) (name file) = None ->
  exists p l,
    fst (PaperSubmission.uploadPaper rt file metadata w) = Returned (Success p)
    /\ fst (PaperSubmission.getUserPapers instant_of
              (snd (PaperSubmission.uploadPaper rt file metadata w)))
       = Returned l
    /\ In p l
    /\ forall q, In q l <-> (q = p \/ In q (papers w))
                            /\ Papers.user_id q = Auth.id prof.
Proof.
  intros Hh Hs Hprof Hty Hsz Hfree.
  pose proof (healthy_issue AuthGetUser w Hh) as Hh1.
  pose proof (healthy_after_getCurrentUserRecord _ Hh1) as Hh2.
  destruct (after_getCurrentUserRecord_identity (issue AuthGetUser w))
    as (Hs1 & Hu1 & Ha1).
  cbn [session_user users admins issue set_faults set_trace] in Hs1, Hu1, Ha1.
  rewrite uploadPaper_run, (healthy_fault_at w 0 Hh), Hs.
  rewrite (record_answer_resolved (issue AuthGetUser w) u);
    [|exact Hs|now apply healthy_fault_at..].
  cbn [users admins issue set_faults set_trace]. rewrite Hprof, Hty, Hsz.
  cbn [negb]. cbv zeta.
  set (w1 := after_getCurrentUserRecord (issue AuthGetUser w)) in *.
  clearbody w1.
  rewrite !(healthy_fault_at w1 _ Hh2), Hfree.
  set (key := storage_path (Auth.id prof) (clock w) (name file)) in *.
  set (p := Papers.of_draft _ _ _).
  set (w' := set_issued_ids _ _).
  assert (Hp' : papers w' = papers w ++ [p]) by reflexivity.
  assert (Hs' : session_user w' = Some u) by (now rewrite <- Hs, <- Hs1).
  assert (Hu' : users w' = users w) by exact Hu1.
  assert (Ha' : admins w' = admins w) by exact Ha1.
  assert (Hh' : healthy w').
  { intros k. unfold w'. autorewrite with faults. apply Hh2. }
  assert (Hown : Papers.user_id p = Auth.id prof) by reflexivity.
  clearbody w' p.
  exists p. eexists. cbn [fst snd]. split; [reflexivity|].
  pose proof (healthy_issue AuthGetUser w' Hh') as Hh1'.
  pose proof (healthy_after_getCurrentUserRecord _ Hh1') as Hh2'.
  rewrite getUserPapers_run, (healthy_fault_at w' 0 Hh'), Hs'.
  rewrite (record_answer_resolved (issue AuthGetUser w') u);
    [|exact Hs'|now apply healthy_fault_at..].
  cbn [users admins issue set_faults set_trace]. rewrite Hu', Ha', Hprof.
  cbv zeta. rewrite (healthy_fault_at _ 0 Hh2'), Hp'. cbn [fst].
  split; [reflexivity|].
  assert (Hall : forall q,
            In q (Supabase.newest_first instant_of
                    (List.filter
                       (fun x => String.eqb (Papers.user_id x) (Auth.id prof))
                       (papers w ++ [p])))
            <-> (q = p \/ In q (papers w))
                /\ Papers.user_id q = Auth.id prof).
  { intros q. rewrite newest_first_In, List.filter_In, List.in_app_iff,
      String.eqb_eq. cbn [In]. intuition congruence. }
  split; [|exact Hall].
  apply Hall. split; [now left | exact Hown].
Qed.

(** The admin reviews a paper nobody submitted. *)
Lemma updatePaperStatus_failures_witness :
  fst (Admin.updatePaperStatus Demo.runtime "p-9" "accepted" "fine"
         (Demo.as_user (Some Demo.root_login) []))
  = Returned (Failure "JSON object requested, multiple (or no) rows returned")
  /\ papers (snd (Admin.updatePaperStatus Demo.runtime "p-9" "accepted" "fine"
                    (Demo.as_user (Some Demo.root_login) [])))
     = [Demo.p1; Demo.p2]
  /\ activity_logs
       (snd (Admin.updatePaperStatus Demo.runtime "p-9" "accepted" "fine"
               (Demo.as_user (Some Demo.root_login) [])))
     = [].
Proof.
  assert (Hid : ~ In "p-9" (List.map Papers.id
                  (papers (Demo.as_user (Some Demo.root_login) [])))).
  { intros [H|[H|[]]]; discriminate H. }
  destruct (updatePaperStatus_failures Demo.runtime "p-9" "accepted" "fine"
              (Demo.as_user (Some Demo.root_login) []) Demo.root eq_refl)
    as (_ & Hmsg & Hsame).
  destruct (Hsame (or_intror Hid)) as (Hp & _ & _ & Hl).
  split; [exact (Hmsg eq_refl Hid)|]. split; [exact Hp | exact Hl].
Defined.

(** The admin accepts Alice's pending paper; she can no longer withdraw
    it. *)
Lemma reviewed_paper_cannot_be_withdrawn_witness :
  exists reviewed e,
    fst (Admin.updatePaperStatus Demo.runtime "p-1" "accepted" "fine"
           (Demo.as_user (Some Demo.root_login) []))
    = Returned (Success reviewed)
    /\ fst (PaperSubmission.deletePaper "p-1"
              (snd (Admin.updatePaperStatus Demo.runtime "p-1" "accepted" "fine"
                      (Demo.as_user (Some Demo.root_login) []))))
       = Returned (Failure e).
Proof.
  destruct (reviewed_paper_cannot_be_withdrawn Demo.runtime "accepted" "fine"
              (Demo.as_user (Some Demo.root_login) []) Demo.root Demo.p1)
    as (reviewed & Hres & _ & _ & (e & He) & _).
  - now apply healthy_no_faults.
  - reflexivity.
  - now left.
  - exact demo_paper_ids.
  - discriminate.
  - exists reviewed, e. split; [exact Hres | exact He].
Defined.

(** Alice submits a paper and finds it in her list. *)
Lemma uploaded_paper_is_listed_witness :
  exists p l,
    fst (PaperSubmission.uploadPaper Demo.runtime Demo.pdf Demo.titled_X
           (Demo.as_user (Some Demo.alice_login) []))
    = Returned (Success p)
    /\ fst (PaperSubmission.getUserPapers (fun _ => 0%Z)
              (snd (PaperSubmission.uploadPaper Demo.runtime Demo.pdf
                      Demo.titled_X
                      (Demo.as_user (Some Demo.alice_login) []))))
       = Returned l
    /\ In p l.
Proof.
  destruct (uploaded_paper_is_listed Demo.runtime (fun _ => 0%Z) Demo.pdf
              Demo.titled_X (Demo.as_user (Some Demo.alice_login) [])
              Demo.alice_login (Auth.UserProfile Demo.alice))
    as (p & l & Hu & Hl & Hin & _).
  - now apply healthy_no_faults.
  - reflexivity.
  - reflexivity.
  - reflexivity.
  - reflexivity.
  - vm_compute. reflexivity.
  - exists p, l. split; [exact Hu|]. split; [exact Hl | exact Hin].
Defined.

(* ================================================================== *)
(** ** The file-type check on names beyond the ASCII range *)
(* ================================================================== *)

Lemma of_string_inj (a b : string) : Wide.of_string a = Wide.of_string b -> a = b.
Proof.
  revert b. induction a as [|x a IH]; intros [|y b] H; try discriminate H.
  - reflexivity.
  - cbn in H. injection H as Hxy Hab.
    apply (f_equal ascii_of_N) in Hxy. rewrite !ascii_N_embedding in Hxy.
    subst y. f_equal. now apply IH.
Qed.

Lemma wide_eqb_eq (a b : list N) : Wide.eqb a b = true <-> a = b.
Proof.
  revert b. induction a as [|x a IH]; intros [|y b]; cbn;
    try (split; [discriminate | intros H; discriminate H]);
    [now split|].
  rewrite andb_true_iff, N.eqb_eq, IH. split.
  - now intros [-> ->].
  - intros [= -> ->]. now split.
Qed.

Lemma wide_lastIndexOf_from (s : string) (i acc : Z) :
  Wide.lastIndexOf_from Wide.dot (Wide.of_string s) i acc
  = Js.lastIndexOf_from "." s i acc.
Proof.
  revert i acc. induction s as [|a s IH]; intros i acc; [reflexivity|].
  cbn [Wide.of_string String.list_ascii_of_string List.map
       Wide.lastIndexOf_from Js.lastIndexOf_from].
  fold (Wide.of_string s). rewrite IH. f_equal.
  destruct a as [[] [] [] [] [] [] [] []]; reflexivity.
Qed.

Lemma wide_substring (s : string) (n : nat) :
  skipn n (Wide.of_string s) = Wide.of_string (Js.drop_chars n s).
Proof.
  revert s. induction n as [|n IH]; intros s; [reflexivity|].
  destruct s as [|a s]; [reflexivity|]. cbn. apply IH.
Qed.

Lemma wide_includes (arr : list string) (x : string) :
  Wide.includes (List.map Wide.of_string arr) (Wide.of_string x)
  = Js.includes arr x.
Proof.
  unfold Wide.includes, Js.includes.
  induction arr as [|t arr IH]; [reflexivity|].
  cbn [List.map existsb]. rewrite IH. f_equal.
  destruct (String.eqb_spec x t) as [->|Hne].
  - now apply wide_eqb_eq.
  - destruct (Wide.eqb (Wide.of_string x) (Wide.of_string t)) eqn:E;
      [|reflexivity].
    apply wide_eqb_eq, of_string_inj in E. contradiction.
Qed.

(** On a name the strings of this development hold, and on which the
    built-in lower-casing is the one of [Js], the check on code units is
    [Utils.isValidFileType]. *)
Lemma isValidFileType_of_string (toLowerCase : list N -> list N)
    (fileName : string) (allowedTypes : list string) :
  toLowerCase (Wide.of_string fileName)
  = Wide.of_string (Js.toLowerCase fileName) ->
  Wide.isValidFileType toLowerCase (Wide.of_string fileName)
    (List.map Wide.of_string allowedTypes)
  = Utils.isValidFileType fileName allowedTypes.
Proof.
  intros Hlow. unfold Wide.isValidFileType, Utils.isValidFileType,
    Wide.lastIndexOf, Js.lastIndexOf, Wide.substring, Js.substring.
  rewrite Hlow, wide_lastIndexOf_from, wide_substring. apply wide_includes.
Qed.

Lemma lower_unit_ascii (c : ascii) :
  (N_of_ascii c <? 128)%N = true ->
  Demo.lower_unit (N_of_ascii c) = [N_of_ascii (Js.lower_char c)].
Proof.
  destruct c as [[] [] [] [] [] [] [] []]; intros H;
    first [discriminate H | reflexivity].
Qed.

Lemma demo_toLowerCase_ascii (s : string) :
  ascii_only s = true ->
  Demo.toLowerCase (Wide.of_string s) = Wide.of_string (Js.toLowerCase s).
Proof.
  unfold ascii_only.
  induction s as [|c s IH]; intros H; [reflexivity|].
  cbn [String.list_ascii_of_string forallb] in H.
  apply andb_true_iff in H as [Hc Hs].
  change (Demo.toLowerCase (Wide.of_string (String c s)))
    with (Demo.lower_unit (N_of_ascii c) ++ Demo.toLowerCase (Wide.of_string s)).
  change (Wide.of_string (Js.toLowerCase (String c s)))
    with ([N_of_ascii (Js.lower_char c)] ++ Wide.of_string (Js.toLowerCase s)).
  now rewrite (IH Hs), (lower_unit_ascii c Hc).
Qed.

(** On ASCII names the check on code units, run with the lower-casing of
    the small deployment, is the check of the workflow. *)
Lemma isValidFileType_ascii (fileName : string) (allowedTypes : list string) :
  ascii_only fileName = true ->
  Wide.isValidFileType Demo.toLowerCase (Wide.of_string fileName)
    (List.map Wide.of_string allowedTypes)
  = Utils.isValidFileType fileName allowedTypes.
Proof.
  intros H. apply isValidFileType_of_string. now apply demo_toLowerCase_ascii.
Qed.

(** C2. The file whose name is U+0130 followed by [.pdf] has the allowed
    extension [pdf], and the file-type check of [uploadPaper] rejects it.
    Lower-casing turns U+0130 into two code units, so the position of the
    last dot, taken in the name as given, is one short in the lower-cased
    name; what is compared with the allow-list is U+0307 followed by
    [.pdf]. *)
Theorem isValidFileType_rejects_capital_I_dot_pdf
    (toLowerCase : list N -> list N) :
  toLowerCase Wide.capital_I_dot_pdf
  = 105%N :: 775%N :: Wide.of_string ".pdf" ->
  Wide.substring Wide.capital_I_dot_pdf
    (Wide.lastIndexOf Wide.dot Wide.capital_I_dot_pdf)
  = Wide.of_string ".pdf"
  /\ In ".pdf" PaperSubmission.allowedTypes
  /\ Wide.substring (toLowerCase Wide.capital_I_dot_pdf)
       (Wide.lastIndexOf Wide.dot Wide.capital_I_dot_pdf)
     = 775%N :: Wide.of_string ".pdf"
  /\ Wide.isValidFileType toLowerCase Wide.capital_I_dot_pdf
       (List.map Wide.of_string PaperSubmission.allowedTypes)
     = false.
Proof.
  intros Hlow. unfold Wide.isValidFileType. rewrite Hlow.
  split; [reflexivity|]. split; [now left|]. split; reflexivity.
Qed.

(** With the lower-casing of the small deployment. *)
Lemma isValidFileType_rejects_capital_I_dot_pdf_witness :
  Demo.toLowerCase Wide.capital_I_dot_pdf
  = 105%N :: 775%N :: Wide.of_string ".pdf"
  /\ Wide.isValidFileType Demo.toLowerCase Wide.capital_I_dot_pdf
       (List.map Wide.of_string PaperSubmission.allowedTypes)
     = false.
Proof.
  assert (Hlow : Demo.toLowerCase Wide.capital_I_dot_pdf
                 = 105%N :: 775%N :: Wide.of_string ".pdf") by reflexivity.
  split; [exact Hlow|].
  destruct (isValidFileType_rejects_capital_I_dot_pdf Demo.toLowerCase Hlow)
    as (_ & _ & _ & H).
  exact H.
Defined.
